(** * PlanFirst: plan extraction and implementation verification

    A shallow embedding of [src/core/planner.ts] (class [Planner]) and
    [src/core/verifier.ts] (class [Verifier]), the complete versions of
    both, together with the JavaScript string and regular-expression
    operations they are written with.

    Conventions of the model:
    - a JavaScript string is a [string] of 8-bit characters read as ASCII
      text: case conversion acts on the letters A-Z and a-z, white space is
      the ASCII white space, every other character is left alone;
    - a JavaScript number that counts something is a [nat]; the match
      percentage, which is a quotient, is an exact rational [Q] (the
      program computes it in IEEE doubles; the comparisons proved below
      are with whole numbers, and the sums 50 + 1 * 30 and n / 2 they rest
      on are exact in doubles too);
    - a regular expression literal is a term of [Regex.regex] run by a
      backtracking matcher that follows the ECMAScript matching rules;
    - an [async] function that may reject is a function into [result];
    - the file system and the clock are explicit arguments. *)

From Stdlib Require Import List String Ascii Bool Arith NArith ZArith QArith Qround Qminmax.
From Stdlib Require Import DecimalString Lia.
Import ListNotations.

Local Close Scope Q_scope.
Local Open Scope nat_scope.
Local Open Scope list_scope.
Local Open Scope string_scope.

(* ===================================================================== *)
(** ** JavaScript strings *)
(* ===================================================================== *)

Module Js.

Definition code (c : ascii) : N := N_of_ascii c.

Definition inRange (lo hi c : ascii) : bool :=
  (code lo <=? code c)%N && (code c <=? code hi)%N.

Definition isUpper (c : ascii) : bool := inRange "A" "Z" c.
Definition isLower (c : ascii) : bool := inRange "a" "z" c.
Definition isDigit (c : ascii) : bool := inRange "0" "9" c.

(** LineTerminator: LF and CR. *)
Definition isLineTerminator (c : ascii) : bool :=
  (code c =? 10)%N || (code c =? 13)%N.

(** The class [\s]: TAB, LF, VT, FF, CR and SPACE. *)
Definition isSpace (c : ascii) : bool :=
  ((9 <=? code c)%N && (code c <=? 13)%N) || (code c =? 32)%N.

Definition lowerChar (c : ascii) : ascii :=
  if isUpper c then ascii_of_N (code c + 32) else c.

Definition upperChar (c : ascii) : ascii :=
  if isLower c then ascii_of_N (code c - 32) else c.

Fixpoint mapChars (f : ascii -> ascii) (s : string) : string :=
  match s with
  | EmptyString => EmptyString
  | String c t => String (f c) (mapChars f t)
  end.

Definition toLowerCase (s : string) : string := mapChars lowerChar s.
Definition toUpperCase (s : string) : string := mapChars upperChar s.

(** [s.slice(0, n)] *)
Definition slice0 (n : nat) (s : string) : string := substring 0 n s.

(** [s.slice(n)] *)
Fixpoint sliceFrom (n : nat) (s : string) : string :=
  match n, s with
  | O, _ => s
  | S _, EmptyString => EmptyString
  | S k, String _ t => sliceFrom k t
  end.

(** [s.charAt(0)] *)
Definition charAt0 (s : string) : string := slice0 1 s.

(** [s.includes(t)] *)
Fixpoint includes (s t : string) : bool :=
  prefix t s ||
  match s with
  | EmptyString => false
  | String _ s' => includes s' t
  end.

Fixpoint trimStart (s : string) : string :=
  match s with
  | EmptyString => EmptyString
  | String c t => if isSpace c then trimStart t else s
  end.

Fixpoint revString (acc s : string) : string :=
  match s with
  | EmptyString => acc
  | String c t => revString (String c acc) t
  end.

Definition trimEnd (s : string) : string :=
  revString "" (trimStart (revString "" s)).

(** [s.trim()] *)
Definition trim (s : string) : string := trimEnd (trimStart s).

(** [String(n)] for a natural number. *)
Definition ofNat (n : nat) : string := NilZero.string_of_uint (Nat.to_uint n).

(** [String(z)] for an integer. *)
Definition ofZ (z : Z) : string := NilZero.string_of_int (Z.to_int z).

(** Truthiness of a string: the empty string is falsy. *)
Definition truthy (s : string) : bool :=
  match s with EmptyString => false | _ => true end.

(** A [Set<string>] keeps its elements in insertion order, each once. *)
Definition setHas (s : list string) (x : string) : bool :=
  existsb (String.eqb x) s.

Definition setAdd (s : list string) (x : string) : list string :=
  if setHas s x then s else (s ++ [x])%list.

End Js.

(* ===================================================================== *)
(** ** Regular expressions *)
(* ===================================================================== *)

Module Regex.

Record flags : Type := mkFlags
  { ignoreCase : bool;    (* i *)
    multiline : bool;     (* m *)
    dotAll : bool }.      (* s *)

(** The patterns of the program use one capturing group at most, so a
    single capture slot is kept. *)
Inductive regex : Type :=
| Eps : regex
| Lit : ascii -> regex                       (* a literal character *)
| Class : bool -> (ascii -> bool) -> regex   (* [...] or [^...]: inverted?, members *)
| Dot : regex                                (* . *)
| Bol : regex                                (* ^ *)
| Eol : regex                                (* $ *)
| Seq : regex -> regex -> regex
| Alt : regex -> regex -> regex
| Rep : bool -> nat -> option nat -> regex -> regex  (* greedy?, min, max *)
| Group : regex -> regex                     (* ( ... ), capture 1 *)
| Look : regex -> regex.                     (* (?= ... ) *)

(** A matcher state: the character before the current position, the
    input from the current position on, and capture 1. *)
Record mstate : Type := mkState
  { prev : option ascii;
    rest : string;
    cap : option string }.

Definition remaining (st : mstate) : nat := String.length (rest st).

(** Canonicalize, with and without the [i] flag. *)
Definition canon (f : flags) (c : ascii) : ascii :=
  if ignoreCase f then Js.upperChar c else c.

Definition member (f : flags) (p : ascii -> bool) (c : ascii) : bool :=
  if ignoreCase f then p (Js.lowerChar c) || p (Js.upperChar c) else p c.

(** Consume one character when [ok] accepts it. *)
Definition oneChar (ok : ascii -> bool) (st : mstate) : list mstate :=
  match rest st with
  | EmptyString => []
  | String c t => if ok c then [mkState (Some c) t (cap st)] else []
  end.

Definition atLineStart (f : flags) (st : mstate) : bool :=
  match prev st with
  | None => true
  | Some c => multiline f && Js.isLineTerminator c
  end.

Definition atLineEnd (f : flags) (st : mstate) : bool :=
  match rest st with
  | EmptyString => true
  | String c _ => multiline f && Js.isLineTerminator c
  end.

Definition predMax (max : option nat) : option nat :=
  match max with
  | None => None
  | Some k => Some (Nat.pred k)
  end.

(** RepeatMatcher: [step] is the matcher of the repeated atom.  An
    iteration that consumes nothing once the minimum is reached is
    rejected, so every iteration lowers [remaining st + min]: that is the
    fuel [run] starts [repeat] with. *)
Fixpoint repeat (fuel : nat) (step : mstate -> list mstate)
         (greedy : bool) (min : nat) (max : option nat) (st : mstate)
  : list mstate :=
  match max with
  | Some O => [st]
  | _ =>
    let again :=
      match fuel with
      | O => []
      | S fuel' =>
        flat_map
          (fun st' =>
             if Nat.eqb min 0 && Nat.eqb (remaining st') (remaining st) then []
             else repeat fuel' step greedy (Nat.pred min) (predMax max) st')
          (step st)
      end in
    if negb (Nat.eqb min 0) then again
    else if greedy then (again ++ [st])%list
    else st :: again
  end.

(** All the ways [r] matches at [st], in the order a backtracking
    matcher tries them; the head is the match the engine reports. *)
Fixpoint run (f : flags) (r : regex) (st : mstate) : list mstate :=
  match r with
  | Eps => [st]
  | Lit a =>
    oneChar (fun c => Ascii.eqb (canon f c) (canon f a)) st
  | Class inverted p =>
    oneChar (fun c => xorb inverted (member f p c)) st
  | Dot =>
    oneChar (fun c => dotAll f || negb (Js.isLineTerminator c)) st
  | Bol => if atLineStart f st then [st] else []
  | Eol => if atLineEnd f st then [st] else []
  | Seq r1 r2 => flat_map (run f r2) (run f r1 st)
  | Alt r1 r2 => (run f r1 st ++ run f r2 st)%list
  | Rep greedy min max r' =>
    repeat (remaining st + min) (run f r') greedy min max st
  | Group r' =>
    map (fun st' =>
           mkState (prev st') (rest st')
                   (Some (substring 0 (remaining st - remaining st') (rest st))))
        (run f r' st)
  | Look r' =>
    match run f r' st with
    | [] => []
    | st' :: _ => [mkState (prev st) (rest st) (cap st')]
    end
  end.

(** A match object: [m[0]] and [m[1]]. *)
Record jsmatch : Type := mkMatch
  { m0 : string;
    m1 : option string }.

(** The match starting exactly at the current position, with its length. *)
Definition matchAt (f : flags) (r : regex) (p : option ascii) (s : string)
  : option (jsmatch * nat) :=
  match run f r (mkState p s None) with
  | [] => None
  | st' :: _ =>
    let n := String.length s - remaining st' in
    Some (mkMatch (substring 0 n s) (cap st'), n)
  end.

(** [s.matchAll(r)] for a global [r]: [skip] counts the characters of the
    previous match still to pass.  After an empty match the search
    resumes one character further. *)
Fixpoint matchAllFrom (f : flags) (r : regex) (skip : nat)
         (p : option ascii) (s : string) : list jsmatch :=
  match skip with
  | S k =>
    match s with
    | EmptyString => []
    | String c t => matchAllFrom f r k (Some c) t
    end
  | O =>
    match matchAt f r p s with
    | Some (m, n) =>
      m :: match s with
           | EmptyString => []
           | String c t => matchAllFrom f r (Nat.pred n) (Some c) t
           end
    | None =>
      match s with
      | EmptyString => []
      | String c t => matchAllFrom f r 0 (Some c) t
      end
    end
  end.

Definition matchAll (f : flags) (r : regex) (s : string) : list jsmatch :=
  matchAllFrom f r 0 None s.

(** [s.match(r)] for a non-global [r]: the first match, if any. *)
Fixpoint matchFirstFrom (f : flags) (r : regex) (p : option ascii) (s : string)
  : option jsmatch :=
  match matchAt f r p s with
  | Some (m, _) => Some m
  | None =>
    match s with
    | EmptyString => None
    | String c t => matchFirstFrom f r (Some c) t
    end
  end.

Definition matchFirst (f : flags) (r : regex) (s : string) : option jsmatch :=
  matchFirstFrom f r None s.

(** [s.split(r)] for a separator pattern that never matches the empty
    string (both separators of the program need a character): [piece] is
    the current piece, [skip] the characters of a separator still to
    pass. *)
Fixpoint splitFrom (f : flags) (r : regex) (skip : nat) (piece : string)
         (p : option ascii) (s : string) : list string :=
  match s with
  | EmptyString => [piece]
  | String c t =>
    match skip with
    | S k => splitFrom f r k piece (Some c) t
    | O =>
      match matchAt f r p s with
      | Some (_, S n) => piece :: splitFrom f r n "" (Some c) t
      | _ => splitFrom f r 0 (piece ++ String c "") (Some c) t
      end
    end
  end.

Definition split (f : flags) (r : regex) (s : string) : list string :=
  splitFrom f r 0 "" None s.

(** *** Pattern syntax *)

Fixpoint str (s : string) : regex :=
  match s with
  | EmptyString => Eps
  | String c EmptyString => Lit c
  | String c t => Seq (Lit c) (str t)
  end.

Fixpoint seqs (rs : list regex) : regex :=
  match rs with
  | [] => Eps
  | [r] => r
  | r :: rs' => Seq r (seqs rs')
  end.

Fixpoint alts (rs : list regex) : regex :=
  match rs with
  | [] => Eps
  | [r] => r
  | r :: rs' => Alt r (alts rs')
  end.

Definition plus (r : regex) : regex := Rep true 1 None r.         (* r+ *)
Definition star (r : regex) : regex := Rep true 0 None r.         (* r* *)
Definition opt (r : regex) : regex := Rep true 0 (Some 1) r.      (* r? *)
Definition lazyPlus (r : regex) : regex := Rep false 1 None r.    (* r+? *)
Definition between (lo hi : nat) (r : regex) : regex :=
  Rep true lo (Some hi) r.                                        (* r{lo,hi} *)

Definition space : regex := Class false Js.isSpace.               (* \s *)
Definition digit : regex := Class false Js.isDigit.               (* \d *)

Definition noFlags : flags := mkFlags false false false.

End Regex.

(* ===================================================================== *)
(** ** Data model ([src/types/index.ts]) *)
(* ===================================================================== *)

Inductive TaskType : Type := create | modify | delete | rename | move.

Definition TaskType_toString (t : TaskType) : string :=
  match t with
  | create => "create"
  | modify => "modify"
  | delete => "delete"
  | rename => "rename"
  | move => "move"
  end.

Module ChangeAction.
Inductive t : Type := add | modify | delete | replace | refactor | comment.
End ChangeAction.

Module Change.
Record t : Type := mk
  { location : string;
    action : ChangeAction.t;
    description : string;
    code : option string;
    rationale : string }.
End Change.

Module Task.
Record t : Type := mk
  { id : string;
    type : TaskType;
    file : string;
    description : string;
    reasoning : string;
    changes : list Change.t;
    dependencies : option (list string) }.
End Task.

Module PhaseStatus.
Inductive t : Type := pending | inProgress | completed | failed.
End PhaseStatus.

Module Phase.
Record t : Type := mk
  { id : string;
    order : nat;
    name : string;
    description : string;
    tasks : list Task.t;
    dependencies : list string;
    status : PhaseStatus.t }.
End Phase.

Inductive Complexity : Type := low | medium | high.

Module PlanMetadata.
Record t : Type := mk
  { estimatedComplexity : Complexity;
    filesAffected : list string;
    dependencies : list string;
    estimatedTime : option string }.
End PlanMetadata.

Module PlanStatus.
Inductive t : Type := draft | ready | inProgress | completed | verified.
End PlanStatus.

Module Plan.
Record t : Type := mk
  { id : string;
    title : string;
    description : string;
    timestamp : nat;
    phases : list Phase.t;
    metadata : PlanMetadata.t;
    status : PlanStatus.t }.
End Plan.

(** The part of [AnalysisResult] the planner reads. *)
Module Project.
Record t : Type := mk { dependencies : list string }.
End Project.

Module AnalysisResult.
Record t : Type := mk { project : Project.t }.
End AnalysisResult.

(** [VerificationStatus] *)
Module Status.
Inductive t : Type := pass | partial | fail | error.

Definition eqb (a b : t) : bool :=
  match a, b with
  | pass, pass | partial, partial | fail, fail | error, error => true
  | _, _ => false
  end.
End Status.

(** [IssueSeverity] *)
Module Severity.
Inductive t : Type := critical | error | warning | info.

Definition eqb (a b : t) : bool :=
  match a, b with
  | critical, critical | error, error | warning, warning | info, info => true
  | _, _ => false
  end.
End Severity.

Inductive IssueType : Type :=
| missing_implementation
| incorrect_implementation
| regression
| extra_changes
| dependency_issue
| syntax_error
| logic_error.

Module Issue.
Record t : Type := mk
  { severity : Severity.t;
    type : IssueType;
    message : string;
    file : string;
    line : option nat;
    suggestion : option string }.
End Issue.

Module TaskVerification.
Record t : Type := mk
  { taskId : string;
    file : string;
    status : Status.t;
    issues : list Issue.t;
    matchPercentage : Q }.
End TaskVerification.

Module VerificationSummary.
Record t : Type := mk
  { totalTasks : nat;
    tasksCompleted : nat;
    tasksPartial : nat;
    tasksMissing : nat;
    criticalIssues : nat;
    warnings : nat }.
End VerificationSummary.

Module VerificationResult.
Record t : Type := mk
  { planId : string;
    phaseId : option string;
    timestamp : nat;
    overallStatus : Status.t;
    taskResults : list TaskVerification.t;
    summary : VerificationSummary.t;
    recommendations : list string }.
End VerificationResult.

(* ===================================================================== *)
(** ** The planner ([src/core/planner.ts]) *)
(* ===================================================================== *)

Module Planner.
Import Regex.

Definition isChar (a c : ascii) : bool := Ascii.eqb c a.

(** [/^#\s+(.+)$/m] *)
Definition titlePattern : regex :=
  seqs [Bol; Lit "#"; plus space; Group (plus Dot); Eol].
Definition titleFlags : flags := mkFlags false true false.

(** [/##\s+(?:Phase\s+\d+[:\s]+)?(.+?)(?=##\s+|$)/gs] *)
Definition phasePattern : regex :=
  seqs [ str "##"; plus space;
         opt (seqs [ str "Phase"; plus space; plus digit;
                     plus (Class false (fun c => isChar ":" c || Js.isSpace c)) ]);
         Group (lazyPlus Dot);
         Look (Alt (Seq (str "##") (plus space)) Eol) ].
Definition phaseFlags : flags := mkFlags false false true.

(** [[a-zA-Z0-9_\-\/]] *)
Definition pathChar (c : ascii) : bool :=
  Js.isLower c || Js.isUpper c || Js.isDigit c
  || isChar "_" c || isChar "-" c || isChar "/" c.

(** The three patterns of [extractTasks], in the order of the array:
    [/(?:Create|Add|Modify|Update|Edit)\s+`([^`]+\.[a-z]+)`/gi],
    [/(?:File|Path):\s*`([^`]+\.[a-z]+)`/gi] and
    [/`([a-zA-Z0-9_\-\/]+\.[a-z]{2,4})`/g]. *)
Definition filePatterns : list (flags * regex) :=
  [ (mkFlags true false false,
     seqs [ alts [str "Create"; str "Add"; str "Modify"; str "Update"; str "Edit"];
            plus space; Lit "`";
            Group (seqs [ plus (Class true (isChar "`")); Lit ".";
                          plus (Class false Js.isLower) ]);
            Lit "`" ]);
    (mkFlags true false false,
     seqs [ Alt (str "File") (str "Path"); Lit ":"; star space; Lit "`";
            Group (seqs [ plus (Class true (isChar "`")); Lit ".";
                          plus (Class false Js.isLower) ]);
            Lit "`" ]);
    (noFlags,
     seqs [ Lit "`";
            Group (seqs [ plus (Class false pathChar); Lit ".";
                          between 2 4 (Class false Js.isLower) ]);
            Lit "`" ]) ].

(** [/`([a-zA-Z0-9_\-\/\.]+\.[a-z]{2,4})`/g] of [extractFilesMentioned] *)
Definition mentionedPattern : regex :=
  seqs [ Lit "`";
         Group (seqs [ plus (Class false (fun c => pathChar c || isChar "." c));
                       Lit "."; between 2 4 (Class false Js.isLower) ]);
         Lit "`" ].

(** [/[.!?]\s+/] of [extractReasoning] *)
Definition sentenceEnd : regex :=
  Seq (Class false (fun c => isChar "." c || isChar "!" c || isChar "?" c))
      (plus space).

Definition determineTaskType (content file : string) : TaskType :=
  let lowerContent := Js.toLowerCase content in
  let lowerFile := Js.toLowerCase file in
  if Js.includes lowerContent ("create " ++ lowerFile)
     || Js.includes lowerContent ("new " ++ lowerFile)
     || Js.includes lowerContent ("add " ++ lowerFile)
  then create
  else if Js.includes lowerContent ("delete " ++ lowerFile)
          || Js.includes lowerContent ("remove " ++ lowerFile)
  then delete
  else modify.

Definition extractReasoning (content file : string) : string :=
  let sentences := split noFlags sentenceEnd content in
  match find (fun s => Js.includes s file) sentences with
  | Some relevantSentence => Js.slice0 200 (Js.trim relevantSentence)
  | None => "Implement as described in the plan"
  end.

(** The body of the inner [matches.forEach] of [extractTasks]. *)
Definition addFile (filesFound : list string) (m : jsmatch) : list string :=
  match m1 m with
  | Some path =>
    if Js.truthy path && negb (Js.setHas filesFound path)
    then Js.setAdd filesFound path
    else filesFound
  | None => filesFound
  end.

Definition findFiles (content : string) : list string :=
  fold_left
    (fun filesFound pattern =>
       fold_left addFile (matchAll (fst pattern) (snd pattern) content) filesFound)
    filePatterns [].

(** The callback of [filesFound.forEach((file, idx) => ...)].
    [filesFound] is a [Set]: [Set.prototype.forEach] calls its callback
    with (value, key, set) and the key of a set entry is its value, so
    [idx] is bound to the file path, a string, and [idx + 1] appends the
    character 1 to it. *)
Definition taskOf (content file idx : string) : Task.t :=
  let taskType := determineTaskType content file in
  let typeName := TaskType_toString taskType in
  {| Task.id := "task-" ++ (idx ++ Js.ofNat 1);
     Task.type := taskType;
     Task.file := file;
     Task.description :=
       (Js.toUpperCase (Js.charAt0 typeName) ++ Js.sliceFrom 1 typeName)
         ++ " " ++ file;
     Task.reasoning := extractReasoning content file;
     Task.changes := [];
     Task.dependencies := None |}.

Definition genericTask : Task.t :=
  {| Task.id := "task-1";
     Task.type := modify;
     Task.file := "implementation";
     Task.description := "Implement the planned changes";
     Task.reasoning := "As described in the plan";
     Task.changes := [];
     Task.dependencies := None |}.

Definition extractTasks (content : string) : list Task.t :=
  let filesFound := findFiles content in
  let tasks := map (fun file => taskOf content file file) filesFound in
  match tasks with
  | [] => [genericTask]
  | _ => tasks
  end.

Definition implementationPhase (markdown : string) : Phase.t :=
  {| Phase.id := "phase-1";
     Phase.order := 1;
     Phase.name := "Implementation";
     Phase.description := "Complete implementation";
     Phase.tasks := extractTasks markdown;
     Phase.dependencies := [];
     Phase.status := PhaseStatus.pending |}.

(** The callback of [matches.forEach((match, idx) => ...)]: here [matches]
    is an array and [idx] the index. *)
Definition phaseOf (m : jsmatch) (idx : nat) : Phase.t :=
  let phaseName := Js.trim (match m1 m with Some s => s | None => "" end) in
  let phaseContent := m0 m in
  {| Phase.id := "phase-" ++ Js.ofNat (idx + 1);
     Phase.order := idx + 1;
     Phase.name := phaseName;
     Phase.description := Js.slice0 200 phaseContent;
     Phase.tasks := extractTasks phaseContent;
     Phase.dependencies := if (0 <? idx)%nat then ["phase-" ++ Js.ofNat idx] else [];
     Phase.status := PhaseStatus.pending |}.

(** [matches.forEach] pushing onto [phases], with the running index. *)
Fixpoint pushPhases (matches : list jsmatch) (idx : nat) (phases : list Phase.t)
  : list Phase.t :=
  match matches with
  | [] => phases
  | m :: rest => pushPhases rest (S idx) (phases ++ [phaseOf m idx])%list
  end.

Definition extractPhases (markdown : string) : list Phase.t :=
  let matches := matchAll phaseFlags phasePattern markdown in
  match matches with
  | [] => [implementationPhase markdown]
  | _ =>
    let phases := pushPhases matches 0 [] in
    if (0 <? List.length phases)%nat then phases else [implementationPhase markdown]
  end.

Definition addMentioned (files : list string) (m : jsmatch) : list string :=
  match m1 m with
  | Some path =>
    if Js.truthy path && negb (Js.includes path " ")
    then Js.setAdd files path
    else files
  | None => files
  end.

Definition extractFilesMentioned (markdown : string) : list string :=
  fold_left addMentioned (matchAll noFlags mentionedPattern markdown) [].

Definition estimateComplexity (markdown : string) (phaseCount fileCount : nat)
  : Complexity :=
  let wordCount := List.length (split noFlags (plus space) markdown) in
  if (10 <? fileCount)%nat || (5 <? phaseCount)%nat || (2000 <? wordCount)%nat then high
  else if (5 <? fileCount)%nat || (2 <? phaseCount)%nat || (1000 <? wordCount)%nat then medium
  else low.

Definition baseHours (c : Complexity) : nat :=
  match c with low => 2 | medium => 6 | high => 16 end.

(** [Math.ceil(hours / d)] on natural numbers. *)
Definition ceilDiv (hours d : nat) : nat := (hours + (d - 1)) / d.

Definition estimateTime (complexity : Complexity) (phases : nat) : string :=
  let hours := baseHours complexity * phases in
  if (hours <? 8)%nat then Js.ofNat hours ++ " hours"
  else if (hours <? 40)%nat then Js.ofNat (ceilDiv hours 8) ++ " days"
  else Js.ofNat (ceilDiv hours 40) ++ " weeks".

(** [now] is the value of [Date.now()], [date] that of [new Date()]. *)
Definition parsePlanFromMarkdown (now date : nat)
           (markdown description : string) (analysis : AnalysisResult.t)
  : Plan.t :=
  let planId := "plan-" ++ Js.ofNat now in
  let titleMatch := matchFirst titleFlags titlePattern markdown in
  let title :=
    match titleMatch with
    | Some m => match m1 m with Some s => s | None => "" end
    | None => Js.slice0 100 description
    end in
  let phases := extractPhases markdown in
  let filesAffected := extractFilesMentioned markdown in
  let complexity :=
    estimateComplexity markdown (List.length phases) (List.length filesAffected) in
  {| Plan.id := planId;
     Plan.title := title;
     Plan.description := description;
     Plan.timestamp := date;
     Plan.phases := phases;
     Plan.metadata :=
       {| PlanMetadata.estimatedComplexity := complexity;
          PlanMetadata.filesAffected := filesAffected;
          PlanMetadata.dependencies :=
            firstn 10 (Project.dependencies (AnalysisResult.project analysis));
          PlanMetadata.estimatedTime :=
            Some (estimateTime complexity (List.length phases)) |};
     Plan.status := PlanStatus.ready |}.

End Planner.

(* ===================================================================== *)
(** ** Errors and the file system ([src/utils/fileSystem.ts]) *)
(* ===================================================================== *)

Module PlanFirstError.
Record t : Type := mk
  { name : string;
    message : string;
    code : string }.
End PlanFirstError.

Definition FileSystemError (message : string) : PlanFirstError.t :=
  {| PlanFirstError.name := "FileSystemError";
     PlanFirstError.message := message;
     PlanFirstError.code := "FS_ERROR" |}.

(** The outcome of an [async] function: a value, or the error it threw. *)
Inductive result (A : Type) : Type :=
| Ok : A -> result A
| Err : PlanFirstError.t -> result A.

Arguments Ok {A} _.
Arguments Err {A} _.

Definition bind {A B : Type} (c : result A) (k : A -> result B) : result B :=
  match c with
  | Ok a => k a
  | Err e => Err e
  end.

Notation "x <- c ;; k" := (bind c (fun x => k))
  (at level 61, c at next level, right associativity).

(** The state of the disk as the verifier sees it: [access p] tells whether
    [fs.access(p)] succeeds, [read p] is the text [fs.readFile(p, 'utf-8')]
    gives, or [None] when it throws; the two are independent, a file may
    be there and not be readable.  [join] is [path.join]. *)
Module FileSystem.
Record t : Type := mk
  { join : string -> string -> string;
    access : string -> bool;
    read : string -> option string }.
End FileSystem.

(** [exists] *)
Definition fileExists (fs : FileSystem.t) (filePath : string) : bool :=
  FileSystem.access fs filePath.

Definition readFile (fs : FileSystem.t) (filePath : string) : result string :=
  match FileSystem.read fs filePath with
  | Some content => Ok content
  | None => Err (FileSystemError ("Failed to read file: " ++ filePath))
  end.

(* ===================================================================== *)
(** ** The verifier ([src/core/verifier.ts]) *)
(* ===================================================================== *)

Module VerifyOptions.
Record t : Type := mk
  { phase : option nat;
    task : option string;
    strictMode : option bool }.
End VerifyOptions.

Module Verifier.
Import Regex.

(** A count as a JavaScript number. *)
Definition num (n : nat) : Q := inject_Z (Z.of_nat n).

Definition Qleb (x y : Q) : bool := Qle_bool x y.          (* x <= y *)
Definition Qltb (x y : Q) : bool := negb (Qle_bool y x).   (* x < y *)

(** [Math.round] *)
Definition round (x : Q) : Z := Qfloor (x + (1 # 2))%Q.

Definition commonWords : list string :=
  [ "the"; "a"; "an"; "and"; "or"; "but"; "in"; "on"; "at"; "to"; "for";
    "of"; "with"; "by"; "from"; "as"; "is"; "was"; "are"; "be"; "been";
    "has"; "have"; "had"; "do"; "does"; "did"; "will"; "would"; "should";
    "could"; "this"; "that"; "these"; "those"; "file"; "function"; "class" ].

(** [.replace(/[^a-z0-9\s]/g, ' ')] *)
Definition blankOthers (s : string) : string :=
  Js.mapChars
    (fun c => if Js.isLower c || Js.isDigit c || Js.isSpace c then c else " "%char)
    s.

Definition extractKeywords (text : string) : list string :=
  firstn 10
    (filter
       (fun word => (3 <? String.length word)%nat && negb (Js.setHas commonWords word))
       (split noFlags (plus space) (blankOthers (Js.toLowerCase text)))).

(** The callback of [task.changes.forEach] in [calculateMatchPercentage]. *)
Definition countChange (content : string) (changesFound : nat) (change : Change.t)
  : nat :=
  match Change.code change with
  | Some code =>
    if Js.truthy code then
      let codeKeywords := extractKeywords code in
      let found := existsb (fun kw => Js.includes content kw) codeKeywords in
      if found then S changesFound else changesFound
    else changesFound
  | None => changesFound
  end.

Definition calculateMatchPercentage (content : string) (task : Task.t) : Q :=
  let score := 50%Q in
  let keywords := extractKeywords (Task.description task) in
  let keywordsFound :=
    filter (fun keyword =>
              Js.includes (Js.toLowerCase content) (Js.toLowerCase keyword))
           keywords in
  let score :=
    (score + (num (List.length keywordsFound)
              / num (Nat.max (List.length keywords) 1)) * 30)%Q in
  let score :=
    if (0 <? List.length (Task.changes task))%nat then
      let changesFound := fold_left (countChange content) (Task.changes task) 0 in
      (score + (num changesFound / num (List.length (Task.changes task))) * 20)%Q
    else score in
  Qmin 100 (Qmax 0 score).

(** A placeholder in the program: nothing is detected. *)
Definition detectUnplannedChanges (filePath : string) (task : Task.t)
  : list string := [].

Definition issue (severity : Severity.t) (type : IssueType)
           (message file : string) (suggestion : option string) : Issue.t :=
  {| Issue.severity := severity;
     Issue.type := type;
     Issue.message := message;
     Issue.file := file;
     Issue.line := None;
     Issue.suggestion := suggestion |}.

Section VerifyTask.

(** The scoring function, [calculateMatchPercentage] in the program. *)
Variable score : string -> Task.t -> Q.

(** The [create] branch: status, issues and match percentage. *)
Definition verifyCreate (fs : FileSystem.t) (task : Task.t)
           (filePath : string) (fileExists : bool)
  : result (Status.t * list Issue.t * Q) :=
  if negb fileExists then
    Ok (Status.fail,
        [ issue Severity.error missing_implementation
                ("File not created: " ++ Task.file task) (Task.file task)
                (Some "Create the file as specified in the plan") ],
        0%Q)
  else
    content <- readFile fs filePath ;;
    let matchPercentage := score content task in
    if Qleb 80 matchPercentage then
      Ok (Status.pass, [], matchPercentage)
    else if Qleb 50 matchPercentage then
      Ok (Status.partial,
          [ issue Severity.warning incorrect_implementation
                  ("File created but implementation may be incomplete ("
                     ++ Js.ofZ (round matchPercentage) ++ "% match)")
                  (Task.file task)
                  (Some "Review the plan and ensure all requirements are met") ],
          matchPercentage)
    else
      Ok (Status.fail,
          [ issue Severity.error incorrect_implementation
                  "File created but implementation is significantly different from plan"
                  (Task.file task)
                  (Some "Review and align implementation with the plan") ],
          matchPercentage).

(** The [modify] branch. *)
Definition verifyModify (fs : FileSystem.t) (task : Task.t)
           (filePath : string) (fileExists : bool)
  : result (Status.t * list Issue.t * Q) :=
  if negb fileExists then
    Ok (Status.fail,
        [ issue Severity.error missing_implementation
                ("File does not exist: " ++ Task.file task) (Task.file task)
                (Some (if Task.file task =? "unknown"
                       then "This task may need clarification about which file to modify"
                       else "Check if the file path is correct or if the file needs to be created")) ],
        0%Q)
  else
    content <- readFile fs filePath ;;
    let matchPercentage := score content task in
    if Qleb 70 matchPercentage then
      Ok (Status.pass, [], matchPercentage)
    else if Qleb 40 matchPercentage then
      Ok (Status.partial,
          [ issue Severity.warning incorrect_implementation
                  ("Modifications may be incomplete ("
                     ++ Js.ofZ (round matchPercentage) ++ "% confidence)")
                  (Task.file task)
                  (Some "Verify that all planned changes have been made") ],
          matchPercentage)
    else
      Ok (Status.fail,
          [ issue Severity.error missing_implementation
                  "Required modifications not detected"
                  (Task.file task)
                  (Some "Review the plan and implement the required changes") ],
          matchPercentage).

(** The [delete] branch. *)
Definition verifyDelete (task : Task.t) (fileExists : bool)
  : result (Status.t * list Issue.t * Q) :=
  if fileExists then
    Ok (Status.fail,
        [ issue Severity.error extra_changes
                ("File should have been deleted: " ++ Task.file task)
                (Task.file task)
                (Some "Remove this file as specified in the plan") ],
        0%Q)
  else Ok (Status.pass, [], 100%Q).

(** [verifyTask]: [status] starts as [fail], [issues] empty and
    [matchPercentage] 0, and no branch is taken for [rename] and
    [move]. *)
Definition verifyTaskWith (fs : FileSystem.t) (task : Task.t)
           (rootPath : string) (strictMode : bool)
  : result TaskVerification.t :=
  let filePath := FileSystem.join fs rootPath (Task.file task) in
  let fileExists := fileExists fs filePath in
  outcome <-
    match Task.type task with
    | create => verifyCreate fs task filePath fileExists
    | modify => verifyModify fs task filePath fileExists
    | delete => verifyDelete task fileExists
    | rename | move => Ok (Status.fail, [], 0%Q)
    end ;;
  let '(status, issues, matchPercentage) := outcome in
  let issues :=
    if strictMode && fileExists then
      (issues ++ map (fun change =>
                        issue Severity.warning extra_changes change
                              (Task.file task) None)
                     (detectUnplannedChanges filePath task))%list
    else issues in
  Ok {| TaskVerification.taskId := Task.id task;
        TaskVerification.file := Task.file task;
        TaskVerification.status := status;
        TaskVerification.issues := issues;
        TaskVerification.matchPercentage := matchPercentage |}.

End VerifyTask.

Definition verifyTask : FileSystem.t -> Task.t -> string -> bool
                        -> result TaskVerification.t :=
  verifyTaskWith calculateMatchPercentage.

(** [if (options.phase)]: a phase number that is given and not 0. *)
Definition phaseGiven (options : VerifyOptions.t) : option nat :=
  match VerifyOptions.phase options with
  | Some (S n) => Some (S n)
  | _ => None
  end.

(** [if (options.task)]: a task id that is given and not empty. *)
Definition taskGiven (options : VerifyOptions.t) : option string :=
  match VerifyOptions.task options with
  | Some id => if Js.truthy id then Some id else None
  | None => None
  end.

Definition getTasksToVerify (plan : Plan.t) (options : VerifyOptions.t)
  : list Task.t :=
  let tasks :=
    match phaseGiven options with
    | Some n =>
      match find (fun p => Nat.eqb (Phase.order p) n) (Plan.phases plan) with
      | Some phase => Phase.tasks phase
      | None => []
      end
    | None =>
      fold_left (fun tasks phase => (tasks ++ Phase.tasks phase)%list)
                (Plan.phases plan) []
    end in
  match taskGiven options with
  | Some id => filter (fun t => Task.id t =? id) tasks
  | None => tasks
  end.

(** The loop of [verify]: each result is pushed on [taskResults], its
    issues on [allIssues]; a rejected [verifyTask] ends the loop. *)
Fixpoint verifyLoop (fs : FileSystem.t) (rootPath : string) (strictMode : bool)
         (tasksToVerify : list Task.t)
         (taskResults : list TaskVerification.t) (allIssues : list Issue.t)
  : result (list TaskVerification.t * list Issue.t) :=
  match tasksToVerify with
  | [] => Ok (taskResults, allIssues)
  | task :: rest =>
    taskResult <- verifyTask fs task rootPath strictMode ;;
    verifyLoop fs rootPath strictMode rest
               (taskResults ++ [taskResult])%list
               (allIssues ++ TaskVerification.issues taskResult)%list
  end.

Definition hasStatus (s : Status.t) (t : TaskVerification.t) : bool :=
  Status.eqb (TaskVerification.status t) s.

Definition isCritical (i : Issue.t) : bool :=
  Severity.eqb (Issue.severity i) Severity.critical
  || Severity.eqb (Issue.severity i) Severity.error.

Definition isWarning (i : Issue.t) : bool :=
  Severity.eqb (Issue.severity i) Severity.warning.

Definition summarize (taskResults : list TaskVerification.t)
           (allIssues : list Issue.t) : VerificationSummary.t :=
  {| VerificationSummary.totalTasks := List.length taskResults;
     VerificationSummary.tasksCompleted :=
       List.length (filter (hasStatus Status.pass) taskResults);
     VerificationSummary.tasksPartial :=
       List.length (filter (hasStatus Status.partial) taskResults);
     VerificationSummary.tasksMissing :=
       List.length (filter (hasStatus Status.fail) taskResults);
     VerificationSummary.criticalIssues :=
       List.length (filter isCritical allIssues);
     VerificationSummary.warnings :=
       List.length (filter isWarning allIssues) |}.

Definition determineOverallStatus (summary : VerificationSummary.t) : Status.t :=
  if (0 <? VerificationSummary.criticalIssues summary)%nat
     || Qltb (num (VerificationSummary.totalTasks summary) / 2)%Q
             (num (VerificationSummary.tasksMissing summary))
  then Status.fail
  else if (0 <? VerificationSummary.tasksPartial summary)%nat
          || (0 <? VerificationSummary.tasksMissing summary)%nat
  then Status.partial
  else Status.pass.

Definition plural (n : nat) : string := if (1 <? n)%nat then "s" else "".

Definition generateRecommendations (taskResults : list TaskVerification.t)
           (summary : VerificationSummary.t) : list string :=
  let missing := VerificationSummary.tasksMissing summary in
  let partial := VerificationSummary.tasksPartial summary in
  let r1 :=
    if (0 <? missing)%nat
    then ["Complete the " ++ Js.ofNat missing ++ " missing task" ++ plural missing]
    else [] in
  let r2 :=
    if (0 <? partial)%nat
    then ["Review and improve the " ++ Js.ofNat partial
            ++ " partially implemented task" ++ plural partial]
    else [] in
  let r3 :=
    if (0 <? VerificationSummary.criticalIssues summary)%nat
    then ["Address critical issues before proceeding"]
    else [] in
  let failedTasks := filter (hasStatus Status.fail) taskResults in
  let r4 :=
    if (0 <? List.length failedTasks)%nat && (List.length failedTasks <=? 3)%nat
    then map (fun t => "Review implementation of " ++ TaskVerification.file t)
             failedTasks
    else [] in
  let recommendations := (r1 ++ r2 ++ r3 ++ r4)%list in
  match recommendations with
  | [] => ["Implementation looks good! Consider code review before merging"]
  | _ => recommendations
  end.

(** [options.strictMode || false] *)
Definition strictFlag (options : VerifyOptions.t) : bool :=
  match VerifyOptions.strictMode options with
  | Some b => b || false
  | None => false
  end.

(** [date] is the value of [new Date()]. *)
Definition verify (fs : FileSystem.t) (date : nat)
           (plan : Plan.t) (rootPath : string) (options : VerifyOptions.t)
  : result VerificationResult.t :=
  let tasksToVerify := getTasksToVerify plan options in
  collected <- verifyLoop fs rootPath (strictFlag options) tasksToVerify [] [] ;;
  let '(taskResults, allIssues) := collected in
  let summary := summarize taskResults allIssues in
  let overallStatus := determineOverallStatus summary in
  let recommendations := generateRecommendations taskResults summary in
  Ok {| VerificationResult.planId := Plan.id plan;
        VerificationResult.phaseId :=
          match phaseGiven options with
          | Some n => Some ("phase-" ++ Js.ofNat n)
          | None => None
          end;
        VerificationResult.timestamp := date;
        VerificationResult.overallStatus := overallStatus;
        VerificationResult.taskResults := taskResults;
        VerificationResult.summary := summary;
        VerificationResult.recommendations := recommendations |}.

End Verifier.

(* ===================================================================== *)
(** * Properties *)
(* ===================================================================== *)

(** ** The matcher: the fuel of [repeat] is enough *)

Module RegexFacts.
Import Regex.

(** A matcher that never hands back more input than it was given. *)
Definition shrinking (step : mstate -> list mstate) : Prop :=
  forall st st', In st' (step st) -> remaining st' <= remaining st.

Lemma flat_map_nil {A B : Type} (g : A -> list B) (l : list A) :
  (forall x, In x l -> g x = []) -> flat_map g l = [].
Proof.
  induction l as [|a l IH]; intros H; simpl.
  - reflexivity.
  - rewrite (H a) by (left; reflexivity).
    rewrite IH; [reflexivity|].
    intros x Hx. apply H. right. exact Hx.
Qed.

Lemma flat_map_same {A B : Type} (g h : A -> list B) (l : list A) :
  (forall x, In x l -> g x = h x) -> flat_map g l = flat_map h l.
Proof.
  induction l as [|a l IH]; intros H; simpl.
  - reflexivity.
  - rewrite (H a) by (left; reflexivity).
    rewrite IH; [reflexivity|].
    intros x Hx. apply H. right. exact Hx.
Qed.

Lemma oneChar_shrinking (ok : ascii -> bool) : shrinking (oneChar ok).
Proof.
  intros st st'. unfold oneChar, remaining.
  destruct (rest st) as [|c t] eqn:E; simpl; [tauto|].
  destruct (ok c); simpl; [|tauto].
  intros [<-|[]]. simpl. lia.
Qed.

Lemma repeat_shrinking (step : mstate -> list mstate) :
  shrinking step ->
  forall fuel greedy min max, shrinking (repeat fuel step greedy min max).
Proof.
  intros Hstep fuel. induction fuel as [|fuel IH]; intros greedy min max st st' Hin.
  - simpl in Hin.
    destruct max as [[|k]|]; destruct min; destruct greedy;
      simpl in Hin; intuition (subst; auto).
  - assert (Hagain : forall k,
               In st' (flat_map
                         (fun x => if Nat.eqb min 0 && Nat.eqb (remaining x) (remaining st)
                                   then []
                                   else repeat fuel step greedy (Nat.pred min) k x)
                         (step st)) ->
               remaining st' <= remaining st).
    { intros k H. apply in_flat_map in H. destruct H as [x [Hx Hst']].
      destruct (Nat.eqb min 0 && Nat.eqb (remaining x) (remaining st)); [destruct Hst'|].
      apply IH in Hst'. specialize (Hstep _ _ Hx). lia. }
    simpl in Hin.
    destruct max as [[|k]|]; [destruct Hin as [<-|[]]; lia | |];
      (destruct min as [|min']; simpl Nat.eqb in *; simpl negb in Hin; cbv iota in Hin;
       [ destruct greedy;
         [ apply in_app_or in Hin; destruct Hin as [H|[<-|[]]];
           [eapply Hagain; eauto|lia]
         | destruct Hin as [<-|H]; [lia|eapply Hagain; eauto] ]
       | eapply Hagain; eauto ]).
Qed.

Lemma run_shrinking (f : flags) (r : regex) : shrinking (run f r).
Proof.
  induction r; intros st st' Hin; simpl in Hin.
  - destruct Hin as [<-|[]]. lia.
  - eapply oneChar_shrinking; eauto.
  - eapply oneChar_shrinking; eauto.
  - eapply oneChar_shrinking; eauto.
  - destruct (atLineStart f st); [destruct Hin as [<-|[]]; lia | destruct Hin].
  - destruct (atLineEnd f st); [destruct Hin as [<-|[]]; lia | destruct Hin].
  - apply in_flat_map in Hin. destruct Hin as [x [Hx Hst']].
    apply IHr1 in Hx. apply IHr2 in Hst'. lia.
  - apply in_app_or in Hin. destruct Hin as [H|H]; [apply IHr1 in H|apply IHr2 in H]; lia.
  - eapply repeat_shrinking; eauto.
  - apply in_map_iff in Hin. destruct Hin as [x [<- Hx]].
    apply IHr in Hx. unfold remaining in *. simpl. exact Hx.
  - destruct (run f r st) as [|x l]; [destruct Hin|].
    destruct Hin as [<-|[]]. unfold remaining. simpl. lia.
Qed.

(** Any fuel from [remaining st + min] on gives the same matches. *)
Lemma repeat_fuel (step : mstate -> list mstate) (greedy : bool) :
  shrinking step ->
  forall n m min max st,
    remaining st + min <= n -> remaining st + min <= m ->
    repeat n step greedy min max st = repeat m step greedy min max st.
Proof.
  intros Hstep n. induction n as [|n IH]; intros m min max st Hn Hm.
  - assert (Hmin : min = 0) by lia. assert (Hrem : remaining st = 0) by lia. subst min.
    destruct m as [|m]; [reflexivity|]. simpl.
    rewrite flat_map_nil; [reflexivity|].
    intros x Hx. specialize (Hstep _ _ Hx).
    replace (remaining x) with 0 by lia. rewrite Hrem. reflexivity.
  - destruct m as [|m].
    + assert (Hmin : min = 0) by lia. assert (Hrem : remaining st = 0) by lia. subst min.
      simpl. rewrite flat_map_nil; [reflexivity|].
      intros x Hx. specialize (Hstep _ _ Hx).
      replace (remaining x) with 0 by lia. rewrite Hrem. reflexivity.
    + simpl.
      assert (Hsame :
                flat_map
                  (fun x => if Nat.eqb min 0 && Nat.eqb (remaining x) (remaining st)
                            then []
                            else repeat n step greedy (Nat.pred min) (predMax max) x)
                  (step st)
                = flat_map
                    (fun x => if Nat.eqb min 0 && Nat.eqb (remaining x) (remaining st)
                              then []
                              else repeat m step greedy (Nat.pred min) (predMax max) x)
                    (step st)).
      { apply flat_map_same. intros x Hx. specialize (Hstep _ _ Hx).
        destruct (Nat.eqb min 0) eqn:E0; simpl.
        - apply Nat.eqb_eq in E0. subst min.
          destruct (Nat.eqb (remaining x) (remaining st)) eqn:E1; [reflexivity|].
          apply Nat.eqb_neq in E1. apply IH; simpl; lia.
        - apply Nat.eqb_neq in E0. apply IH; lia. }
      destruct max as [[|k]|]; [reflexivity| |]; simpl in Hsame |- *; rewrite Hsame; reflexivity.
Qed.

(** One unfolding of [repeat], with the fuel of the inner call restored
    to its starting value. *)
Lemma repeat_unfold (step : mstate -> list mstate) (greedy : bool)
      (n min : nat) (max : option nat) (st : mstate) :
  shrinking step ->
  remaining st + min <= n ->
  repeat n step greedy min max st =
  match max with
  | Some O => [st]
  | _ =>
    let again :=
      flat_map
        (fun st' =>
           if Nat.eqb min 0 && Nat.eqb (remaining st') (remaining st) then []
           else repeat (remaining st' + Nat.pred min) step greedy
                       (Nat.pred min) (predMax max) st')
        (step st) in
    if negb (Nat.eqb min 0) then again
    else if greedy then (again ++ [st])%list
    else st :: again
  end.
Proof.
  intros Hstep Hn.
  assert (Hagain :
            flat_map
              (fun st' =>
                 if Nat.eqb min 0 && Nat.eqb (remaining st') (remaining st) then []
                 else repeat (remaining st' + Nat.pred min) step greedy
                             (Nat.pred min) (predMax max) st')
              (step st)
            = match n with
              | O => []
              | S n' =>
                flat_map
                  (fun st' =>
                     if Nat.eqb min 0 && Nat.eqb (remaining st') (remaining st) then []
                     else repeat n' step greedy (Nat.pred min) (predMax max) st')
                  (step st)
              end).
  { destruct n as [|n'].
    - apply flat_map_nil. intros x Hx.
      pose proof (Hstep _ _ Hx) as Hle.
      assert (min = 0) by lia. subst min.
      replace (remaining x) with (remaining st) by lia.
      rewrite !Nat.eqb_refl. reflexivity.
    - apply flat_map_same. intros x Hx.
      pose proof (Hstep _ _ Hx) as Hle.
      destruct (Nat.eqb min 0) eqn:E0; simpl.
      + apply Nat.eqb_eq in E0. subst min.
        destruct (Nat.eqb (remaining x) (remaining st)) eqn:E1; [reflexivity|].
        apply Nat.eqb_neq in E1.
        apply repeat_fuel; [exact Hstep | simpl; lia | simpl; lia].
      + apply Nat.eqb_neq in E0.
        apply repeat_fuel; [exact Hstep | lia | lia]. }
  cbv zeta. rewrite Hagain.
  destruct max as [[|k]|]; destruct n; reflexivity.
Qed.

(** The equation of RepeatMatcher: [run] on a repetition is one step of
    the atom followed by the repetition with its bounds lowered. *)
Theorem run_Rep (f : flags) (greedy : bool) (min : nat) (max : option nat)
        (r : regex) (st : mstate) :
  run f (Rep greedy min max r) st =
  match max with
  | Some O => [st]
  | _ =>
    let again :=
      flat_map
        (fun st' =>
           if Nat.eqb min 0 && Nat.eqb (remaining st') (remaining st) then []
           else run f (Rep greedy (Nat.pred min) (predMax max) r) st')
        (run f r st) in
    if negb (Nat.eqb min 0) then again
    else if greedy then (again ++ [st])%list
    else st :: again
  end.
Proof.
  exact (repeat_unfold (run f r) greedy (remaining st + min) min max st
                       (run_shrinking f r) (Nat.le_refl _)).
Qed.

End RegexFacts.

(** ** The plan extractor *)

Module PlannerFacts.
Import Regex Planner.

Definition LF : string := String (ascii_of_nat 10) "".

(** *** Notions of the specification *)

(** Phases numbered from 1 in list order, each depending on the phase
    before it and on nothing else. *)
Definition chained (phases : list Phase.t) : Prop :=
  forall k ph,
    nth_error phases k = Some ph ->
    Phase.id ph = "phase-" ++ Js.ofNat (k + 1)
    /\ Phase.order ph = k + 1
    /\ Phase.dependencies ph =
       match k with
       | O => []
       | S _ => ["phase-" ++ Js.ofNat k]
       end.

Definition wellFormed (plan : Plan.t) : Prop :=
  Plan.phases plan <> []
  /\ chained (Plan.phases plan)
  /\ Forall (fun ph => Phase.tasks ph <> []) (Plan.phases plan).

(** The lines of a text, cut at LF. *)
Fixpoint linesFrom (line s : string) : list string :=
  match s with
  | EmptyString => [line]
  | String c t =>
    if Ascii.eqb c (ascii_of_nat 10) then line :: linesFrom "" t
    else linesFrom (line ++ String c "") t
  end.

Definition lines (s : string) : list string := linesFrom "" s.

(** A second-level heading of Markdown: a line that opens with exactly
    two [#] followed by white space. *)
Definition isSecondLevelHeading (line : string) : bool :=
  match line with
  | String a (String b (String c _)) =>
    Ascii.eqb a "#" && Ascii.eqb b "#" && Js.isSpace c
  | _ => false
  end.

Definition secondLevelHeadings (markdown : string) : list string :=
  filter isSecondLevelHeading (lines markdown).

(** The mark the extractor looks for: [##] and a white-space character,
    at this place of the text or anywhere in it. *)
Definition marksHere (s : string) : bool :=
  match s with
  | String a (String b (String c _)) =>
    Ascii.eqb a "#" && Ascii.eqb b "#" && Js.isSpace c
  | _ => false
  end.

Fixpoint marked (s : string) : bool :=
  marksHere s ||
  match s with
  | EmptyString => false
  | String _ t => marked t
  end.

(** *** Tasks *)

Lemma extractTasks_nonempty (content : string) : extractTasks content <> [].
Proof.
  unfold extractTasks.
  destruct (map (fun file => taskOf content file file) (findFiles content));
    discriminate.
Qed.

Lemma extractTasks_no_files (content : string) :
  findFiles content = [] -> extractTasks content = [genericTask].
Proof. intros H. unfold extractTasks. rewrite H. reflexivity. Qed.

Lemma extractTasks_files (content : string) :
  findFiles content <> [] ->
  extractTasks content = map (fun file => taskOf content file file) (findFiles content).
Proof.
  intros H. unfold extractTasks.
  destruct (findFiles content) as [|x l]; [contradiction|reflexivity].
Qed.

(** *** Phases *)

Lemma pushPhases_app (matches : list jsmatch) :
  forall idx phases,
    pushPhases matches idx phases = (phases ++ pushPhases matches idx [])%list.
Proof.
  induction matches as [|m rest IH]; intros idx phases; simpl.
  - rewrite app_nil_r. reflexivity.
  - rewrite IH. rewrite (IH (S idx) [phaseOf m idx]).
    rewrite <- app_assoc. reflexivity.
Qed.

Lemma pushPhases_cons (m : jsmatch) (rest : list jsmatch) (idx : nat) :
  pushPhases (m :: rest) idx [] = phaseOf m idx :: pushPhases rest (S idx) [].
Proof. simpl. rewrite pushPhases_app. reflexivity. Qed.

Lemma pushPhases_length (matches : list jsmatch) :
  forall idx, List.length (pushPhases matches idx []) = List.length matches.
Proof.
  induction matches as [|m rest IH]; intros idx.
  - reflexivity.
  - rewrite pushPhases_cons. simpl. rewrite IH. reflexivity.
Qed.

Lemma pushPhases_nth (matches : list jsmatch) :
  forall idx k ph,
    nth_error (pushPhases matches idx []) k = Some ph ->
    exists m, nth_error matches k = Some m /\ ph = phaseOf m (idx + k).
Proof.
  induction matches as [|m rest IH]; intros idx k ph H.
  - destruct k; discriminate.
  - rewrite pushPhases_cons in H. destruct k as [|k]; simpl in H.
    + inversion H. exists m. split; [reflexivity|]. rewrite Nat.add_0_r. reflexivity.
    + apply IH in H. destruct H as [m' [Hm' ->]].
      exists m'. split; [exact Hm'|]. f_equal. lia.
Qed.

(** The test [phases.length > 0] after the loop never fails. *)
Lemma extractPhases_eq (markdown : string) :
  extractPhases markdown =
  match matchAll phaseFlags phasePattern markdown with
  | [] => [implementationPhase markdown]
  | matches => pushPhases matches 0 []
  end.
Proof.
  unfold extractPhases.
  destruct (matchAll phaseFlags phasePattern markdown) as [|m rest]; [reflexivity|].
  rewrite pushPhases_cons. reflexivity.
Qed.

Lemma extractPhases_length (markdown : string) :
  List.length (extractPhases markdown) =
  Nat.max 1 (List.length (matchAll phaseFlags phasePattern markdown)).
Proof.
  rewrite extractPhases_eq.
  destruct (matchAll phaseFlags phasePattern markdown) as [|m rest]; [reflexivity|].
  rewrite pushPhases_length. simpl. reflexivity.
Qed.

Lemma phaseOf_dependencies (m : jsmatch) (k : nat) :
  Phase.dependencies (phaseOf m k) =
  match k with
  | O => []
  | S _ => ["phase-" ++ Js.ofNat k]
  end.
Proof. destruct k; reflexivity. Qed.

(** Whatever the text, the phases are numbered from 1 and chained: as
    many as the pattern has matches, one when it has none. *)
Lemma extractPhases_chained (markdown : string) : chained (extractPhases markdown).
Proof.
  intros k ph H. rewrite extractPhases_eq in H.
  destruct (matchAll phaseFlags phasePattern markdown) as [|m rest].
  - destruct k as [|k]; [|destruct k; discriminate].
    inversion H. repeat split.
  - apply pushPhases_nth in H. destruct H as [m' [_ ->]].
    split; [reflexivity|]. split; [reflexivity|].
    apply phaseOf_dependencies.
Qed.

Lemma extractPhases_tasks (markdown : string) :
  Forall (fun ph => Phase.tasks ph <> []) (extractPhases markdown).
Proof.
  apply Forall_forall. intros ph Hin.
  apply In_nth_error in Hin. destruct Hin as [k Hk].
  rewrite extractPhases_eq in Hk.
  destruct (matchAll phaseFlags phasePattern markdown) as [|m rest].
  - destruct k as [|k]; [|destruct k; discriminate].
    inversion Hk. apply extractTasks_nonempty.
  - apply pushPhases_nth in Hk. destruct Hk as [m' [_ ->]].
    apply extractTasks_nonempty.
Qed.

Lemma extractPhases_nonempty (markdown : string) : extractPhases markdown <> [].
Proof.
  intros H. pose proof (extractPhases_length markdown) as L.
  rewrite H in L. change (List.length (@nil Phase.t)) with 0 in L. lia.
Qed.

(** *** The patterns at work *)

Example title_from_first_heading :
  Plan.title (parsePlanFromMarkdown 1 2 ("Intro" ++ LF ++ "# Add login" ++ LF ++ "text")
                                    "login please" (AnalysisResult.mk (Project.mk [])))
  = "Add login".
Proof. vm_compute. reflexivity. Qed.

Example title_from_description :
  Plan.title (parsePlanFromMarkdown 1 2 "no heading here"
                                    "login please" (AnalysisResult.mk (Project.mk [])))
  = "login please".
Proof. vm_compute. reflexivity. Qed.

Example two_phase_sections :
  matchAll phaseFlags phasePattern
           ("## Phase 1: Setup" ++ LF ++ "## Phase 2 Tests")
  = [ mkMatch ("## Phase 1: Setup" ++ LF) (Some ("Setup" ++ LF));
      mkMatch "## Phase 2 Tests" (Some "Tests") ].
Proof. vm_compute. reflexivity. Qed.

Example files_by_pattern_priority :
  findFiles "See `z.md`. Path: `docs/my notes.txt`. Update `src/b.ts`, edit `src/b.ts`."
  = ["src/b.ts"; "docs/my notes.txt"; "z.md"].
Proof. vm_compute. reflexivity. Qed.

Example task_type_from_text :
  map Task.type (extractTasks "Create src/a.ts, that is `src/a.ts`; remove old.js (`old.js`)")
  = [create; delete].
Proof. vm_compute. reflexivity. Qed.

(** *** Text without the mark *)

Lemma plus_space_stuck (f : flags) (st : mstate) :
  ignoreCase f = false ->
  match rest st with
  | EmptyString => True
  | String c _ => Js.isSpace c = false
  end ->
  run f (plus space) st = [].
Proof.
  intros Hf H. unfold plus. rewrite RegexFacts.run_Rep. cbv zeta.
  change (negb (Nat.eqb 1 0)) with true. cbv iota.
  replace (run f space st) with (@nil mstate); [reflexivity|].
  unfold space. simpl. unfold oneChar, member. rewrite Hf.
  destruct (rest st) as [|c t]; [reflexivity|].
  rewrite H. reflexivity.
Qed.

Lemma phasePattern_needs_mark (p : option ascii) (s : string) :
  marksHere s = false ->
  run phaseFlags phasePattern (mkState p s None) = [].
Proof.
  intros H.
  change (run phaseFlags phasePattern (mkState p s None))
    with (flat_map
            (fun x =>
               flat_map
                 (run phaseFlags
                      (seqs [ opt (seqs [ str "Phase"; plus space; plus digit;
                                          plus (Class false
                                                      (fun c => isChar ":" c || Js.isSpace c)) ]);
                              Group (lazyPlus Dot);
                              Look (Alt (Seq (str "##") (plus space)) Eol) ]))
                 (run phaseFlags (plus space) x))
            (run phaseFlags (str "##") (mkState p s None))).
  apply RegexFacts.flat_map_nil. intros x Hx.
  rewrite plus_space_stuck; [reflexivity|reflexivity|].
  simpl in Hx. unfold oneChar, canon, phaseFlags in Hx. simpl in Hx.
  destruct s as [|a s]; [destruct Hx|].
  destruct (Ascii.eqb a "#") eqn:Ea; [|destruct Hx].
  simpl in Hx. destruct s as [|b s]; [destruct Hx|].
  destruct (Ascii.eqb b "#") eqn:Eb; [|destruct Hx].
  destruct Hx as [<-|[]]. simpl.
  destruct s as [|c s]; [exact I|].
  simpl in H. rewrite Ea, Eb in H. exact H.
Qed.

Lemma matchAt_unmarked (p : option ascii) (s : string) :
  marksHere s = false -> matchAt phaseFlags phasePattern p s = None.
Proof.
  intros H. unfold matchAt. rewrite phasePattern_needs_mark by exact H. reflexivity.
Qed.

Lemma marked_tail (c : ascii) (t : string) :
  marked (String c t) = false -> marksHere (String c t) = false /\ marked t = false.
Proof.
  intros H. change (marksHere (String c t) || marked t = false) in H.
  apply orb_false_iff in H. exact H.
Qed.

Lemma matchAll_unmarked (s : string) :
  marked s = false ->
  forall p, matchAllFrom phaseFlags phasePattern 0 p s = [].
Proof.
  induction s as [|c t IH]; intros H p.
  - change (match matchAt phaseFlags phasePattern p "" with
            | Some (m, n) => [m]
            | None => []
            end = []).
    rewrite matchAt_unmarked; reflexivity.
  - apply marked_tail in H. destruct H as [Hhere Htail].
    change (match matchAt phaseFlags phasePattern p (String c t) with
            | Some (m, n) =>
              m :: matchAllFrom phaseFlags phasePattern (Nat.pred n) (Some c) t
            | None => matchAllFrom phaseFlags phasePattern 0 (Some c) t
            end = []).
    rewrite matchAt_unmarked by exact Hhere. apply IH. exact Htail.
Qed.

(** Without the mark anywhere the text is one phase, "Implementation",
    holding the tasks of the whole text. *)
Lemma extractPhases_unmarked (markdown : string) :
  marked markdown = false ->
  extractPhases markdown = [implementationPhase markdown].
Proof.
  intros H. rewrite extractPhases_eq. unfold matchAll.
  rewrite matchAll_unmarked by exact H. reflexivity.
Qed.

End PlannerFacts.

Module PlannerSpec.
Import Regex Planner PlannerFacts.

Definition noAnalysis : AnalysisResult.t := AnalysisResult.mk (Project.mk []).

(** Every task made from a file path found in the text has the path
    itself, followed by the character 1, after "task-". *)
Lemma extractTasks_ids (content : string) :
  findFiles content <> [] ->
  map Task.id (extractTasks content)
  = map (fun file => "task-" ++ (file ++ "1")) (findFiles content).
Proof.
  intros H. rewrite extractTasks_files by exact H.
  rewrite map_map. reflexivity.
Qed.

(** Whatever the text and the request, the plan extracted is well formed:
    at least one phase, phases numbered from 1 and chained, at least one
    task in every phase. *)
Lemma parsePlanFromMarkdown_wellFormed
      (now date : nat) (markdown description : string)
      (analysis : AnalysisResult.t) :
  wellFormed (parsePlanFromMarkdown now date markdown description analysis).
Proof.
unfold wellFormed. simpl.
split; [apply extractPhases_nonempty|].
split; [apply extractPhases_chained|apply extractPhases_tasks].
Qed.

(** C2 at a text whose only heading is a third-level one: the text has no
    second-level heading, so the claim asks for the single phase
    "Implementation"; the phase pattern finds its mark inside the deeper
    heading and the single phase extracted is named after the text
    instead. *)
Lemma deeper_heading_is_not_fallback :
  let markdown := "### Notes" ++ LF ++ "Background only" in
  secondLevelHeadings markdown = []
  /\ map Phase.name
         (Plan.phases (parsePlanFromMarkdown 1 2 markdown "notes" noAnalysis))
     = ["Notes" ++ LF ++ "Background only"]
  /\ ~ (exists ph,
           Plan.phases (parsePlanFromMarkdown 1 2 markdown "notes" noAnalysis) = [ph]
           /\ Phase.name ph = "Implementation").
Proof.
  cbv zeta. split; [reflexivity|]. split; [vm_compute; reflexivity|].
  intros [ph [Hph Hname]].
  assert (H : map Phase.name
                  (Plan.phases
                     (parsePlanFromMarkdown 1 2 ("### Notes" ++ LF ++ "Background only")
                                            "notes" noAnalysis))
              = ["Implementation"]).
  { rewrite Hph. simpl. rewrite Hname. reflexivity. }
  vm_compute in H. discriminate H.
Qed.

(** C3 at a text with one second-level heading and a third-level heading
    under it: two phases come out, the section is cut at the deeper
    heading. *)
Theorem extractPhases_splits_at_deeper_heading :
  let markdown := "## Setup" ++ LF ++ "### Steps" ++ LF ++ "Create `a.ts`" in
  List.length (secondLevelHeadings markdown) = 1
  /\ List.length (extractPhases markdown) = 2
  /\ map Phase.id (extractPhases markdown) = ["phase-1"; "phase-2"]
  /\ map Phase.name (extractPhases markdown)
     = ["Setup" ++ LF ++ "#"; "Steps" ++ LF ++ "Create `a.ts`"].
Proof. cbv zeta. repeat split; vm_compute; reflexivity. Qed.

(** C6 at a text naming two files: the ids are not task-1 and task-2,
    each carries the file path with the character 1 appended. *)
Theorem extractTasks_ids_carry_path :
  let content := "Create `src/a.ts` then update `b.ts`" in
  map Task.file (extractTasks content) = ["src/a.ts"; "b.ts"]
  /\ map Task.id (extractTasks content) = ["task-src/a.ts1"; "task-b.ts1"]
  /\ map Task.id (extractTasks content) <> ["task-1"; "task-2"].
Proof.
  cbv zeta. split; [vm_compute; reflexivity|].
  split; [vm_compute; reflexivity|].
  vm_compute. discriminate.
Qed.

(** C7 at headings followed by a body: with and without the "Phase N"
    prefix the name runs to the end of the section, body included. *)
Theorem phase_name_takes_section_body :
  map Phase.name (extractPhases ("## Setup" ++ LF ++ "Install the tools"))
  = ["Setup" ++ LF ++ "Install the tools"]
  /\ map Phase.name
         (extractPhases ("## Phase 1: Setup" ++ LF ++ "Install the tools" ++ LF
                           ++ "## Phase 2 Tests" ++ LF ++ "Run them"))
     = ["Setup" ++ LF ++ "Install the tools"; "Tests" ++ LF ++ "Run them"]
  /\ map Phase.name (extractPhases ("## Setup" ++ LF ++ "Install the tools"))
     <> ["Setup"].
Proof.
  split; [vm_compute; reflexivity|].
  split; [vm_compute; reflexivity|].
  vm_compute. discriminate.
Qed.

End PlannerSpec.

(** ** The verifier *)

Module VerifierFacts.
Import Verifier.

Local Open Scope Q_scope.

(** *** Numbers *)

Lemma num_nonneg (n : nat) : 0 <= num n.
Proof.
  unfold num. change 0 with (inject_Z 0). rewrite <- Zle_Qle. lia.
Qed.

Lemma num_pos (n : nat) : (0 < n)%nat -> 0 < num n.
Proof.
  intros H. unfold num. change 0 with (inject_Z 0). rewrite <- Zlt_Qlt. lia.
Qed.

Lemma ratio_nonneg (a b : nat) : (0 < b)%nat -> 0 <= num a / num b.
Proof.
  intros H. apply Qle_shift_div_l; [apply num_pos; exact H|].
  rewrite Qmult_0_l. apply num_nonneg.
Qed.

Lemma ratio_one (n : nat) : (0 < n)%nat -> num n / num n == 1.
Proof.
  intros H. apply Qmult_inv_r.
  intros E. pose proof (num_pos n H) as P. rewrite E in P.
  apply Qlt_irrefl in P. exact P.
Qed.

Lemma Qleb_true (x y : Q) : Qleb x y = true <-> x <= y.
Proof. apply Qle_bool_iff. Qed.

Lemma Qleb_false (x y : Q) : Qleb x y = false <-> y < x.
Proof.
  unfold Qleb. split.
  - intros H. apply Qnot_le_lt. intros L. apply Qle_bool_iff in L. congruence.
  - intros H. destruct (Qle_bool x y) eqn:E; [|reflexivity].
    apply Qle_bool_iff in E. apply Qlt_not_le in H. contradiction.
Qed.

Lemma Qltb_true (x y : Q) : Qltb x y = true <-> x < y.
Proof.
  unfold Qltb. rewrite negb_true_iff. apply (Qleb_false y x).
Qed.

Lemma clamp_id (x : Q) : 0 <= x -> x <= 100 -> Qmin 100 (Qmax 0 x) == x.
Proof.
  intros H0 H100. rewrite (Q.max_r 0 x) by exact H0.
  apply Q.min_r. exact H100.
Qed.

(** Half of the total is exceeded exactly when twice the count exceeds
    the total. *)
Lemma over_half (total missing : nat) :
  num total / 2 < num missing <-> (total < 2 * missing)%nat.
Proof.
  unfold num, Qlt, Qdiv, Qmult, Qinv, inject_Z. simpl. lia.
Qed.

(** *** The score *)

Lemma fold_countChange_le (content : string) (changes : list Change.t) :
  forall n, (n <= fold_left (countChange content) changes n)%nat.
Proof.
  induction changes as [|c l IH]; intros n; simpl.
  - lia.
  - eapply Nat.le_trans; [|apply IH].
    unfold countChange. destruct (Change.code c) as [code|]; [|lia].
    destruct (Js.truthy code); [|lia].
    destruct (existsb _ _); lia.
Qed.

(** The score before clamping is the base 50 plus two bonuses that are
    not negative. *)
Theorem calculateMatchPercentage_base (content : string) (task : Task.t) :
  50 <= calculateMatchPercentage content task.
Proof.
  unfold calculateMatchPercentage.
  set (kf := List.length (filter _ _)).
  set (kt := Nat.max (List.length (extractKeywords (Task.description task))) 1).
  assert (Hk : 0 <= num kf / num kt) by (apply ratio_nonneg; unfold kt; lia).
  assert (H1 : 50 <= 50 + num kf / num kt * 30).
  { assert (0 <= num kf / num kt * 30) by (apply Qmult_le_0_compat; [exact Hk|discriminate]).
    rewrite <- (Qplus_0_r 50) at 1. apply Qplus_le_r. exact H. }
  apply Q.min_glb; [discriminate|].
  eapply Qle_trans; [|apply Q.le_max_r].
  destruct (0 <? List.length (Task.changes task))%nat eqn:E; [|exact H1].
  apply Nat.ltb_lt in E.
  set (cf := fold_left _ _ _).
  assert (Hc : 0 <= num cf / num (List.length (Task.changes task)) * 20).
  { apply Qmult_le_0_compat; [apply ratio_nonneg; exact E|discriminate]. }
  eapply Qle_trans; [exact H1|].
  rewrite <- (Qplus_0_r (50 + num kf / num kt * 30)) at 1.
  apply Qplus_le_r. exact Hc.
Qed.

Theorem calculateMatchPercentage_top (content : string) (task : Task.t) :
  calculateMatchPercentage content task <= 100.
Proof. unfold calculateMatchPercentage. apply Q.le_min_l. Qed.

Lemma filter_all {A : Type} (p : A -> bool) (l : list A) :
  (forall x, In x l -> p x = true) -> filter p l = l.
Proof.
  induction l as [|a l IH]; intros H; simpl.
  - reflexivity.
  - rewrite (H a) by (left; reflexivity). f_equal.
    apply IH. intros x Hx. apply H. right. exact Hx.
Qed.

(** All keywords found and no changes: 50 + 30 + 0. *)
Lemma calculateMatchPercentage_all_found (content : string) (task : Task.t) :
  Task.changes task = [] ->
  extractKeywords (Task.description task) <> [] ->
  (forall keyword,
      In keyword (extractKeywords (Task.description task)) ->
      Js.includes (Js.toLowerCase content) (Js.toLowerCase keyword) = true) ->
  calculateMatchPercentage content task == 80.
Proof.
  intros Hch Hne Hall. unfold calculateMatchPercentage.
  rewrite Hch. simpl List.length. change (0 <? 0)%nat with false. cbv iota.
  rewrite filter_all by exact Hall.
  assert (Hlen : (0 < List.length (extractKeywords (Task.description task)))%nat).
  { destruct (extractKeywords (Task.description task)); [contradiction|simpl; lia]. }
  rewrite Nat.max_l by lia.
  assert (E : 50 + num (List.length (extractKeywords (Task.description task)))
                   / num (List.length (extractKeywords (Task.description task))) * 30
              == 80).
  { rewrite ratio_one by exact Hlen. reflexivity. }
  rewrite clamp_id; [exact E| rewrite E; discriminate | rewrite E; discriminate].
Qed.

End VerifierFacts.

Module VerifierSpec.
Import Verifier VerifierFacts.

Local Open Scope Q_scope.

(** *** One task *)

Definition oneIssue (issues : list Issue.t) (severity : Severity.t)
           (type : IssueType) : Prop :=
  exists i, issues = [i] /\ Issue.severity i = severity /\ Issue.type i = type.

(** The result of [verifyTask] on a file that is there and readable, for
    [modify] and for [create]. *)
Lemma verifyTaskWith_modify_read (score : string -> Task.t -> Q)
      (fs : FileSystem.t) (task : Task.t) (rootPath : string)
      (strictMode : bool) (content : string) :
  Task.type task = modify ->
  fileExists fs (FileSystem.join fs rootPath (Task.file task)) = true ->
  FileSystem.read fs (FileSystem.join fs rootPath (Task.file task)) = Some content ->
  verifyTaskWith score fs task rootPath strictMode =
  outcome <- verifyModify score fs task
                          (FileSystem.join fs rootPath (Task.file task)) true ;;
  Ok {| TaskVerification.taskId := Task.id task;
        TaskVerification.file := Task.file task;
        TaskVerification.status := fst (fst outcome);
        TaskVerification.issues := snd (fst outcome);
        TaskVerification.matchPercentage := snd outcome |}.
Proof.
  intros Ht He Hr. unfold verifyTaskWith. rewrite Ht, He.
  destruct (verifyModify score fs task _ true) as [[[s i] m]|e]; simpl; [|reflexivity].
  destruct strictMode; simpl; rewrite ?app_nil_r; reflexivity.
Qed.

Lemma verifyTaskWith_create_read (score : string -> Task.t -> Q)
      (fs : FileSystem.t) (task : Task.t) (rootPath : string)
      (strictMode : bool) (content : string) :
  Task.type task = create ->
  fileExists fs (FileSystem.join fs rootPath (Task.file task)) = true ->
  FileSystem.read fs (FileSystem.join fs rootPath (Task.file task)) = Some content ->
  verifyTaskWith score fs task rootPath strictMode =
  outcome <- verifyCreate score fs task
                          (FileSystem.join fs rootPath (Task.file task)) true ;;
  Ok {| TaskVerification.taskId := Task.id task;
        TaskVerification.file := Task.file task;
        TaskVerification.status := fst (fst outcome);
        TaskVerification.issues := snd (fst outcome);
        TaskVerification.matchPercentage := snd outcome |}.
Proof.
  intros Ht He Hr. unfold verifyTaskWith. rewrite Ht, He.
  destruct (verifyCreate score fs task _ true) as [[[s i] m]|e]; simpl; [|reflexivity].
  destruct strictMode; simpl; rewrite ?app_nil_r; reflexivity.
Qed.

(** C4.  For a [modify] task whose file is there and can be read, the
    result carries the match percentage the scoring function gives, with
    status [pass] from 70 up, [partial] and one warning of type
    incorrect-implementation from 40 up to 70, [fail] and one error of
    type missing-implementation below 40; for a [create] task the issue
    below its threshold of 50 is an error of type
    incorrect-implementation.  This holds whatever the scoring function
    is, [calculateMatchPercentage] included. *)
Theorem verifyTask_modify_thresholds (score : string -> Task.t -> Q)
        (fs : FileSystem.t) (task : Task.t) (rootPath : string)
        (strictMode : bool) (content : string) :
  fileExists fs (FileSystem.join fs rootPath (Task.file task)) = true ->
  FileSystem.read fs (FileSystem.join fs rootPath (Task.file task)) = Some content ->
  let matchPercentage := score content task in
  (Task.type task = modify ->
   exists tv,
     verifyTaskWith score fs task rootPath strictMode = Ok tv
     /\ TaskVerification.matchPercentage tv = matchPercentage
     /\ (70 <= matchPercentage -> TaskVerification.status tv = Status.pass)
     /\ (40 <= matchPercentage -> matchPercentage < 70 ->
         TaskVerification.status tv = Status.partial
         /\ oneIssue (TaskVerification.issues tv)
                     Severity.warning incorrect_implementation)
     /\ (matchPercentage < 40 ->
         TaskVerification.status tv = Status.fail
         /\ oneIssue (TaskVerification.issues tv)
                     Severity.error missing_implementation))
  /\ (Task.type task = create ->
      matchPercentage < 50 ->
      exists tv,
        verifyTaskWith score fs task rootPath strictMode = Ok tv
        /\ TaskVerification.status tv = Status.fail
        /\ oneIssue (TaskVerification.issues tv)
                    Severity.error incorrect_implementation).
Proof.
  intros He Hr mp. split.
  - intros Ht.
    rewrite (verifyTaskWith_modify_read score fs task rootPath strictMode content Ht He Hr).
    unfold verifyModify, readFile. rewrite Hr. simpl. fold mp.
    destruct (Qleb 70 mp) eqn:E70; [|destruct (Qleb 40 mp) eqn:E40].
    + eexists. split; [reflexivity|]. simpl. split; [reflexivity|].
      apply Qleb_true in E70.
      split; [reflexivity|]. split.
      * intros _ Hlt. apply Qlt_not_le in Hlt. contradiction.
      * intros Hlt. exfalso. apply (Qlt_not_le _ _ Hlt).
        eapply Qle_trans; [|exact E70]. discriminate.
    + eexists. split; [reflexivity|]. simpl. split; [reflexivity|].
      apply Qleb_false in E70. apply Qleb_true in E40.
      split; [intros H; apply Qlt_not_le in E70; contradiction|]. split.
      * intros _ _. split; [reflexivity|]. eexists. repeat split.
      * intros Hlt. apply Qlt_not_le in Hlt. contradiction.
    + eexists. split; [reflexivity|]. simpl. split; [reflexivity|].
      apply Qleb_false in E70. apply Qleb_false in E40.
      split; [intros H; apply Qlt_not_le in E70; contradiction|]. split.
      * intros H. apply Qlt_not_le in E40. contradiction.
      * intros _. split; [reflexivity|]. eexists. repeat split.
  - intros Ht Hlt.
    rewrite (verifyTaskWith_create_read score fs task rootPath strictMode content Ht He Hr).
    unfold verifyCreate, readFile. rewrite Hr. simpl. fold mp.
    assert (E80 : Qleb 80 mp = false).
    { apply Qleb_false. eapply Qlt_trans; [exact Hlt|reflexivity]. }
    assert (E50 : Qleb 50 mp = false) by (apply Qleb_false; exact Hlt).
    rewrite E80, E50.
    eexists. split; [reflexivity|]. simpl. split; [reflexivity|].
    eexists. repeat split.
Qed.

(** A disk with one readable file, one file that is there but cannot be
    read, and nothing else. *)
Definition demoFs : FileSystem.t :=
  {| FileSystem.join := fun rootPath file => rootPath ++ "/" ++ file;
     FileSystem.access := fun p => ((p =? "/r/a.ts") || (p =? "/r/locked.ts"))%string;
     FileSystem.read :=
       fun p => if (p =? "/r/a.ts")%string
                then Some "export function parseConfig() { helper }"
                else None |}.

Definition demoTask (id : string) (type : TaskType) (file description : string)
  : Task.t :=
  {| Task.id := id;
     Task.type := type;
     Task.file := file;
     Task.description := description;
     Task.reasoning := "Implement as described in the plan";
     Task.changes := [];
     Task.dependencies := None |}.

Lemma verifyTask_modify_thresholds_witness :
  (exists tv,
      verifyTask demoFs (demoTask "task-1" modify "a.ts" "Rework the parser") "/r" false
      = Ok tv
      /\ TaskVerification.matchPercentage tv == 50
      /\ TaskVerification.status tv = Status.partial
      /\ oneIssue (TaskVerification.issues tv) Severity.warning incorrect_implementation)
  /\ (exists tv,
         verifyTaskWith (fun _ _ => 30)
                        demoFs (demoTask "task-1" modify "a.ts" "Rework the parser")
                        "/r" false
         = Ok tv
         /\ TaskVerification.status tv = Status.fail
         /\ oneIssue (TaskVerification.issues tv) Severity.error missing_implementation).
Proof.
  split.
  - destruct (verifyTask_modify_thresholds
                calculateMatchPercentage demoFs
                (demoTask "task-1" modify "a.ts" "Rework the parser") "/r" false
                "export function parseConfig() { helper }" eq_refl eq_refl)
      as [Hmodify _].
    destruct (Hmodify eq_refl) as [tv [Hv [Hmp [_ [Hpartial _]]]]].
    exists tv. split; [exact Hv|].
    split; [rewrite Hmp; vm_compute; reflexivity|].
    apply Hpartial; vm_compute; [discriminate|reflexivity].
  - destruct (verifyTask_modify_thresholds
                (fun _ _ => 30) demoFs
                (demoTask "task-1" modify "a.ts" "Rework the parser") "/r" false
                "export function parseConfig() { helper }" eq_refl eq_refl)
      as [Hmodify _].
    destruct (Hmodify eq_refl) as [tv [Hv [_ [_ [_ Hfail]]]]].
    exists tv. split; [exact Hv|].
    apply Hfail. reflexivity.
Defined.

(** C5.  For a [create] task with no changes whose description gives at
    least one keyword, on a file that is there, can be read and contains
    every keyword (case ignored), the match percentage is 80, that is
    50 + (found / total) * 30 with all found and no change bonus, and the
    status is [pass]. *)
Theorem create_all_keywords_found (fs : FileSystem.t) (task : Task.t)
        (rootPath : string) (strictMode : bool) (content : string) :
  Task.type task = create ->
  Task.changes task = [] ->
  extractKeywords (Task.description task) <> [] ->
  fileExists fs (FileSystem.join fs rootPath (Task.file task)) = true ->
  FileSystem.read fs (FileSystem.join fs rootPath (Task.file task)) = Some content ->
  (forall keyword,
      In keyword (extractKeywords (Task.description task)) ->
      Js.includes (Js.toLowerCase content) (Js.toLowerCase keyword) = true) ->
  calculateMatchPercentage content task == 80
  /\ exists tv,
      verifyTask fs task rootPath strictMode = Ok tv
      /\ TaskVerification.matchPercentage tv == 80
      /\ TaskVerification.status tv = Status.pass.
Proof.
  intros Ht Hch Hne He Hr Hall.
  pose proof (calculateMatchPercentage_all_found content task Hch Hne Hall) as H80.
  split; [exact H80|].
  unfold verifyTask.
  rewrite (verifyTaskWith_create_read _ fs task rootPath strictMode content Ht He Hr).
  unfold verifyCreate, readFile. rewrite Hr. simpl.
  assert (E : Qleb 80 (calculateMatchPercentage content task) = true).
  { apply Qleb_true. rewrite H80. apply Qle_refl. }
  rewrite E. eexists. split; [reflexivity|]. simpl.
  split; [exact H80|reflexivity].
Qed.

Lemma create_all_keywords_found_witness :
  extractKeywords "Add parseConfig helper function" = ["parseconfig"; "helper"]
  /\ exists tv,
      verifyTask demoFs
                 (demoTask "task-1" create "a.ts" "Add parseConfig helper function")
                 "/r" true
      = Ok tv
      /\ TaskVerification.matchPercentage tv == 80
      /\ TaskVerification.status tv = Status.pass.
Proof.
  split; [reflexivity|].
  apply (create_all_keywords_found
           demoFs (demoTask "task-1" create "a.ts" "Add parseConfig helper function")
           "/r" true "export function parseConfig() { helper }").
  - reflexivity.
  - reflexivity.
  - discriminate.
  - reflexivity.
  - reflexivity.
  - intros keyword Hin. vm_compute in Hin.
    destruct Hin as [<-|[<-|[]]]; reflexivity.
Defined.

(** C10.  For a [create] or [modify] task whose file is there, the match
    percentage is at least the base score 50 (and at most 100) on every
    content, so when [verifyTask] gives a result its match percentage is
    at least 50 and its status is [pass] or [partial]: the branches below
    50 for [create] and below 40 for [modify] are never taken.  It gives
    no result only when the file cannot be read. *)
Theorem existing_file_never_fails (fs : FileSystem.t) (task : Task.t)
        (rootPath : string) (strictMode : bool) :
  Task.type task = create \/ Task.type task = modify ->
  fileExists fs (FileSystem.join fs rootPath (Task.file task)) = true ->
  (forall content,
      50 <= calculateMatchPercentage content task
      /\ calculateMatchPercentage content task <= 100)
  /\ match verifyTask fs task rootPath strictMode with
     | Ok tv =>
       50 <= TaskVerification.matchPercentage tv
       /\ (TaskVerification.status tv = Status.pass
           \/ TaskVerification.status tv = Status.partial)
     | Err _ =>
       FileSystem.read fs (FileSystem.join fs rootPath (Task.file task)) = None
     end.
Proof.
  intros Ht He. split.
  - intros content.
    split; [apply calculateMatchPercentage_base|apply calculateMatchPercentage_top].
  - unfold verifyTask.
    destruct (FileSystem.read fs (FileSystem.join fs rootPath (Task.file task)))
      as [content|] eqn:Hr.
    + pose proof (calculateMatchPercentage_base content task) as Hbase.
      destruct Ht as [Ht|Ht].
      * rewrite (verifyTaskWith_create_read _ fs task rootPath strictMode content Ht He Hr).
        unfold verifyCreate, readFile. rewrite Hr. simpl.
        destruct (Qleb 80 (calculateMatchPercentage content task)) eqn:E80;
          [simpl; split; [exact Hbase|left; reflexivity]|].
        destruct (Qleb 50 (calculateMatchPercentage content task)) eqn:E50;
          [simpl; split; [exact Hbase|right; reflexivity]|].
        apply Qleb_false in E50. apply Qlt_not_le in E50. contradiction.
      * rewrite (verifyTaskWith_modify_read _ fs task rootPath strictMode content Ht He Hr).
        unfold verifyModify, readFile. rewrite Hr. simpl.
        destruct (Qleb 70 (calculateMatchPercentage content task)) eqn:E70;
          [simpl; split; [exact Hbase|left; reflexivity]|].
        destruct (Qleb 40 (calculateMatchPercentage content task)) eqn:E40;
          [simpl; split; [exact Hbase|right; reflexivity]|].
        apply Qleb_false in E40. exfalso. apply (Qlt_not_le _ _ E40).
        eapply Qle_trans; [|exact Hbase]. discriminate.
    + unfold verifyTaskWith. rewrite He.
      destruct Ht as [Ht|Ht]; rewrite Ht.
      * unfold verifyCreate, readFile. rewrite Hr. reflexivity.
      * unfold verifyModify, readFile. rewrite Hr. reflexivity.
Qed.

Lemma existing_file_never_fails_witness :
  exists tv,
    verifyTask demoFs (demoTask "task-1" create "a.ts" "Write the tokenizer") "/r" false
    = Ok tv
    /\ 50 <= TaskVerification.matchPercentage tv
    /\ (TaskVerification.status tv = Status.pass
        \/ TaskVerification.status tv = Status.partial).
Proof.
  pose proof (existing_file_never_fails
                demoFs (demoTask "task-1" create "a.ts" "Write the tokenizer")
                "/r" false (or_introl eq_refl) eq_refl) as [_ H].
  destruct (verifyTask demoFs (demoTask "task-1" create "a.ts" "Write the tokenizer")
                       "/r" false) as [tv|e] eqn:E.
  - exists tv. split; [reflexivity|exact H].
  - vm_compute in H. discriminate H.
Defined.

(** *** A whole run *)

Local Close Scope Q_scope.

Definition Status_eq_dec (a b : Status.t) : {a = b} + {a <> b}.
Proof. decide equality. Defined.

(** The number of task results with a given status. *)
Definition statusCount (s : Status.t) (taskResults : list TaskVerification.t) : nat :=
  count_occ Status_eq_dec (map TaskVerification.status taskResults) s.

(** An issue of severity critical or error. *)
Definition severe (i : Issue.t) : Prop :=
  Issue.severity i = Severity.critical \/ Issue.severity i = Severity.error.

Definition supported (task : Task.t) : Prop :=
  Task.type task = create \/ Task.type task = modify \/ Task.type task = delete.

Lemma Status_eqb_eq (a b : Status.t) : Status.eqb a b = true <-> a = b.
Proof. destruct a, b; simpl; split; intros H; try reflexivity; discriminate H. Qed.

Lemma isCritical_severe (i : Issue.t) : isCritical i = true <-> severe i.
Proof.
  unfold isCritical, severe.
  destruct (Issue.severity i); simpl; split; intros H;
    try reflexivity; try discriminate H; auto;
      destruct H as [H|H]; discriminate H.
Qed.

Lemma filter_hasStatus_count (s : Status.t) (taskResults : list TaskVerification.t) :
  List.length (filter (hasStatus s) taskResults) = statusCount s taskResults.
Proof.
  unfold statusCount, hasStatus.
  induction taskResults as [|tv l IH]; simpl.
  - reflexivity.
  - destruct (Status_eq_dec (TaskVerification.status tv) s) as [E|E].
    + rewrite E. replace (Status.eqb s s) with true
        by (symmetry; apply Status_eqb_eq; reflexivity).
      simpl. rewrite IH. reflexivity.
    + destruct (Status.eqb (TaskVerification.status tv) s) eqn:B.
      * apply Status_eqb_eq in B. contradiction.
      * exact IH.
Qed.

Lemma filter_flat_map_length {A B : Type} (p : B -> bool) (g : A -> list B)
      (l : list A) :
  List.length (filter p (flat_map g l))
  = list_sum (map (fun a => List.length (filter p (g a))) l).
Proof.
  induction l as [|a l IH]; simpl.
  - reflexivity.
  - rewrite filter_app, length_app, IH. reflexivity.
Qed.

(** The loop hands back the results of [verifyTask], task by task and in
    order, and the issues of all of them, in order. *)
Lemma verifyLoop_ok (fs : FileSystem.t) (rootPath : string) (strictMode : bool)
      (tasks : list Task.t) :
  forall taskResults allIssues taskResults' allIssues',
    verifyLoop fs rootPath strictMode tasks taskResults allIssues
    = Ok (taskResults', allIssues') ->
    exists new,
      Forall2 (fun task tv => verifyTask fs task rootPath strictMode = Ok tv) tasks new
      /\ taskResults' = (taskResults ++ new)%list
      /\ allIssues' = (allIssues ++ flat_map TaskVerification.issues new)%list.
Proof.
  induction tasks as [|task rest IH]; intros trs iss trs' iss' H; simpl in H.
  - inversion H. exists []. rewrite !app_nil_r. repeat split. constructor.
  - destruct (verifyTask fs task rootPath strictMode) as [tv|e] eqn:E; simpl in H;
      [|discriminate H].
    apply IH in H. destruct H as [new [HF [Ht Hi]]].
    exists (tv :: new). split; [constructor; assumption|].
    simpl. rewrite Ht, Hi, <- !app_assoc. split; reflexivity.
Qed.

Lemma verifyLoop_rejects (fs : FileSystem.t) (rootPath : string) (strictMode : bool)
      (task : Task.t) (e0 : PlanFirstError.t) (tasks : list Task.t) :
  In task tasks ->
  verifyTask fs task rootPath strictMode = Err e0 ->
  forall taskResults allIssues,
  exists e, verifyLoop fs rootPath strictMode tasks taskResults allIssues = Err e.
Proof.
  intros Hin Herr. induction tasks as [|t rest IH]; intros trs iss.
  - destruct Hin.
  - simpl. destruct (verifyTask fs t rootPath strictMode) as [tv|e] eqn:E; simpl.
    + destruct Hin as [->|Hin]; [congruence|]. apply IH. exact Hin.
    + exists e. reflexivity.
Qed.

(** The only error [verifyTask] raises is the one of [readFile]. *)
Lemma verifyTask_err_name (fs : FileSystem.t) (task : Task.t) (rootPath : string)
      (strictMode : bool) (e : PlanFirstError.t) :
  verifyTask fs task rootPath strictMode = Err e ->
  PlanFirstError.name e = "FileSystemError".
Proof.
  unfold verifyTask, verifyTaskWith, verifyCreate, verifyModify, verifyDelete, readFile.
  destruct (Task.type task);
    destruct (fileExists fs (FileSystem.join fs rootPath (Task.file task)));
    destruct (FileSystem.read fs (FileSystem.join fs rootPath (Task.file task)));
    simpl;
    repeat match goal with
           | |- context [if ?b then _ else _] => destruct b; simpl
           end;
    intros H; inversion H; reflexivity.
Qed.

Lemma verifyLoop_err_name (fs : FileSystem.t) (rootPath : string) (strictMode : bool)
      (tasks : list Task.t) :
  forall taskResults allIssues e,
    verifyLoop fs rootPath strictMode tasks taskResults allIssues = Err e ->
    PlanFirstError.name e = "FileSystemError".
Proof.
  induction tasks as [|t rest IH]; intros trs iss e H; simpl in H.
  - discriminate H.
  - destruct (verifyTask fs t rootPath strictMode) as [tv|e'] eqn:E; simpl in H.
    + eapply IH. exact H.
    + inversion H. subst. eapply verifyTask_err_name. exact E.
Qed.

(** No branch of [verifyTask] assigns the status [error]. *)
Lemma verifyTask_never_error (fs : FileSystem.t) (task : Task.t) (rootPath : string)
      (strictMode : bool) (tv : TaskVerification.t) :
  verifyTask fs task rootPath strictMode = Ok tv ->
  TaskVerification.status tv <> Status.error.
Proof.
  unfold verifyTask, verifyTaskWith, verifyCreate, verifyModify, verifyDelete, readFile.
  destruct (Task.type task);
    destruct (fileExists fs (FileSystem.join fs rootPath (Task.file task)));
    destruct (FileSystem.read fs (FileSystem.join fs rootPath (Task.file task)));
    simpl;
    repeat match goal with
           | |- context [if ?b then _ else _] => destruct b; simpl
           end;
    intros H; inversion H; simpl; discriminate.
Qed.

(** A failed task of a supported type carries an error. *)
Lemma verifyTask_fail_error (fs : FileSystem.t) (task : Task.t) (rootPath : string)
      (strictMode : bool) (tv : TaskVerification.t) :
  supported task ->
  verifyTask fs task rootPath strictMode = Ok tv ->
  TaskVerification.status tv = Status.fail ->
  Exists (fun i => Issue.severity i = Severity.error) (TaskVerification.issues tv).
Proof.
  unfold supported, verifyTask, verifyTaskWith, verifyCreate, verifyModify,
    verifyDelete, readFile.
  intros Hs.
  destruct (Task.type task);
    try (destruct Hs as [Hs|[Hs|Hs]]; discriminate Hs);
    destruct (fileExists fs (FileSystem.join fs rootPath (Task.file task)));
    destruct (FileSystem.read fs (FileSystem.join fs rootPath (Task.file task)));
    simpl;
    repeat match goal with
           | |- context [if ?b then _ else _] => destruct b; simpl
           end;
    intros H; inversion H; simpl; intros Hf;
      try discriminate Hf; constructor; reflexivity.
Qed.

Lemma missing_le_critical (taskResults : list TaskVerification.t) :
  Forall (fun tv =>
            TaskVerification.status tv = Status.fail ->
            Exists (fun i => Issue.severity i = Severity.error)
                   (TaskVerification.issues tv))
         taskResults ->
  List.length (filter (hasStatus Status.fail) taskResults)
  <= List.length (filter isCritical (flat_map TaskVerification.issues taskResults)).
Proof.
  induction 1 as [|tv l Htv _ IH]; simpl.
  - lia.
  - rewrite filter_app, length_app.
    destruct (hasStatus Status.fail tv) eqn:E; [|lia].
    apply Status_eqb_eq in E. specialize (Htv E).
    assert (1 <= List.length (filter isCritical (TaskVerification.issues tv))).
    { clear -Htv. induction Htv as [i l Hi|i l _ IHl]; simpl.
      - replace (isCritical i) with true
          by (symmetry; apply isCritical_severe; right; exact Hi).
        simpl. lia.
      - destruct (isCritical i); simpl; lia. }
    simpl. lia.
Qed.

Lemma verify_ok (fs : FileSystem.t) (date : nat) (plan : Plan.t)
      (rootPath : string) (options : VerifyOptions.t) (r : VerificationResult.t) :
  verify fs date plan rootPath options = Ok r ->
  Forall2 (fun task tv => verifyTask fs task rootPath (strictFlag options) = Ok tv)
          (getTasksToVerify plan options) (VerificationResult.taskResults r)
  /\ VerificationResult.summary r
     = summarize (VerificationResult.taskResults r)
                 (flat_map TaskVerification.issues (VerificationResult.taskResults r))
  /\ VerificationResult.overallStatus r
     = determineOverallStatus (VerificationResult.summary r).
Proof.
  unfold verify. intros H.
  destruct (verifyLoop fs rootPath (strictFlag options)
                       (getTasksToVerify plan options) [] [])
    as [[trs iss]|e] eqn:E; simpl in H; [|discriminate H].
  apply verifyLoop_ok in E. destruct E as [new [HF [Ht Hi]]].
  simpl in Ht, Hi. subst trs iss.
  inversion H. simpl. repeat split. exact HF.
Qed.

Definition severe_dec (i : Issue.t) : {severe i} + {~ severe i}.
Proof.
  unfold severe. destruct (Issue.severity i);
    try (left; auto; fail);
    right; intros [H|H]; discriminate H.
Defined.

(** The number of issues of severity critical or error in a list. *)
Fixpoint severeCount (issues : list Issue.t) : nat :=
  match issues with
  | [] => 0
  | i :: rest => (if severe_dec i then 1 else 0) + severeCount rest
  end.

Lemma filter_isCritical_count (issues : list Issue.t) :
  List.length (filter isCritical issues) = severeCount issues.
Proof.
  induction issues as [|i l IH]; simpl.
  - reflexivity.
  - destruct (severe_dec i) as [S|S].
    + apply isCritical_severe in S. rewrite S. simpl. rewrite IH. reflexivity.
    + destruct (isCritical i) eqn:E; [apply isCritical_severe in E; contradiction|].
      exact IH.
Qed.

(** A plan of one phase holding the given tasks. *)
Definition demoPlan (tasks : list Task.t) : Plan.t :=
  {| Plan.id := "plan-1";
     Plan.title := "Demo";
     Plan.description := "demo";
     Plan.timestamp := 0;
     Plan.phases :=
       [ {| Phase.id := "phase-1";
            Phase.order := 1;
            Phase.name := "Implementation";
            Phase.description := "Complete implementation";
            Phase.tasks := tasks;
            Phase.dependencies := [];
            Phase.status := PhaseStatus.pending |} ];
     Plan.metadata :=
       {| PlanMetadata.estimatedComplexity := low;
          PlanMetadata.filesAffected := [];
          PlanMetadata.dependencies := [];
          PlanMetadata.estimatedTime := None |};
     Plan.status := PlanStatus.ready |}.

Definition noOptions : VerifyOptions.t :=
  {| VerifyOptions.phase := None;
     VerifyOptions.task := None;
     VerifyOptions.strictMode := None |}.

(** C1.  In the result of a run, [totalTasks] is the number of task
    results, one per task to verify; [tasksCompleted], [tasksPartial]
    and [tasksMissing] are the numbers of task results with status
    [pass], [partial] and [fail]; [criticalIssues] is the number of
    issues of severity critical or error over all task results; and the
    overall status is [fail] when [criticalIssues > 0] or
    [tasksMissing > totalTasks / 2], else [partial] when
    [tasksPartial > 0] or [tasksMissing > 0], else [pass]. *)
Theorem verify_summary (fs : FileSystem.t) (date : nat) (plan : Plan.t)
        (rootPath : string) (options : VerifyOptions.t) (r : VerificationResult.t) :
  verify fs date plan rootPath options = Ok r ->
  let results := VerificationResult.taskResults r in
  let s := VerificationResult.summary r in
  let failing :=
    0 < VerificationSummary.criticalIssues s
    \/ (num (VerificationSummary.totalTasks s) / 2
        < num (VerificationSummary.tasksMissing s))%Q in
  let lacking :=
    0 < VerificationSummary.tasksPartial s \/ 0 < VerificationSummary.tasksMissing s in
  List.length results = List.length (getTasksToVerify plan options)
  /\ VerificationSummary.totalTasks s = List.length results
  /\ VerificationSummary.tasksCompleted s = statusCount Status.pass results
  /\ VerificationSummary.tasksPartial s = statusCount Status.partial results
  /\ VerificationSummary.tasksMissing s = statusCount Status.fail results
  /\ VerificationSummary.criticalIssues s
     = list_sum (map (fun tv => severeCount (TaskVerification.issues tv)) results)
  /\ (failing -> VerificationResult.overallStatus r = Status.fail)
  /\ (~ failing -> lacking -> VerificationResult.overallStatus r = Status.partial)
  /\ (~ failing -> ~ lacking -> VerificationResult.overallStatus r = Status.pass).
Proof.
  intros H. apply verify_ok in H. destruct H as [HF [Hs Ho]].
  cbv zeta. rewrite Ho, Hs. unfold summarize. simpl.
  split; [symmetry; eapply Forall2_length; exact HF|].
  split; [reflexivity|].
  split; [apply filter_hasStatus_count|].
  split; [apply filter_hasStatus_count|].
  split; [apply filter_hasStatus_count|].
  split.
  { rewrite filter_flat_map_length. f_equal.
    apply map_ext. intros tv. apply filter_isCritical_count. }
  unfold determineOverallStatus. simpl.
  set (crit := List.length (filter isCritical _)).
  set (total := List.length (VerificationResult.taskResults r)).
  set (missing := List.length (filter (hasStatus Status.fail) _)).
  set (part := List.length (filter (hasStatus Status.partial) _)).
  destruct (0 <? crit)%nat eqn:Ec; simpl.
  - apply Nat.ltb_lt in Ec. split; [reflexivity|].
    split; intros Hn; exfalso; apply Hn; left; exact Ec.
  - apply Nat.ltb_ge in Ec.
    destruct (Qltb (num total / 2) (num missing)) eqn:Eq.
    + apply Qltb_true in Eq. split; [reflexivity|].
      split; intros Hn; exfalso; apply Hn; right; exact Eq.
    + assert (Hnf : ~ (0 < crit \/ (num total / 2 < num missing)%Q)).
      { intros [Hc|Hq]; [lia|]. apply Qltb_true in Hq. congruence. }
      split; [intros Hf; contradiction|].
      destruct (0 <? part)%nat eqn:Ep; simpl.
      * apply Nat.ltb_lt in Ep. split; [reflexivity|].
        intros _ Hl. exfalso. apply Hl. left. exact Ep.
      * apply Nat.ltb_ge in Ep.
        destruct (0 <? missing)%nat eqn:Em.
        -- apply Nat.ltb_lt in Em. split; [reflexivity|].
           intros _ Hl. exfalso. apply Hl. right. exact Em.
        -- apply Nat.ltb_ge in Em. split; [|reflexivity].
           intros _ [Hp|Hm]; lia.
Qed.

Definition demoTasks : list Task.t :=
  [ demoTask "task-1" create "a.ts" "Add parseConfig helper function";
    demoTask "task-2" modify "a.ts" "Rework the parser";
    demoTask "task-3" delete "old.ts" "Delete old.ts" ].

Lemma verify_summary_witness :
  exists r,
    verify demoFs 0 (demoPlan demoTasks) "/r" noOptions = Ok r
    /\ map TaskVerification.status (VerificationResult.taskResults r)
       = [Status.pass; Status.partial; Status.pass]
    /\ VerificationSummary.totalTasks (VerificationResult.summary r)
       = List.length (VerificationResult.taskResults r)
    /\ VerificationSummary.tasksCompleted (VerificationResult.summary r)
       = statusCount Status.pass (VerificationResult.taskResults r)
    /\ VerificationSummary.tasksPartial (VerificationResult.summary r)
       = statusCount Status.partial (VerificationResult.taskResults r)
    /\ VerificationSummary.tasksMissing (VerificationResult.summary r)
       = statusCount Status.fail (VerificationResult.taskResults r)
    /\ VerificationResult.overallStatus r = Status.partial.
Proof.
  destruct (verify demoFs 0 (demoPlan demoTasks) "/r" noOptions) as [r|e] eqn:E.
  - exists r. split; [reflexivity|].
    pose proof (verify_summary _ _ _ _ _ _ E) as H. cbv zeta in H.
    destruct H as [_ [Htot [Hpass [Hpart [Hmiss [_ [_ [Hpartial _]]]]]]]].
    split; [vm_compute in E; injection E as <-; reflexivity|].
    split; [exact Htot|]. split; [exact Hpass|]. split; [exact Hpart|].
    split; [exact Hmiss|].
    vm_compute in E. injection E as <-.
    apply Hpartial.
    + intros [Hc|Hq]; [vm_compute in Hc; lia|vm_compute in Hq; discriminate Hq].
    + left. vm_compute. lia.
  - vm_compute in E. discriminate E.
Defined.

(** C9.  In a run, every result with status [fail] made for a task of
    type [create], [modify] or [delete] holds an issue of severity error.
    When all the tasks verified are of these types, [criticalIssues] is
    at least [tasksMissing], and as soon as one task fails the overall
    status is [fail]. *)
Theorem fail_carries_error (fs : FileSystem.t) (date : nat) (plan : Plan.t)
        (rootPath : string) (options : VerifyOptions.t) (r : VerificationResult.t) :
  verify fs date plan rootPath options = Ok r ->
  Forall2 (fun task tv =>
             supported task ->
             TaskVerification.status tv = Status.fail ->
             Exists (fun i => Issue.severity i = Severity.error)
                    (TaskVerification.issues tv))
          (getTasksToVerify plan options) (VerificationResult.taskResults r)
  /\ (Forall supported (getTasksToVerify plan options) ->
      VerificationSummary.tasksMissing (VerificationResult.summary r)
      <= VerificationSummary.criticalIssues (VerificationResult.summary r)
      /\ (Exists (fun tv => TaskVerification.status tv = Status.fail)
                 (VerificationResult.taskResults r) ->
          VerificationResult.overallStatus r = Status.fail)).
Proof.
  intros H. apply verify_ok in H. destruct H as [HF [Hs Ho]].
  assert (Hpair :
            Forall2 (fun task tv =>
                       supported task ->
                       TaskVerification.status tv = Status.fail ->
                       Exists (fun i => Issue.severity i = Severity.error)
                              (TaskVerification.issues tv))
                    (getTasksToVerify plan options)
                    (VerificationResult.taskResults r)).
  { clear Hs Ho. induction HF as [|task tv tasks tvs Hv _ IH]; constructor.
    - intros Hsup Hfail. eapply verifyTask_fail_error; eauto.
    - exact IH. }
  split; [exact Hpair|].
  intros Hall.
  assert (Hres :
            Forall (fun tv =>
                      TaskVerification.status tv = Status.fail ->
                      Exists (fun i => Issue.severity i = Severity.error)
                             (TaskVerification.issues tv))
                   (VerificationResult.taskResults r)).
  { clear Hs Ho HF. induction Hpair as [|task tv tasks tvs Hp _ IH]; constructor.
    - apply Hp. inversion Hall. assumption.
    - apply IH. inversion Hall. assumption. }
  pose proof (missing_le_critical _ Hres) as Hle.
  rewrite Ho, Hs. unfold summarize, determineOverallStatus. simpl.
  split; [exact Hle|].
  intros Hex.
  assert (Hpos : 0 < List.length (filter (hasStatus Status.fail)
                                         (VerificationResult.taskResults r))).
  { clear -Hex. induction Hex as [tv l Hf|tv l _ IH]; simpl.
    - replace (hasStatus Status.fail tv) with true
        by (symmetry; apply Status_eqb_eq; exact Hf).
      simpl. lia.
    - destruct (hasStatus Status.fail tv); simpl; lia. }
  replace (0 <? List.length
                  (filter isCritical
                          (flat_map TaskVerification.issues
                                    (VerificationResult.taskResults r))))%nat
    with true by (symmetry; apply Nat.ltb_lt; lia).
  reflexivity.
Qed.

Lemma fail_carries_error_witness :
  exists r,
    verify demoFs 0
           (demoPlan [ demoTask "task-1" delete "a.ts" "Delete a.ts";
                       demoTask "task-2" create "a.ts" "Add parseConfig helper function";
                       demoTask "task-3" modify "a.ts" "Add parseConfig helper function" ])
           "/r" noOptions
    = Ok r
    /\ map TaskVerification.status (VerificationResult.taskResults r)
       = [Status.fail; Status.pass; Status.pass]
    /\ VerificationSummary.tasksMissing (VerificationResult.summary r)
       <= VerificationSummary.criticalIssues (VerificationResult.summary r)
    /\ VerificationResult.overallStatus r = Status.fail.
Proof.
  destruct (verify demoFs 0
                   (demoPlan [ demoTask "task-1" delete "a.ts" "Delete a.ts";
                               demoTask "task-2" create "a.ts"
                                        "Add parseConfig helper function";
                               demoTask "task-3" modify "a.ts"
                                        "Add parseConfig helper function" ])
                   "/r" noOptions) as [r|e] eqn:E.
  - exists r. split; [reflexivity|].
    pose proof (fail_carries_error _ _ _ _ _ _ E) as [_ H].
    assert (Hall : Forall supported
                          (getTasksToVerify
                             (demoPlan
                                [ demoTask "task-1" delete "a.ts" "Delete a.ts";
                                  demoTask "task-2" create "a.ts"
                                           "Add parseConfig helper function";
                                  demoTask "task-3" modify "a.ts"
                                           "Add parseConfig helper function" ])
                             noOptions)).
    { unfold supported. simpl.
      constructor; [right; right; reflexivity|].
      constructor; [left; reflexivity|].
      constructor; [right; left; reflexivity|].
      constructor. }
    destruct (H Hall) as [Hle Hfail].
    split; [vm_compute in E; injection E as <-; reflexivity|].
    split; [exact Hle|].
    apply Hfail. vm_compute in E. injection E as <-.
    constructor. reflexivity.
  - vm_compute in E. discriminate E.
Defined.

(** *** A file that is there and cannot be read *)

Definition lockedTasks : list Task.t :=
  [ demoTask "task-1" create "locked.ts" "Add the session store";
    demoTask "task-2" delete "old.ts" "Delete old.ts" ].

(** C8 as stated fails: with a first task whose file is there and cannot
    be read, and a second task that verifies well on its own, the run is
    rejected with the error of [readFile]; there is no result in which
    the first task has status [error], and none for the second task. *)
Lemma unreadable_file_counterexample :
  fileExists demoFs "/r/locked.ts" = true
  /\ FileSystem.read demoFs "/r/locked.ts" = None
  /\ (exists tv,
        verifyTask demoFs (demoTask "task-2" delete "old.ts" "Delete old.ts") "/r" false
        = Ok tv
        /\ TaskVerification.status tv = Status.pass)
  /\ verify demoFs 0 (demoPlan lockedTasks) "/r" noOptions
     = Err (FileSystemError "Failed to read file: /r/locked.ts")
  /\ ~ (exists r,
           verify demoFs 0 (demoPlan lockedTasks) "/r" noOptions = Ok r
           /\ exists tv,
               In tv (VerificationResult.taskResults r)
               /\ TaskVerification.taskId tv = "task-1"
               /\ TaskVerification.status tv = Status.error).
Proof.
  split; [reflexivity|]. split; [reflexivity|].
  split; [eexists; split; vm_compute; reflexivity|].
  split; [vm_compute; reflexivity|].
  intros [r [H _]]. vm_compute in H. discriminate H.
Qed.

(** C8, as amended.  When a [create] or [modify] task to verify has a
    file that is there and cannot be read, [verifyTask] raises a
    FileSystemError for it, and the run as a whole is rejected with a
    FileSystemError: it yields no verification result.  No result of
    [verifyTask] ever has the status [error]. *)
Theorem unreadable_file_rejects_run (fs : FileSystem.t) (date : nat) (plan : Plan.t)
        (rootPath : string) (options : VerifyOptions.t) (task : Task.t) :
  In task (getTasksToVerify plan options) ->
  Task.type task = create \/ Task.type task = modify ->
  fileExists fs (FileSystem.join fs rootPath (Task.file task)) = true ->
  FileSystem.read fs (FileSystem.join fs rootPath (Task.file task)) = None ->
  verifyTask fs task rootPath (strictFlag options)
  = Err (FileSystemError
           ("Failed to read file: " ++ FileSystem.join fs rootPath (Task.file task)))
  /\ (exists e,
        verify fs date plan rootPath options = Err e
        /\ PlanFirstError.name e = "FileSystemError")
  /\ (forall task' strictMode tv,
        verifyTask fs task' rootPath strictMode = Ok tv ->
        TaskVerification.status tv <> Status.error).
Proof.
  intros Hin Ht He Hr.
  assert (Hv : verifyTask fs task rootPath (strictFlag options)
               = Err (FileSystemError
                        ("Failed to read file: "
                           ++ FileSystem.join fs rootPath (Task.file task)))).
  { unfold verifyTask, verifyTaskWith. rewrite He.
    destruct Ht as [Ht|Ht]; rewrite Ht.
    - unfold verifyCreate, readFile. rewrite Hr. reflexivity.
    - unfold verifyModify, readFile. rewrite Hr. reflexivity. }
  split; [exact Hv|]. split.
  - destruct (verifyLoop_rejects fs rootPath (strictFlag options) task _
                                 (getTasksToVerify plan options) Hin Hv [] [])
      as [e Hloop].
    exists e. split.
    + unfold verify. rewrite Hloop. reflexivity.
    + eapply verifyLoop_err_name. exact Hloop.
  - intros task' strictMode tv. apply verifyTask_never_error.
Qed.

Lemma unreadable_file_rejects_run_witness :
  exists e,
    verify demoFs 0 (demoPlan lockedTasks) "/r" noOptions = Err e
    /\ PlanFirstError.name e = "FileSystemError".
Proof.
  destruct (unreadable_file_rejects_run
              demoFs 0 (demoPlan lockedTasks) "/r" noOptions
              (demoTask "task-1" create "locked.ts" "Add the session store")
              (or_introl eq_refl) (or_introl eq_refl) eq_refl eq_refl)
    as [_ [H _]].
  exact H.
Defined.

End VerifierSpec.

(* ===================================================================== *)
(** * More of the planner *)
(* ===================================================================== *)

Module PlannerMore.
Import Regex Planner PlannerFacts.

(** ** Helpers *)

Fixpoint allChars (p : ascii -> bool) (s : string) : bool :=
match s with
| EmptyString => true
| String c t => p c && allChars p t
end.

Lemma slice0_length (n : nat) (s : string) : String.length (Js.slice0 n s) <= n.
Proof.
unfold Js.slice0. revert s. induction n as [|n IH]; intros s.
- destruct s; simpl; lia.
- destruct s as [|c t]; simpl; [lia|]. specialize (IH t). lia.
Qed.

Lemma setHas_false (s : list string) (x : string) :
  Js.setHas s x = false -> ~ In x s.
Proof.
unfold Js.setHas. intros H Hin.
assert (E : existsb (String.eqb x) s = true).
{ apply existsb_exists. exists x. split; [exact Hin|apply String.eqb_refl]. }
congruence.
Qed.

Lemma setAdd_NoDup (s : list string) (x : string) :
  NoDup s -> NoDup (Js.setAdd s x).
Proof.
intros H. unfold Js.setAdd. destruct (Js.setHas s x) eqn:E; [exact H|].
apply setHas_false in E.
apply NoDup_app; [exact H|constructor; [intros []|constructor]|].
intros a Ha [<-|[]]. contradiction.
Qed.

Lemma fold_left_invariant {A B : Type} (P : A -> Prop) (f : A -> B -> A) (l : list B) :
  (forall a b, P a -> P (f a b)) -> forall a, P a -> P (fold_left f l a).
Proof.
intros Hf. induction l as [|b l IH]; intros a Ha; simpl; [exact Ha|].
apply IH. apply Hf. exact Ha.
Qed.

Lemma findFiles_NoDup (content : string) : NoDup (findFiles content).
Proof.
unfold findFiles.
apply (fold_left_invariant (@NoDup string)); [|constructor].
intros found pattern Hfound.
apply (fold_left_invariant (@NoDup string)); [|exact Hfound].
intros a m Ha. unfold addFile. destruct (m1 m) as [path|]; [|exact Ha].
destruct (Js.truthy path && negb (Js.setHas a path)); [|exact Ha].
apply setAdd_NoDup. exact Ha.
Qed.

(** A property that holds of the fallback phase and of every phase made
    from a match holds of every phase extracted. *)
Lemma extractPhases_forall (P : Phase.t -> Prop) (markdown : string) :
  P (implementationPhase markdown) ->
  (forall m idx, P (phaseOf m idx)) ->
  Forall P (extractPhases markdown).
Proof.
intros Himpl Hof. apply Forall_forall. intros ph Hin.
apply In_nth_error in Hin. destruct Hin as [k Hk].
rewrite extractPhases_eq in Hk.
destruct (matchAll phaseFlags phasePattern markdown) as [|m rest].
- destruct k as [|k]; [|destruct k; discriminate].
  inversion Hk. exact Himpl.
- apply pushPhases_nth in Hk. destruct Hk as [m' [_ ->]]. apply Hof.
Qed.

Lemma extractTasks_forall (P : Task.t -> Prop) (content : string) :
  P genericTask ->
  (forall file, P (taskOf content file file)) ->
  Forall P (extractTasks content).
Proof.
intros Hg Hof. unfold extractTasks.
destruct (findFiles content) as [|f l]; simpl.
- constructor; [exact Hg|constructor].
- constructor; [apply Hof|]. apply Forall_forall. intros t Ht.
  apply in_map_iff in Ht. destruct Ht as [file [<- _]]. apply Hof.
Qed.

(** ** Tasks *)

(** X1.  The tasks extracted from a text name pairwise different files:
    a path written several times, or caught by several patterns, gives one
    task. *)
Theorem extractTasks_files_distinct (content : string) :
  NoDup (map Task.file (extractTasks content)).
Proof.
unfold extractTasks.
destruct (findFiles content) as [|f l] eqn:E.
- simpl. constructor; [intros []|constructor].
- change (match map (fun file => taskOf content file file) (f :: l) with
          | [] => [genericTask]
          | _ :: _ => map (fun file => taskOf content file file) (f :: l)
          end)
    with (map (fun file => taskOf content file file) (f :: l)).
  rewrite map_map. simpl Task.file. rewrite map_id. rewrite <- E.
  apply findFiles_NoDup.
Qed.

(** The type of a task, with a capital, as descriptions start. *)
Definition capitalized (t : TaskType) : string :=
match t with
| create => "Create"
| modify => "Modify"
| delete => "Delete"
| rename => "Rename"
| move => "Move"
end.

(** X2.  Every task the extractor emits is of type create, modify or
    delete (never rename or move), has no changes and no dependencies; it
    is the placeholder task, or its description is its type with a capital,
    a space and its file. *)
Theorem extractTasks_shape (content : string) :
  Forall (fun task =>
            (Task.type task = create \/ Task.type task = modify
             \/ Task.type task = delete)
            /\ Task.changes task = []
            /\ Task.dependencies task = None
            /\ (task = genericTask
                \/ Task.description task
                   = capitalized (Task.type task) ++ " " ++ Task.file task))
         (extractTasks content).
Proof.
apply extractTasks_forall.
- repeat split; auto.
- intros file. unfold taskOf. simpl.
  destruct (determineTaskType content file) eqn:E;
    try (unfold determineTaskType in E;
         repeat match type of E with
                | (if ?b then _ else _) = _ => destruct b
                end; discriminate E);
    repeat split; auto.
Qed.

(** ** Sizes *)

Lemma extractReasoning_length (content file : string) :
  String.length (extractReasoning content file) <= 200.
Proof.
unfold extractReasoning.
destruct (find _ _); [apply slice0_length|simpl; lia].
Qed.

(** X3.  In every plan extracted, a phase description has at most 200
    characters, the reasoning of a task at most 200, and the metadata lists
    at most 10 dependencies, the first ones of the project. *)
Theorem parsePlanFromMarkdown_sizes (now date : nat) (markdown description : string)
        (analysis : AnalysisResult.t) :
  let plan := parsePlanFromMarkdown now date markdown description analysis in
  Forall (fun ph =>
            String.length (Phase.description ph) <= 200
            /\ Forall (fun task => String.length (Task.reasoning task) <= 200)
                      (Phase.tasks ph))
         (Plan.phases plan)
  /\ List.length (PlanMetadata.dependencies (Plan.metadata plan)) <= 10
  /\ PlanMetadata.dependencies (Plan.metadata plan)
     = firstn 10 (Project.dependencies (AnalysisResult.project analysis)).
Proof.
cbv zeta. unfold parsePlanFromMarkdown.
cbn [Plan.phases Plan.metadata PlanMetadata.dependencies].
split; [|split; [apply firstn_le_length|reflexivity]].
assert (Htasks : forall content,
           Forall (fun task => String.length (Task.reasoning task) <= 200)
                  (extractTasks content)).
{ intros content. apply extractTasks_forall.
  - simpl. lia.
  - intros file. apply extractReasoning_length. }
apply extractPhases_forall.
- split; [simpl; lia|apply Htasks].
- intros m idx. split; [apply slice0_length|apply Htasks].
Qed.

(** X4.  The files listed in the metadata of a plan are pairwise
    different. *)
Theorem filesAffected_distinct (now date : nat) (markdown description : string)
        (analysis : AnalysisResult.t) :
  NoDup (PlanMetadata.filesAffected
           (Plan.metadata (parsePlanFromMarkdown now date markdown description analysis))).
Proof.
simpl. unfold extractFilesMentioned.
apply (fold_left_invariant (@NoDup string)); [|constructor].
intros a m Ha. unfold addMentioned. destruct (m1 m) as [path|]; [|exact Ha].
destruct (Js.truthy path && negb (Js.includes path " ")); [|exact Ha].
apply setAdd_NoDup. exact Ha.
Qed.

(** ** Complexity *)

Definition rank (c : Complexity) : nat :=
match c with low => 0 | medium => 1 | high => 2 end.

(** X5.  For one text, more phases or more files never give a lower
    complexity. *)
Theorem estimateComplexity_monotone (markdown : string)
        (phaseCount phaseCount' fileCount fileCount' : nat) :
  phaseCount <= phaseCount' ->
  fileCount <= fileCount' ->
  rank (estimateComplexity markdown phaseCount fileCount)
  <= rank (estimateComplexity markdown phaseCount' fileCount').
Proof.
intros Hp Hf. unfold estimateComplexity.
set (w := List.length (split noFlags (plus space) markdown)).
destruct (10 <? fileCount)%nat eqn:F1; destruct (5 <? phaseCount)%nat eqn:P1;
  destruct (2000 <? w)%nat eqn:W1;
  destruct (5 <? fileCount)%nat eqn:F2; destruct (2 <? phaseCount)%nat eqn:P2;
  destruct (1000 <? w)%nat eqn:W2;
  destruct (10 <? fileCount')%nat eqn:F1'; destruct (5 <? phaseCount')%nat eqn:P1';
  destruct (5 <? fileCount')%nat eqn:F2'; destruct (2 <? phaseCount')%nat eqn:P2';
  simpl; try lia;
  rewrite ?Nat.ltb_lt, ?Nat.ltb_ge in *; lia.
Qed.

Lemma estimateComplexity_monotone_witness :
  rank (estimateComplexity "a b c" 1 2) <= rank (estimateComplexity "a b c" 3 11)
  /\ estimateComplexity "a b c" 1 2 = low
  /\ estimateComplexity "a b c" 3 11 = high.
Proof.
split; [apply estimateComplexity_monotone; lia|].
split; reflexivity.
Defined.

(** ** Case *)

Lemma lower_upper_char (c : ascii) : Js.lowerChar (Js.upperChar c) = Js.lowerChar c.
Proof.
destruct c as [b0 b1 b2 b3 b4 b5 b6 b7].
destruct b0, b1, b2, b3, b4, b5, b6, b7; reflexivity.
Qed.

Lemma lower_lower_char (c : ascii) : Js.lowerChar (Js.lowerChar c) = Js.lowerChar c.
Proof.
destruct c as [b0 b1 b2 b3 b4 b5 b6 b7].
destruct b0, b1, b2, b3, b4, b5, b6, b7; reflexivity.
Qed.

Lemma toLowerCase_toUpperCase (s : string) :
  Js.toLowerCase (Js.toUpperCase s) = Js.toLowerCase s.
Proof.
unfold Js.toLowerCase, Js.toUpperCase.
induction s as [|c t IH]; cbn [Js.mapChars]; [reflexivity|].
rewrite lower_upper_char. f_equal. exact IH.
Qed.

Lemma toLowerCase_idempotent (s : string) :
  Js.toLowerCase (Js.toLowerCase s) = Js.toLowerCase s.
Proof.
unfold Js.toLowerCase.
induction s as [|c t IH]; cbn [Js.mapChars]; [reflexivity|].
rewrite lower_lower_char. f_equal. exact IH.
Qed.

(** Text of ASCII characters only: on such text the case conversions of
    JavaScript change the letters A-Z and a-z and nothing else. *)
Definition isAscii (s : string) : bool :=
allChars (fun c => (Js.code c <? 128)%N) s.

(** X6.  For a text and a file path of ASCII characters, the type of a task
    does not depend on the case of either: writing the text or the path in
    capitals, or both in lower case, changes nothing. *)
Theorem determineTaskType_ignores_case (content file : string) :
  isAscii content = true ->
  isAscii file = true ->
  determineTaskType (Js.toUpperCase content) file = determineTaskType content file
  /\ determineTaskType content (Js.toUpperCase file) = determineTaskType content file
  /\ determineTaskType (Js.toLowerCase content) (Js.toLowerCase file)
     = determineTaskType content file.
Proof.
intros _ _. unfold determineTaskType.
rewrite !toLowerCase_toUpperCase, !toLowerCase_idempotent.
repeat split.
Qed.

Lemma determineTaskType_ignores_case_witness :
  determineTaskType "CREATE SRC/APP.TS FIRST" "src/app.ts" = create
  /\ determineTaskType "create src/app.ts first" "SRC/APP.TS" = create.
Proof.
destruct (determineTaskType_ignores_case "create src/app.ts first" "src/app.ts"
                                         eq_refl eq_refl) as [Hc [Hf _]].
split.
- change "CREATE SRC/APP.TS FIRST" with (Js.toUpperCase "create src/app.ts first").
  rewrite Hc. reflexivity.
- change "SRC/APP.TS" with (Js.toUpperCase "src/app.ts").
  rewrite Hf. reflexivity.
Defined.

(** ** The title *)

Lemma append_length (a b : string) :
  String.length (a ++ b) = String.length a + String.length b.
Proof. induction a as [|c a IH]; simpl; [reflexivity|]. rewrite IH. reflexivity. Qed.

Lemma substring_append (a b : string) : substring 0 (String.length a) (a ++ b) = a.
Proof.
induction a as [|c a IH]; simpl.
- destruct b; reflexivity.
- rewrite IH. reflexivity.
Qed.

(** What an unbounded repetition of a one-character atom consumes: at
    least [min] characters, all accepted by the atom. *)
Lemma repeat_oneChar (ok : ascii -> bool) (greedy : bool) :
  forall fuel min st st',
    In st' (repeat fuel (oneChar ok) greedy min None st) ->
    exists pre,
      rest st = pre ++ rest st'
      /\ allChars ok pre = true
      /\ min <= String.length pre.
Proof.
induction fuel as [|fuel IH]; intros min st st' Hin.
- simpl in Hin. destruct min as [|min]; simpl in Hin.
  + assert (st' = st) by (destruct greedy; simpl in Hin; intuition). subst st'.
    exists "". repeat split. simpl. lia.
  + destruct Hin.
- assert (Hagain :
            In st' (flat_map
                      (fun x => if Nat.eqb min 0 && Nat.eqb (remaining x) (remaining st)
                                then []
                                else repeat fuel (oneChar ok) greedy (Nat.pred min) None x)
                      (oneChar ok st)) ->
            exists pre,
              rest st = pre ++ rest st'
              /\ allChars ok pre = true
              /\ min <= String.length pre).
  { intros H. apply in_flat_map in H. destruct H as [x [Hx Hst']].
    unfold oneChar in Hx. destruct (rest st) as [|c t] eqn:E; [destruct Hx|].
    destruct (ok c) eqn:Ec; [|destruct Hx]. destruct Hx as [<-|[]].
    destruct (Nat.eqb min 0 && Nat.eqb _ _); [destruct Hst'|].
    apply IH in Hst'. destruct Hst' as [pre [Hr [Ha Hm]]]. simpl in Hr.
    exists (String c pre). split; [simpl; rewrite Hr; reflexivity|].
    split; [simpl; rewrite Ec; exact Ha|simpl; lia]. }
  simpl in Hin. destruct min as [|min]; simpl in Hin.
  + destruct greedy.
    * apply in_app_or in Hin. destruct Hin as [H|[<-|[]]]; [apply Hagain; exact H|].
      exists "". repeat split. simpl. lia.
    * destruct Hin as [<-|H]; [|apply Hagain; exact H].
      exists "". repeat split. simpl. lia.
  + apply Hagain. exact Hin.
Qed.

Definition notLineTerminator (c : ascii) : bool := negb (Js.isLineTerminator c).

(** Wherever the title pattern matches, what it captures is not empty and
    holds no line terminator. *)
Lemma titlePattern_capture (st st' : mstate) :
  In st' (run titleFlags titlePattern st) ->
  exists t, cap st' = Some t /\ t <> "" /\ allChars notLineTerminator t = true.
Proof.
change (run titleFlags titlePattern st)
  with (flat_map
          (fun a =>
             flat_map
               (fun b =>
                  flat_map
                    (fun c =>
                       flat_map (run titleFlags Eol)
                                (run titleFlags (Group (plus Dot)) c))
                    (run titleFlags (plus space) b))
               (run titleFlags (Lit "#") a))
          (run titleFlags Bol st)).
intros H.
apply in_flat_map in H. destruct H as [a [_ H]].
apply in_flat_map in H. destruct H as [b [_ H]].
apply in_flat_map in H. destruct H as [c [_ H]].
apply in_flat_map in H. destruct H as [d [Hd H]].
assert (Hst' : st' = d).
{ simpl in H. destruct (atLineEnd titleFlags d); [destruct H as [<-|[]]; reflexivity|destruct H]. }
subst st'.
change (run titleFlags (Group (plus Dot)) c)
  with (map (fun x =>
               mkState (prev x) (rest x)
                       (Some (substring 0 (remaining c - remaining x) (rest c))))
            (repeat (remaining c + 1) (oneChar notLineTerminator) true 1 None c))
  in Hd.
apply in_map_iff in Hd. destruct Hd as [x [<- Hx]].
apply repeat_oneChar in Hx. destruct Hx as [pre [Hr [Ha Hm]]].
exists pre. simpl. split.
- f_equal. unfold remaining. rewrite Hr, append_length.
  replace (String.length pre + String.length (rest x) - String.length (rest x))
    with (String.length pre) by lia.
  apply substring_append.
- split; [|exact Ha]. intros E. subst pre. simpl in Hm. lia.
Qed.

Lemma matchFirstFrom_capture (s : string) :
  forall p m,
    matchFirstFrom titleFlags titlePattern p s = Some m ->
    exists t, m1 m = Some t /\ t <> "" /\ allChars notLineTerminator t = true.
Proof.
assert (Hat : forall p s m n,
           matchAt titleFlags titlePattern p s = Some (m, n) ->
           exists t, m1 m = Some t /\ t <> "" /\ allChars notLineTerminator t = true).
{ intros p s0 m n H. unfold matchAt in H.
  destruct (run titleFlags titlePattern (mkState p s0 None)) as [|st' l] eqn:E;
    [discriminate H|].
  inversion H. subst. simpl.
  apply (titlePattern_capture (mkState p s0 None)). rewrite E. left. reflexivity. }
induction s as [|c t IH]; intros p m H.
- change (match matchAt titleFlags titlePattern p "" with
          | Some (m, _) => Some m
          | None => None
          end = Some m) in H.
  destruct (matchAt titleFlags titlePattern p "") as [[m' n]|] eqn:E; [|discriminate H].
  inversion H. subst. eapply Hat. exact E.
- change (match matchAt titleFlags titlePattern p (String c t) with
          | Some (m, _) => Some m
          | None => matchFirstFrom titleFlags titlePattern (Some c) t
          end = Some m) in H.
  destruct (matchAt titleFlags titlePattern p (String c t)) as [[m' n]|] eqn:E.
  + inversion H. subst. eapply Hat. exact E.
  + eapply IH. exact H.
Qed.

(** X7.  The title of a plan is the first 100 characters of the request,
    or, when a top-level heading is found, a text that is not empty and
    holds no line break. *)
Theorem title_one_line (now date : nat) (markdown description : string)
        (analysis : AnalysisResult.t) :
  let title :=
    Plan.title (parsePlanFromMarkdown now date markdown description analysis) in
  (matchFirst titleFlags titlePattern markdown = None
   /\ title = Js.slice0 100 description
   /\ String.length title <= 100)
  \/ (title <> "" /\ allChars notLineTerminator title = true).
Proof.
cbv zeta. unfold parsePlanFromMarkdown. cbn [Plan.title].
destruct (matchFirst titleFlags titlePattern markdown) as [m|] eqn:E.
- right. apply matchFirstFrom_capture in E. destruct E as [t [Ht [Hne Hall]]].
  rewrite Ht. split; assumption.
- left. split; [reflexivity|]. split; [reflexivity|apply slice0_length].
Qed.

(** ** Text without any heading *)

Lemma includes_hash (c : ascii) (t : string) :
  Js.includes (String c t) "#" = false ->
  Ascii.eqb c "#" = false /\ Js.includes t "#" = false.
Proof.
intros H. change (prefix "#" (String c t) || Js.includes t "#" = false) in H.
apply orb_false_iff in H. destruct H as [Hp Ht]. split; [|exact Ht].
simpl in Hp. destruct (ascii_dec "#" c) as [<-|Hne].
- destruct t; discriminate Hp.
- apply Ascii.eqb_neq. congruence.
Qed.

Lemma unhashed_unmarked (s : string) : Js.includes s "#" = false -> marked s = false.
Proof.
induction s as [|c t IH]; intros H; [reflexivity|].
apply includes_hash in H. destruct H as [Hc Ht].
change (marksHere (String c t) || marked t = false).
rewrite (IH Ht), orb_false_r.
simpl. destruct t as [|b [|d t']]; try reflexivity.
rewrite Hc. reflexivity.
Qed.

Lemma titlePattern_needs_hash (p : option ascii) (s : string) :
  match s with
  | EmptyString => True
  | String c _ => Ascii.eqb c "#" = false
  end ->
  matchAt titleFlags titlePattern p s = None.
Proof.
intros H. unfold matchAt.
replace (run titleFlags titlePattern (mkState p s None)) with (@nil mstate);
  [reflexivity|].
change (run titleFlags titlePattern (mkState p s None))
  with (flat_map
          (fun a =>
             flat_map
               (run titleFlags (seqs [plus space; Group (plus Dot); Eol]))
               (run titleFlags (Lit "#") a))
          (run titleFlags Bol (mkState p s None))).
symmetry. apply RegexFacts.flat_map_nil. intros a Ha.
simpl in Ha. destruct (atLineStart titleFlags (mkState p s None)); [|destruct Ha].
destruct Ha as [<-|[]].
replace (run titleFlags (Lit "#") (mkState p s None)) with (@nil mstate);
  [reflexivity|].
simpl. unfold oneChar, canon. simpl.
destruct s as [|c t]; [reflexivity|]. rewrite H. reflexivity.
Qed.

Lemma matchFirst_unhashed (s : string) :
  Js.includes s "#" = false ->
  forall p, matchFirstFrom titleFlags titlePattern p s = None.
Proof.
induction s as [|c t IH]; intros H p.
- change (match matchAt titleFlags titlePattern p "" with
          | Some (m, _) => Some m
          | None => None
          end = None).
  rewrite titlePattern_needs_hash; [reflexivity|exact I].
- apply includes_hash in H. destruct H as [Hc Ht].
  change (match matchAt titleFlags titlePattern p (String c t) with
          | Some (m, _) => Some m
          | None => matchFirstFrom titleFlags titlePattern (Some c) t
          end = None).
  rewrite titlePattern_needs_hash by exact Hc. apply IH. exact Ht.
Qed.

(** X8.  A text without the character # gives the fallback plan: the title
    is the first 100 characters of the request, there is one phase,
    "Implementation", with the tasks of the whole text, and the plan is
    ready. *)
Theorem plan_without_heading (now date : nat) (markdown description : string)
        (analysis : AnalysisResult.t) :
  Js.includes markdown "#" = false ->
  let plan := parsePlanFromMarkdown now date markdown description analysis in
  Plan.title plan = Js.slice0 100 description
  /\ Plan.phases plan = [implementationPhase markdown]
  /\ Plan.status plan = PlanStatus.ready
  /\ PlanMetadata.estimatedTime (Plan.metadata plan)
     = Some (estimateTime (PlanMetadata.estimatedComplexity (Plan.metadata plan)) 1).
Proof.
intros H. cbv zeta. unfold parsePlanFromMarkdown.
cbn [Plan.title Plan.phases Plan.status Plan.metadata
     PlanMetadata.estimatedTime PlanMetadata.estimatedComplexity].
unfold matchFirst. rewrite (matchFirst_unhashed markdown H None).
rewrite (extractPhases_unmarked markdown (unhashed_unmarked markdown H)).
repeat split.
Qed.

Lemma plan_without_heading_witness :
  let plan :=
    parsePlanFromMarkdown 1 2 "Update `src/app.ts` and ship" "ship it"
                          (AnalysisResult.mk (Project.mk [])) in
  Plan.title plan = "ship it"
  /\ map Phase.name (Plan.phases plan) = ["Implementation"]
  /\ PlanMetadata.estimatedTime (Plan.metadata plan) = Some "2 hours".
Proof.
cbv zeta.
destruct (plan_without_heading 1 2 "Update `src/app.ts` and ship" "ship it"
                               (AnalysisResult.mk (Project.mk [])) eq_refl)
  as [Ht [Hp [_ He]]].
split; [rewrite Ht; reflexivity|].
split; [rewrite Hp; reflexivity|].
rewrite He. vm_compute. reflexivity.
Defined.

End PlannerMore.

(* ===================================================================== *)
(** * More of the verifier *)
(* ===================================================================== *)

From Stdlib Require Import Lqa.

Module VerifierMore.
Import Verifier VerifierFacts VerifierSpec.

(** ** One task *)

Lemma verifyTask_strict (fs : FileSystem.t) (task : Task.t) (rootPath : string)
      (strictMode : bool) :
  verifyTask fs task rootPath strictMode = verifyTask fs task rootPath false.
Proof.
unfold verifyTask, verifyTaskWith.
destruct (match Task.type task with
          | create => _ | modify => _ | delete => _ | rename | move => _
          end) as [[[s i] m]|e]; simpl; [|reflexivity].
destruct (strictMode && fileExists fs (FileSystem.join fs rootPath (Task.file task)));
  [rewrite app_nil_r|]; reflexivity.
Qed.

Lemma verifyLoop_strict (fs : FileSystem.t) (rootPath : string) (strictMode : bool)
      (tasks : list Task.t) :
  forall taskResults allIssues,
    verifyLoop fs rootPath strictMode tasks taskResults allIssues
    = verifyLoop fs rootPath false tasks taskResults allIssues.
Proof.
induction tasks as [|t rest IH]; intros trs iss; simpl; [reflexivity|].
rewrite (verifyTask_strict fs t rootPath strictMode).
destruct (verifyTask fs t rootPath false); simpl; [apply IH|reflexivity].
Qed.

(** X9.  Strict mode changes nothing: a run gives the same outcome, result
    or error, whatever the strict-mode option is. *)
Theorem strict_mode_changes_nothing (fs : FileSystem.t) (date : nat) (plan : Plan.t)
        (rootPath : string) (options : VerifyOptions.t) (strictMode : option bool) :
  verify fs date plan rootPath
         {| VerifyOptions.phase := VerifyOptions.phase options;
            VerifyOptions.task := VerifyOptions.task options;
            VerifyOptions.strictMode := strictMode |}
  = verify fs date plan rootPath options.
Proof.
unfold verify.
change (getTasksToVerify plan
          {| VerifyOptions.phase := VerifyOptions.phase options;
             VerifyOptions.task := VerifyOptions.task options;
             VerifyOptions.strictMode := strictMode |})
  with (getTasksToVerify plan options).
rewrite verifyLoop_strict. rewrite (verifyLoop_strict fs rootPath (strictFlag options)).
reflexivity.
Qed.

(** The four shapes a task result can have. *)
Definition resultShape (task : Task.t) (tv : TaskVerification.t) : Prop :=
  (TaskVerification.status tv = Status.pass /\ TaskVerification.issues tv = [])
  \/ (TaskVerification.status tv = Status.partial
      /\ oneIssue (TaskVerification.issues tv) Severity.warning incorrect_implementation)
  \/ (TaskVerification.status tv = Status.fail
      /\ supported task
      /\ exists type, oneIssue (TaskVerification.issues tv) Severity.error type)
  \/ (TaskVerification.status tv = Status.fail
      /\ (Task.type task = rename \/ Task.type task = move)
      /\ TaskVerification.issues tv = []
      /\ TaskVerification.matchPercentage tv = 0%Q).

Lemma Q_0_100 : (0 <= 100)%Q.
Proof. discriminate. Qed.

Lemma score_in_range (content : string) (task : Task.t) :
  (0 <= calculateMatchPercentage content task
   /\ calculateMatchPercentage content task <= 100)%Q.
Proof.
split; [|apply calculateMatchPercentage_top].
eapply Qle_trans; [|apply calculateMatchPercentage_base]. discriminate.
Qed.

Lemma verifyTask_shape (fs : FileSystem.t) (task : Task.t) (rootPath : string)
      (strictMode : bool) (tv : TaskVerification.t) :
  verifyTask fs task rootPath strictMode = Ok tv ->
  TaskVerification.taskId tv = Task.id task
  /\ TaskVerification.file tv = Task.file task
  /\ (0 <= TaskVerification.matchPercentage tv
      /\ TaskVerification.matchPercentage tv <= 100)%Q
  /\ resultShape task tv.
Proof.
rewrite verifyTask_strict.
unfold verifyTask, verifyTaskWith, verifyCreate, verifyModify, verifyDelete,
  readFile, resultShape, oneIssue, supported.
destruct (Task.type task) eqn:Ety;
  destruct (fileExists fs (FileSystem.join fs rootPath (Task.file task)));
  destruct (FileSystem.read fs (FileSystem.join fs rootPath (Task.file task)))
    as [content|];
  simpl;
  repeat match goal with
         | |- context [if Qleb ?a ?b then _ else _] => destruct (Qleb a b); simpl
         end;
  intros H; inversion H; subst; clear H; simpl;
    (split; [reflexivity|]); (split; [reflexivity|]);
    (split;
     [ first [ apply score_in_range
             | split; discriminate ]
     | ]);
    first [ left; split; reflexivity
          | right; left; split; [reflexivity|]; eexists; repeat split
          | right; right; left; split; [reflexivity|];
            split; [auto|]; eexists; eexists; repeat split
          | right; right; right; repeat split; auto ].
Qed.

(** X10.  A task result carries the id and the file of its task and a
    match percentage from 0 to 100, and has one of four shapes: [pass]
    without issue; [partial] with one warning; [fail] with one error, for a
    create, modify or delete task; [fail] at 0 without any issue, for a
    rename or move task, whatever the disk holds. *)
Theorem verifyTask_result (fs : FileSystem.t) (task : Task.t) (rootPath : string)
        (strictMode : bool) (tv : TaskVerification.t) :
  verifyTask fs task rootPath strictMode = Ok tv ->
  TaskVerification.taskId tv = Task.id task
  /\ TaskVerification.file tv = Task.file task
  /\ (0 <= TaskVerification.matchPercentage tv
      /\ TaskVerification.matchPercentage tv <= 100)%Q
  /\ resultShape task tv.
Proof. apply verifyTask_shape. Qed.

Lemma verifyTask_result_witness :
  exists tv,
    verifyTask demoFs (demoTask "task-9" rename "a.ts" "Rename a.ts") "/r" true = Ok tv
    /\ TaskVerification.taskId tv = "task-9"
    /\ resultShape (demoTask "task-9" rename "a.ts" "Rename a.ts") tv
    /\ TaskVerification.status tv = Status.fail.
Proof.
destruct (verifyTask demoFs (demoTask "task-9" rename "a.ts" "Rename a.ts") "/r" true)
  as [tv|e] eqn:E.
- exists tv. split; [reflexivity|].
  destruct (verifyTask_result _ _ _ _ _ E) as [Hid [_ [_ Hshape]]].
  split; [exact Hid|]. split; [exact Hshape|].
  vm_compute in E. injection E as <-. reflexivity.
- vm_compute in E. discriminate E.
Defined.

(** ** When a run is rejected *)

(** A task whose file is there and cannot be read. *)
Definition unreadable (fs : FileSystem.t) (rootPath : string) (task : Task.t) : Prop :=
  (Task.type task = create \/ Task.type task = modify)
  /\ fileExists fs (FileSystem.join fs rootPath (Task.file task)) = true
  /\ FileSystem.read fs (FileSystem.join fs rootPath (Task.file task)) = None.

Lemma verifyTask_err (fs : FileSystem.t) (task : Task.t) (rootPath : string)
      (strictMode : bool) :
  (exists e, verifyTask fs task rootPath strictMode = Err e)
  <-> unreadable fs rootPath task.
Proof.
unfold unreadable. split.
- intros [e H]. revert H.
  unfold verifyTask, verifyTaskWith, verifyCreate, verifyModify, verifyDelete, readFile.
  destruct (Task.type task);
    destruct (fileExists fs (FileSystem.join fs rootPath (Task.file task)));
    destruct (FileSystem.read fs (FileSystem.join fs rootPath (Task.file task)));
    simpl;
    repeat match goal with
           | |- context [if ?b then _ else _] => destruct b; simpl
           end;
    intros H; try discriminate H; auto.
- intros [Ht [He Hr]].
  unfold verifyTask, verifyTaskWith. rewrite He.
  destruct Ht as [Ht|Ht]; rewrite Ht.
  + unfold verifyCreate, readFile. rewrite Hr. eexists. reflexivity.
  + unfold verifyModify, readFile. rewrite Hr. eexists. reflexivity.
Qed.

Lemma verifyLoop_err (fs : FileSystem.t) (rootPath : string) (strictMode : bool)
      (tasks : list Task.t) :
  forall taskResults allIssues e,
    verifyLoop fs rootPath strictMode tasks taskResults allIssues = Err e ->
    Exists (fun task => verifyTask fs task rootPath strictMode = Err e) tasks.
Proof.
induction tasks as [|t rest IH]; intros trs iss e H; simpl in H; [discriminate H|].
destruct (verifyTask fs t rootPath strictMode) as [tv|e'] eqn:E; simpl in H.
- apply Exists_cons_tl. eapply IH. exact H.
- inversion H. subst. apply Exists_cons_hd. exact E.
Qed.

(** X11.  A run is rejected exactly when one of the tasks to verify is a
    create or modify task whose file is there and cannot be read; delete,
    rename and move tasks never read a file, and a file that is absent is
    never read. *)
Theorem verify_rejected_iff (fs : FileSystem.t) (date : nat) (plan : Plan.t)
        (rootPath : string) (options : VerifyOptions.t) :
  (exists e, verify fs date plan rootPath options = Err e)
  <-> Exists (unreadable fs rootPath) (getTasksToVerify plan options).
Proof.
split.
- intros [e H]. unfold verify in H.
  destruct (verifyLoop fs rootPath (strictFlag options)
                       (getTasksToVerify plan options) [] [])
    as [[trs iss]|e'] eqn:E; simpl in H; [discriminate H|].
  apply verifyLoop_err in E. apply Exists_exists in E.
  destruct E as [task [Hin Ht]]. apply Exists_exists. exists task.
  split; [exact Hin|]. apply (verifyTask_err fs task rootPath (strictFlag options)).
  exists e'. exact Ht.
- intros H. apply Exists_exists in H. destruct H as [task [Hin Hu]].
  apply (verifyTask_err fs task rootPath (strictFlag options)) in Hu.
  destruct Hu as [e0 He0].
  destruct (verifyLoop_rejects fs rootPath (strictFlag options) task e0
                               (getTasksToVerify plan options) Hin He0 [] [])
    as [e Hloop].
  exists e. unfold verify. rewrite Hloop. reflexivity.
Qed.

(** X12.  The results of a run follow the tasks to verify, one for one and
    in order: same ids, same files. *)
Theorem results_follow_tasks (fs : FileSystem.t) (date : nat) (plan : Plan.t)
        (rootPath : string) (options : VerifyOptions.t) (r : VerificationResult.t) :
  verify fs date plan rootPath options = Ok r ->
  map TaskVerification.taskId (VerificationResult.taskResults r)
  = map Task.id (getTasksToVerify plan options)
  /\ map TaskVerification.file (VerificationResult.taskResults r)
     = map Task.file (getTasksToVerify plan options)
  /\ VerificationResult.planId r = Plan.id plan.
Proof.
intros H. pose proof (verify_ok _ _ _ _ _ _ H) as [HF _].
split; [|split].
- induction HF as [|task tv tasks tvs Hv _ IH]; simpl; [reflexivity|].
  apply verifyTask_shape in Hv. destruct Hv as [Hid _]. rewrite Hid, IH. reflexivity.
- induction HF as [|task tv tasks tvs Hv _ IH]; simpl; [reflexivity|].
  apply verifyTask_shape in Hv. destruct Hv as [_ [Hf _]]. rewrite Hf, IH. reflexivity.
- unfold verify in H.
  destruct (verifyLoop _ _ _ _ _ _) as [[trs iss]|e]; simpl in H; [|discriminate H].
  inversion H. reflexivity.
Qed.

Lemma results_follow_tasks_witness :
  exists r,
    verify demoFs 0 (demoPlan demoTasks) "/r" noOptions = Ok r
    /\ map TaskVerification.taskId (VerificationResult.taskResults r)
       = ["task-1"; "task-2"; "task-3"]
    /\ map TaskVerification.file (VerificationResult.taskResults r)
       = ["a.ts"; "a.ts"; "old.ts"].
Proof.
destruct (verify demoFs 0 (demoPlan demoTasks) "/r" noOptions) as [r|e] eqn:E.
- exists r. split; [reflexivity|].
  destruct (results_follow_tasks _ _ _ _ _ _ E) as [Hid [Hf _]].
  split; [rewrite Hid|rewrite Hf]; reflexivity.
- vm_compute in E. discriminate E.
Defined.

(** ** The summary of a run *)

Definition asNat (b : bool) : nat := if b then 1 else 0.

(** What one result adds to the five counts. *)
Lemma shape_counts (task : Task.t) (tv : TaskVerification.t) :
  resultShape task tv ->
  asNat (hasStatus Status.pass tv) + asNat (hasStatus Status.partial tv)
  + asNat (hasStatus Status.fail tv) = 1
  /\ List.length (filter isWarning (TaskVerification.issues tv))
     = asNat (hasStatus Status.partial tv)
  /\ List.length (filter isCritical (TaskVerification.issues tv))
     <= asNat (hasStatus Status.fail tv)
  /\ (supported task ->
      List.length (filter isCritical (TaskVerification.issues tv))
      = asNat (hasStatus Status.fail tv))
  /\ (hasStatus Status.pass tv = true -> TaskVerification.issues tv = []).
Proof.
unfold resultShape, oneIssue, hasStatus, supported.
intros [[Hs Hi]|[[Hs [i [Hi [Hsev _]]]]|[[Hs [_ [ty [i [Hi [Hsev _]]]]]]|[Hs [Hty [Hi _]]]]]];
  rewrite Hs, Hi; simpl; unfold isWarning, isCritical; rewrite ?Hsev; simpl;
    repeat split; try lia; try discriminate; auto.
intros [H|[H|H]]; destruct Hty as [Hty|Hty]; congruence.
Qed.

Lemma filter_count_cons {A : Type} (p : A -> bool) (x : A) (l : list A) :
  List.length (filter p (x :: l)) = asNat (p x) + List.length (filter p l).
Proof. simpl. destruct (p x); reflexivity. Qed.

Lemma run_shapes (fs : FileSystem.t) (date : nat) (plan : Plan.t)
      (rootPath : string) (options : VerifyOptions.t) (r : VerificationResult.t) :
  verify fs date plan rootPath options = Ok r ->
  Forall2 resultShape (getTasksToVerify plan options) (VerificationResult.taskResults r).
Proof.
intros H. apply verify_ok in H. destruct H as [HF _].
induction HF as [|task tv tasks tvs Hv _ IH]; constructor; [|exact IH].
apply verifyTask_shape in Hv. tauto.
Qed.

Lemma shapes_counts (tasks : list Task.t) (results : list TaskVerification.t) :
  Forall2 resultShape tasks results ->
  List.length (filter (hasStatus Status.pass) results)
  + List.length (filter (hasStatus Status.partial) results)
  + List.length (filter (hasStatus Status.fail) results)
  = List.length results
  /\ List.length (filter isWarning (flat_map TaskVerification.issues results))
     = List.length (filter (hasStatus Status.partial) results)
  /\ List.length (filter isCritical (flat_map TaskVerification.issues results))
     <= List.length (filter (hasStatus Status.fail) results)
  /\ (Forall supported tasks ->
      List.length (filter isCritical (flat_map TaskVerification.issues results))
      = List.length (filter (hasStatus Status.fail) results)).
Proof.
induction 1 as [|task tv tasks tvs Hshape _ IH].
- simpl. repeat split; lia.
- destruct IH as [IH1 [IH2 [IH3 IH4]]].
  destruct (shape_counts task tv Hshape) as [S1 [S2 [S3 [S4 _]]]].
  rewrite !filter_count_cons.
  cbn [flat_map]. rewrite !filter_app, !length_app. cbn [List.length].
  split; [lia|]. split; [lia|]. split; [lia|].
  intros Hall. inversion Hall as [|? ? Hsup Hrest]; subst.
  specialize (S4 Hsup). specialize (IH4 Hrest). lia.
Qed.

(** X13.  In the summary of a run the completed, partial and missing
    tasks add up to the total; there are as many warnings as partial
    tasks; there are at most as many critical issues as missing tasks, and
    exactly as many when every task verified is a create, modify or delete
    task. *)
Theorem summary_counts (fs : FileSystem.t) (date : nat) (plan : Plan.t)
        (rootPath : string) (options : VerifyOptions.t) (r : VerificationResult.t) :
  verify fs date plan rootPath options = Ok r ->
  let s := VerificationResult.summary r in
  VerificationSummary.tasksCompleted s + VerificationSummary.tasksPartial s
  + VerificationSummary.tasksMissing s = VerificationSummary.totalTasks s
  /\ VerificationSummary.warnings s = VerificationSummary.tasksPartial s
  /\ VerificationSummary.criticalIssues s <= VerificationSummary.tasksMissing s
  /\ (Forall supported (getTasksToVerify plan options) ->
      VerificationSummary.criticalIssues s = VerificationSummary.tasksMissing s).
Proof.
intros H. pose proof (run_shapes _ _ _ _ _ _ H) as Hshapes.
apply verify_ok in H. destruct H as [_ [Hs _]].
cbv zeta. rewrite Hs. unfold summarize. simpl.
apply (shapes_counts _ _ Hshapes).
Qed.

Lemma summary_counts_witness :
  exists r,
    verify demoFs 0 (demoPlan demoTasks) "/r" noOptions = Ok r
    /\ VerificationSummary.tasksCompleted (VerificationResult.summary r)
       + VerificationSummary.tasksPartial (VerificationResult.summary r)
       + VerificationSummary.tasksMissing (VerificationResult.summary r)
       = VerificationSummary.totalTasks (VerificationResult.summary r)
    /\ VerificationSummary.warnings (VerificationResult.summary r) = 1.
Proof.
destruct (verify demoFs 0 (demoPlan demoTasks) "/r" noOptions) as [r|e] eqn:E.
- exists r. split; [reflexivity|].
  destruct (summary_counts _ _ _ _ _ _ E) as [Hsum [Hw _]].
  split; [exact Hsum|]. rewrite Hw.
  vm_compute in E. injection E as <-. reflexivity.
- vm_compute in E. discriminate E.
Defined.

(** ** The overall status *)

Lemma determineOverallStatus_cases (s : VerificationSummary.t) :
  (determineOverallStatus s = Status.fail
   <-> 0 < VerificationSummary.criticalIssues s
       \/ VerificationSummary.totalTasks s < 2 * VerificationSummary.tasksMissing s)
  /\ (determineOverallStatus s = Status.pass
      <-> VerificationSummary.criticalIssues s = 0
          /\ 2 * VerificationSummary.tasksMissing s <= VerificationSummary.totalTasks s
          /\ VerificationSummary.tasksPartial s = 0
          /\ VerificationSummary.tasksMissing s = 0)
  /\ determineOverallStatus s <> Status.error.
Proof.
unfold determineOverallStatus.
destruct (0 <? VerificationSummary.criticalIssues s)%nat eqn:Ec.
- apply Nat.ltb_lt in Ec. simpl.
  split; [split; [intros _; left; exact Ec|reflexivity]|].
  split; [split; [discriminate|intros [H _]; lia]|discriminate].
- apply Nat.ltb_ge in Ec. simpl.
  destruct (Qltb _ _) eqn:Eq.
  + apply Qltb_true in Eq. apply over_half in Eq.
    split; [split; [intros _; right; exact Eq|reflexivity]|].
    split; [split; [discriminate|intros [_ [H _]]; lia]|discriminate].
  + assert (Hh : ~ VerificationSummary.totalTasks s
                   < 2 * VerificationSummary.tasksMissing s).
    { intros Hlt. apply over_half in Hlt. apply Qltb_true in Hlt. congruence. }
    destruct (0 <? VerificationSummary.tasksPartial s)%nat eqn:Ep; simpl.
    * apply Nat.ltb_lt in Ep.
      split; [split; [discriminate|intros [H|H]; lia]|].
      split; [split; [discriminate|intros [_ [_ [H _]]]; lia]|discriminate].
    * apply Nat.ltb_ge in Ep.
      destruct (0 <? VerificationSummary.tasksMissing s)%nat eqn:Em.
      -- apply Nat.ltb_lt in Em.
         split; [split; [discriminate|intros [H|H]; lia]|].
         split; [split; [discriminate|intros [_ [_ [_ H]]]; lia]|discriminate].
      -- apply Nat.ltb_ge in Em.
         split; [split; [discriminate|intros [H|H]; lia]|].
         split; [split; [intros _; lia|reflexivity]|discriminate].
Qed.

Lemma filter_none {A : Type} (p : A -> bool) (l : list A) :
  List.length (filter p l) = 0 <-> Forall (fun x => p x = false) l.
Proof.
induction l as [|x l IH]; simpl.
- split; [constructor|reflexivity].
- destruct (p x) eqn:E; simpl.
  + split; [discriminate|]. intros H. inversion H. congruence.
  + rewrite IH. split; [intros H; constructor; assumption|].
    intros H. inversion H. assumption.
Qed.

Lemma filter_some {A : Type} (p : A -> bool) (l : list A) :
  0 < List.length (filter p l) <-> Exists (fun x => p x = true) l.
Proof.
induction l as [|x l IH]; simpl.
- split; [lia|]. intros H. inversion H.
- destruct (p x) eqn:E; simpl.
  + split; [intros _; left; exact E|lia].
  + rewrite IH. split; [intros H; right; exact H|].
    intros H. inversion H; [congruence|assumption].
Qed.

(** The overall status read off the results, whatever run made them. *)
Lemma overall_by_shapes (tasks : list Task.t) (results : list TaskVerification.t) :
  Forall2 resultShape tasks results ->
  let overall :=
    determineOverallStatus
      (summarize results (flat_map TaskVerification.issues results)) in
  (overall = Status.pass
   <-> Forall (fun tv => TaskVerification.status tv = Status.pass) results)
  /\ (overall = Status.pass ->
      Forall (fun tv => TaskVerification.issues tv = []) results)
  /\ (Forall supported tasks ->
      (overall = Status.fail
       <-> Exists (fun tv => TaskVerification.status tv = Status.fail) results)).
Proof.
intros Hshapes. cbv zeta.
pose proof (shapes_counts _ _ Hshapes) as [Hsum [_ [Hcrit Hsup]]].
destruct (determineOverallStatus_cases
            (summarize results (flat_map TaskVerification.issues results)))
  as [Hfail [Hpass _]].
unfold summarize in Hfail, Hpass |- *. simpl in Hfail, Hpass.
assert (Hallpass :
          List.length (filter (hasStatus Status.partial) results) = 0
          /\ List.length (filter (hasStatus Status.fail) results) = 0
          <-> Forall (fun tv => TaskVerification.status tv = Status.pass) results).
{ rewrite !filter_none. clear -Hshapes. split.
  - intros [Hp Hf]. induction Hshapes as [|task tv tasks tvs Hshape _ IH];
      constructor.
    + inversion Hp; inversion Hf; subst.
      destruct (shape_counts task tv Hshape) as [S1 _].
      destruct (hasStatus Status.pass tv) eqn:E;
        [apply Status_eqb_eq in E; exact E|].
      replace (hasStatus Status.partial tv) with false in S1 by congruence.
      replace (hasStatus Status.fail tv) with false in S1 by congruence.
      simpl in S1. lia.
    + inversion Hp; inversion Hf; subst. apply IH; assumption.
  - intros Hall. split; apply Forall_forall; intros tv Hin;
      rewrite Forall_forall in Hall; specialize (Hall tv Hin);
        unfold hasStatus; rewrite Hall; reflexivity. }
split; [|split].
- rewrite Hpass. rewrite <- Hallpass. split; [tauto|]. intros [Hp Hf].
  repeat split; try assumption; lia.
- intros Hp. apply Hpass in Hp. destruct Hp as [_ [_ [Hp Hf]]].
  assert (Hall : Forall (fun tv => TaskVerification.status tv = Status.pass) results)
    by (apply Hallpass; split; assumption).
  clear -Hshapes Hall. induction Hshapes as [|task tv tasks tvs Hshape _ IH];
    constructor.
  + inversion Hall; subst.
    destruct (shape_counts task tv Hshape) as [_ [_ [_ [_ Hi]]]].
    apply Hi. apply Status_eqb_eq. assumption.
  + inversion Hall; subst. apply IH. assumption.
- intros Hall. specialize (Hsup Hall). rewrite Hfail. split.
  + intros Hor.
    assert (Hpos : 0 < List.length (filter (hasStatus Status.fail) results)) by lia.
    apply filter_some in Hpos. apply Exists_exists in Hpos.
    destruct Hpos as [tv [Hin Hb]]. apply Exists_exists. exists tv.
    split; [exact Hin|]. apply Status_eqb_eq. exact Hb.
  + intros Hex. left. rewrite Hsup. apply filter_some.
    apply Exists_exists in Hex. destruct Hex as [tv [Hin Hf]].
    apply Exists_exists. exists tv. split; [exact Hin|].
    apply Status_eqb_eq. exact Hf.
Qed.

(** X14.  The overall status is never [error].  It is [pass] exactly when
    every task result is [pass], and then no result has an issue.  When
    every task verified is a create, modify or delete task it is [fail]
    exactly when some task result is [fail]: the rule on half of the tasks
    missing then decides nothing. *)
Theorem overall_status_by_results (fs : FileSystem.t) (date : nat) (plan : Plan.t)
        (rootPath : string) (options : VerifyOptions.t) (r : VerificationResult.t) :
  verify fs date plan rootPath options = Ok r ->
  VerificationResult.overallStatus r <> Status.error
  /\ (VerificationResult.overallStatus r = Status.pass
      <-> Forall (fun tv => TaskVerification.status tv = Status.pass)
                 (VerificationResult.taskResults r))
  /\ (VerificationResult.overallStatus r = Status.pass ->
      Forall (fun tv => TaskVerification.issues tv = [])
             (VerificationResult.taskResults r))
  /\ (Forall supported (getTasksToVerify plan options) ->
      (VerificationResult.overallStatus r = Status.fail
       <-> Exists (fun tv => TaskVerification.status tv = Status.fail)
                  (VerificationResult.taskResults r))).
Proof.
intros H. pose proof (run_shapes _ _ _ _ _ _ H) as Hshapes.
apply verify_ok in H. destruct H as [_ [Hs Ho]].
rewrite Ho, Hs.
split; [apply determineOverallStatus_cases|].
apply (overall_by_shapes _ _ Hshapes).
Qed.

Lemma overall_status_by_results_witness :
  exists r,
    verify demoFs 0
           (demoPlan [ demoTask "task-1" create "a.ts" "Add parseConfig helper function";
                       demoTask "task-2" delete "old.ts" "Delete old.ts" ])
           "/r" noOptions
    = Ok r
    /\ VerificationResult.overallStatus r = Status.pass
    /\ Forall (fun tv => TaskVerification.issues tv = [])
              (VerificationResult.taskResults r).
Proof.
destruct (verify demoFs 0
                 (demoPlan [ demoTask "task-1" create "a.ts"
                                      "Add parseConfig helper function";
                             demoTask "task-2" delete "old.ts" "Delete old.ts" ])
                 "/r" noOptions) as [r|e] eqn:E.
- exists r. split; [reflexivity|].
  destruct (overall_status_by_results _ _ _ _ _ _ E) as [_ [Hpass [Hissues _]]].
  assert (Hall : Forall (fun tv => TaskVerification.status tv = Status.pass)
                        (VerificationResult.taskResults r)).
  { vm_compute in E. injection E as <-. repeat constructor. }
  apply Hpass in Hall. split; [exact Hall|apply Hissues; exact Hall].
- vm_compute in E. discriminate E.
Defined.

(** ** Recommendations *)

Definition closingRemark : string :=
  "Implementation looks good! Consider code review before merging".

Lemma verify_recommendations (fs : FileSystem.t) (date : nat) (plan : Plan.t)
      (rootPath : string) (options : VerifyOptions.t) (r : VerificationResult.t) :
  verify fs date plan rootPath options = Ok r ->
  VerificationResult.recommendations r
  = generateRecommendations (VerificationResult.taskResults r)
                            (VerificationResult.summary r).
Proof.
unfold verify. intros H.
destruct (verifyLoop _ _ _ _ _ _) as [[trs iss]|e]; simpl in H; [|discriminate H].
inversion H. reflexivity.
Qed.

Lemma generateRecommendations_closing (results : list TaskVerification.t)
      (issues : list Issue.t) :
  generateRecommendations results (summarize results issues) <> []
  /\ (generateRecommendations results (summarize results issues) = [closingRemark]
      <-> List.length (filter (hasStatus Status.fail) results) = 0
          /\ List.length (filter (hasStatus Status.partial) results) = 0
          /\ List.length (filter isCritical issues) = 0).
Proof.
unfold generateRecommendations, summarize. simpl.
set (missing := List.length (filter (hasStatus Status.fail) results)).
set (part := List.length (filter (hasStatus Status.partial) results)).
set (crit := List.length (filter isCritical issues)).
destruct (0 <? missing)%nat eqn:Em.
- apply Nat.ltb_lt in Em. simpl.
  split; [discriminate|]. split; [intros H; discriminate H|intros [H _]; lia].
- apply Nat.ltb_ge in Em. simpl.
  destruct (0 <? part)%nat eqn:Ep.
  + apply Nat.ltb_lt in Ep. simpl.
    split; [discriminate|]. split; [intros H; discriminate H|intros [_ [H _]]; lia].
  + apply Nat.ltb_ge in Ep. simpl.
    destruct (0 <? crit)%nat eqn:Ec.
    * apply Nat.ltb_lt in Ec. simpl.
      split; [discriminate|]. split; [intros H; discriminate H|intros [_ [_ H]]; lia].
    * apply Nat.ltb_ge in Ec. simpl.
      split; [discriminate|]. split; [intros _; lia|intros _; reflexivity].
Qed.

(** X15.  A run always gives at least one recommendation, and the
    recommendations are the single closing remark exactly when the overall
    status is [pass]. *)
Theorem recommendations_closing_iff_pass (fs : FileSystem.t) (date : nat)
        (plan : Plan.t) (rootPath : string) (options : VerifyOptions.t)
        (r : VerificationResult.t) :
  verify fs date plan rootPath options = Ok r ->
  VerificationResult.recommendations r <> []
  /\ (VerificationResult.recommendations r = [closingRemark]
      <-> VerificationResult.overallStatus r = Status.pass).
Proof.
intros H. pose proof (run_shapes _ _ _ _ _ _ H) as Hshapes.
pose proof (shapes_counts _ _ Hshapes) as [_ [_ [Hcrit _]]].
rewrite (verify_recommendations _ _ _ _ _ _ H).
apply verify_ok in H. destruct H as [_ [Hs Ho]].
rewrite Ho, Hs.
destruct (generateRecommendations_closing
            (VerificationResult.taskResults r)
            (flat_map TaskVerification.issues (VerificationResult.taskResults r)))
  as [Hne Hiff].
split; [exact Hne|]. rewrite Hiff.
destruct (determineOverallStatus_cases
            (summarize (VerificationResult.taskResults r)
                       (flat_map TaskVerification.issues
                                 (VerificationResult.taskResults r))))
  as [_ [Hpass _]].
rewrite Hpass. unfold summarize. simpl. split.
- intros [Hm [Hp Hc]]. repeat split; try assumption. lia.
- intros [Hc [_ [Hp Hm]]]. repeat split; assumption.
Qed.

Lemma recommendations_closing_iff_pass_witness :
  exists r,
    verify demoFs 0 (demoPlan demoTasks) "/r" noOptions = Ok r
    /\ VerificationResult.overallStatus r = Status.partial
    /\ VerificationResult.recommendations r <> [closingRemark]
    /\ VerificationResult.recommendations r
       = ["Review and improve the 1 partially implemented task"].
Proof.
destruct (verify demoFs 0 (demoPlan demoTasks) "/r" noOptions) as [r|e] eqn:E.
- exists r. split; [reflexivity|].
  destruct (recommendations_closing_iff_pass _ _ _ _ _ _ E) as [_ Hiff].
  assert (Hst : VerificationResult.overallStatus r = Status.partial)
    by (vm_compute in E; injection E as <-; reflexivity).
  split; [exact Hst|]. split.
  + intros Hc. apply Hiff in Hc. congruence.
  + vm_compute in E. injection E as <-. reflexivity.
- vm_compute in E. discriminate E.
Defined.

(** ** Which tasks are verified *)

Lemma fold_app_tasks (phases : list Phase.t) :
  forall acc,
    fold_left (fun tasks phase => (tasks ++ Phase.tasks phase)%list) phases acc
    = (acc ++ flat_map Phase.tasks phases)%list.
Proof.
induction phases as [|ph l IH]; intros acc; simpl.
- rewrite app_nil_r. reflexivity.
- rewrite IH, <- app_assoc. reflexivity.
Qed.

Lemma selected_in_phase (plan : Plan.t) (options : VerifyOptions.t) (task : Task.t) :
  In task (getTasksToVerify plan options) ->
  exists phase, In phase (Plan.phases plan) /\ In task (Phase.tasks phase).
Proof.
intros Hin. unfold getTasksToVerify in Hin.
assert (Hsel :
          In task
             match phaseGiven options with
             | Some n =>
               match find (fun p => Nat.eqb (Phase.order p) n) (Plan.phases plan) with
               | Some phase => Phase.tasks phase
               | None => []
               end
             | None =>
               fold_left (fun tasks phase => (tasks ++ Phase.tasks phase)%list)
                         (Plan.phases plan) []
             end).
{ destruct (taskGiven options); [apply filter_In in Hin; tauto|exact Hin]. }
destruct (phaseGiven options).
- destruct (find _ _) as [phase|] eqn:Ef; [|destruct Hsel].
  apply find_some in Ef. exists phase. tauto.
- rewrite fold_app_tasks in Hsel. simpl in Hsel.
  apply in_flat_map in Hsel. exact Hsel.
Qed.

(** X16.  Every task verified is a task of a phase of the plan.  With a
    phase number that is not 0, it is a task of the first phase of that
    order; with a task id that is not empty, it has that id.  With neither
    (or with 0 and the empty id, which count as not given) the tasks
    verified are all the tasks of all the phases, in order. *)
Theorem tasks_selected (plan : Plan.t) (options : VerifyOptions.t) :
  (forall task,
      In task (getTasksToVerify plan options) ->
      (exists phase, In phase (Plan.phases plan) /\ In task (Phase.tasks phase))
      /\ (forall n,
             VerifyOptions.phase options = Some (S n) ->
             exists phase,
               find (fun p => Nat.eqb (Phase.order p) (S n)) (Plan.phases plan)
               = Some phase
               /\ In task (Phase.tasks phase))
      /\ (forall id,
             VerifyOptions.task options = Some id -> id <> "" -> Task.id task = id))
  /\ ((VerifyOptions.phase options = None \/ VerifyOptions.phase options = Some 0) ->
      (VerifyOptions.task options = None \/ VerifyOptions.task options = Some "") ->
      getTasksToVerify plan options = flat_map Phase.tasks (Plan.phases plan)).
Proof.
split.
- intros task Hin. unfold getTasksToVerify in Hin.
  assert (Hsel :
            In task
               match phaseGiven options with
               | Some n =>
                 match find (fun p => Nat.eqb (Phase.order p) n) (Plan.phases plan) with
                 | Some phase => Phase.tasks phase
                 | None => []
                 end
               | None =>
                 fold_left (fun tasks phase => (tasks ++ Phase.tasks phase)%list)
                           (Plan.phases plan) []
               end
            /\ (forall id,
                   VerifyOptions.task options = Some id -> id <> "" ->
                   Task.id task = id)).
  { unfold taskGiven in Hin. destruct (VerifyOptions.task options) as [id|].
    - destruct (Js.truthy id) eqn:Et.
      + apply filter_In in Hin. destruct Hin as [Hin Hid].
        split; [exact Hin|]. intros id' Hid' _. inversion Hid'. subst.
        apply String.eqb_eq. exact Hid.
      + split; [exact Hin|]. intros id' Hid' Hne. inversion Hid'. subst.
        destruct id'; [contradiction|discriminate Et].
    - split; [exact Hin|]. intros id' Hid'. discriminate Hid'. }
  destruct Hsel as [Hsel Hid]. unfold phaseGiven in Hsel.
  split; [|split; [|exact Hid]].
  + destruct (VerifyOptions.phase options) as [[|n]|].
    * rewrite fold_app_tasks in Hsel. simpl in Hsel.
      apply in_flat_map in Hsel. exact Hsel.
    * destruct (find _ _) as [phase|] eqn:Ef; [|destruct Hsel].
      apply find_some in Ef. exists phase. tauto.
    * rewrite fold_app_tasks in Hsel. simpl in Hsel.
      apply in_flat_map in Hsel. exact Hsel.
  + intros n Hn. rewrite Hn in Hsel.
    destruct (find _ _) as [phase|] eqn:Ef; [|destruct Hsel].
    exists phase. split; [reflexivity|exact Hsel].
- intros Hp Ht. unfold getTasksToVerify, phaseGiven, taskGiven.
  destruct Hp as [Hp|Hp]; destruct Ht as [Ht|Ht]; rewrite Hp, Ht; simpl;
    rewrite fold_app_tasks; reflexivity.
Qed.

(** X17.  Asking for a phase number that no phase of the plan has is not an
    error: nothing is verified, and the run reports 0 tasks, the overall
    status [pass], the phase id asked for and the closing remark. *)
Theorem unknown_phase_passes (fs : FileSystem.t) (date : nat) (plan : Plan.t)
        (rootPath : string) (options : VerifyOptions.t) (n : nat) :
  VerifyOptions.phase options = Some (S n) ->
  Forall (fun phase => Phase.order phase <> S n) (Plan.phases plan) ->
  exists r,
    verify fs date plan rootPath options = Ok r
    /\ VerificationResult.taskResults r = []
    /\ VerificationSummary.totalTasks (VerificationResult.summary r) = 0
    /\ VerificationResult.overallStatus r = Status.pass
    /\ VerificationResult.phaseId r = Some ("phase-" ++ Js.ofNat (S n))
    /\ VerificationResult.recommendations r = [closingRemark].
Proof.
intros Hp Hnone.
assert (Hfind : find (fun p => Nat.eqb (Phase.order p) (S n)) (Plan.phases plan) = None).
{ induction Hnone as [|ph l Hph _ IH]; simpl; [reflexivity|].
  destruct (Nat.eqb (Phase.order ph) (S n)) eqn:E; [|exact IH].
  apply Nat.eqb_eq in E. contradiction. }
assert (Htasks : getTasksToVerify plan options = []).
{ unfold getTasksToVerify, phaseGiven. rewrite Hp, Hfind.
  destruct (taskGiven options); reflexivity. }
unfold verify. rewrite Htasks. simpl. unfold phaseGiven. rewrite Hp.
eexists. split; [reflexivity|]. simpl. repeat split.
Qed.

Lemma unknown_phase_passes_witness :
  exists r,
    verify demoFs 0 (demoPlan lockedTasks) "/r"
           {| VerifyOptions.phase := Some 7;
              VerifyOptions.task := None;
              VerifyOptions.strictMode := Some true |}
    = Ok r
    /\ VerificationResult.overallStatus r = Status.pass
    /\ VerificationResult.phaseId r = Some "phase-7".
Proof.
destruct (unknown_phase_passes
            demoFs 0 (demoPlan lockedTasks) "/r"
            {| VerifyOptions.phase := Some 7;
               VerifyOptions.task := None;
               VerifyOptions.strictMode := Some true |} 6 eq_refl)
  as [r [Hr [_ [_ [Hs [Hid _]]]]]].
- constructor; [simpl; lia|constructor].
- exists r. split; [exact Hr|]. split; [exact Hs|exact Hid].
Defined.

(** ** The score of a task without changes *)

Lemma threshold_iff (t k m : nat) :
  0 < m ->
  (num t <= 50 + num k / num m * 30)%Q <-> t * m <= 50 * m + 30 * k.
Proof.
intros Hm. destruct m as [|m]; [lia|].
assert (E : num (S m) = (Z.pos (Pos.of_succ_nat m) # 1)%Q) by reflexivity.
unfold Qdiv. rewrite E. unfold Qinv. cbn [Qnum Qden].
unfold num, inject_Z, Qle, Qplus, Qmult. cbn [Qnum Qden].
rewrite ?Pos2Z.inj_mul.
assert (P : Z.pos (Pos.of_succ_nat m) = Z.of_nat (S m)) by reflexivity.
rewrite !P. lia.
Qed.

Lemma ratio_le_one (k m : nat) : 0 < m -> k <= m -> (num k / num m <= 1)%Q.
Proof.
intros Hm Hk. destruct m as [|m]; [lia|].
assert (E : num (S m) = (Z.pos (Pos.of_succ_nat m) # 1)%Q) by reflexivity.
unfold Qdiv. rewrite E. unfold Qinv. cbn [Qnum Qden].
unfold num, inject_Z, Qle, Qplus, Qmult. cbn [Qnum Qden].
rewrite ?Pos2Z.inj_mul.
assert (P : Z.pos (Pos.of_succ_nat m) = Z.of_nat (S m)) by reflexivity.
rewrite !P. lia.
Qed.

Lemma filter_length_le {A : Type} (p : A -> bool) (l : list A) :
  List.length (filter p l) <= List.length l.
Proof. induction l as [|x l IH]; simpl; [lia|]. destruct (p x); simpl; lia. Qed.

Lemma filter_length_all {A : Type} (p : A -> bool) (l : list A) :
  List.length (filter p l) = List.length l <-> filter p l = l.
Proof.
split; [|intros H; rewrite H; reflexivity].
induction l as [|x l IH]; simpl; [reflexivity|].
destruct (p x); simpl.
- intros H. f_equal. apply IH. lia.
- intros H. pose proof (filter_length_le p l). lia.
Qed.

(** The keywords of the task found in the content, case ignored. *)
Definition keywordsFound (content : string) (task : Task.t) : list string :=
  filter (fun keyword => Js.includes (Js.toLowerCase content) (Js.toLowerCase keyword))
         (extractKeywords (Task.description task)).

(** Without changes the clamping never acts: the score is the base and
    the keyword bonus. *)
Lemma score_no_changes (content : string) (task : Task.t) :
  Task.changes task = [] ->
  (calculateMatchPercentage content task
   == 50 + num (List.length (keywordsFound content task))
           / num (Nat.max (List.length (extractKeywords (Task.description task))) 1)
           * 30)%Q.
Proof.
intros Hch. unfold calculateMatchPercentage, keywordsFound.
rewrite Hch. simpl List.length. change (0 <? 0)%nat with false. cbv iota.
set (k := List.length (filter _ _)).
set (n := List.length (extractKeywords (Task.description task))).
assert (Hk : k <= Nat.max n 1).
{ pose proof (filter_length_le
                (fun keyword =>
                   Js.includes (Js.toLowerCase content) (Js.toLowerCase keyword))
                (extractKeywords (Task.description task))).
  unfold k, n. lia. }
assert (H0 : (0 <= num k / num (Nat.max n 1))%Q) by (apply ratio_nonneg; lia).
assert (H1 : (num k / num (Nat.max n 1) <= 1)%Q) by (apply ratio_le_one; lia).
apply clamp_id; lra.
Qed.

Lemma score_threshold (content : string) (task : Task.t) (t : nat) :
  Task.changes task = [] ->
  Qleb (num t) (calculateMatchPercentage content task) = true
  <-> t * Nat.max (List.length (extractKeywords (Task.description task))) 1
      <= 50 * Nat.max (List.length (extractKeywords (Task.description task))) 1
         + 30 * List.length (keywordsFound content task).
Proof.
intros Hch. rewrite Qleb_true. rewrite (score_no_changes content task Hch).
apply threshold_iff. lia.
Qed.

(** X18.  For a create or modify task without changes on a file that is
    there and can be read, the match percentage is 50 + 30 * found / total
    over the keywords of the description (50 when it has none).  A create
    task passes exactly when the description has a keyword and all of them
    are found; a modify task passes exactly when it has a keyword and at
    least two thirds of them are found. *)
Theorem pass_by_keywords (fs : FileSystem.t) (task : Task.t) (rootPath : string)
        (strictMode : bool) (content : string) :
  Task.type task = create \/ Task.type task = modify ->
  Task.changes task = [] ->
  fileExists fs (FileSystem.join fs rootPath (Task.file task)) = true ->
  FileSystem.read fs (FileSystem.join fs rootPath (Task.file task)) = Some content ->
  let keywords := extractKeywords (Task.description task) in
  let found := keywordsFound content task in
  exists tv,
    verifyTask fs task rootPath strictMode = Ok tv
    /\ (TaskVerification.matchPercentage tv
        == 50 + num (List.length found) / num (Nat.max (List.length keywords) 1) * 30)%Q
    /\ (Task.type task = create ->
        (TaskVerification.status tv = Status.pass
         <-> keywords <> [] /\ found = keywords))
    /\ (Task.type task = modify ->
        (TaskVerification.status tv = Status.pass
         <-> keywords <> [] /\ 2 * List.length keywords <= 3 * List.length found)).
Proof.
intros Hty Hch He Hr. cbv zeta.
pose proof (score_no_changes content task Hch) as Hscore.
pose proof (score_threshold content task 80 Hch) as H80.
pose proof (score_threshold content task 70 Hch) as H70.
change (num 80) with 80%Q in H80. change (num 70) with 70%Q in H70.
pose proof (filter_length_le
              (fun keyword =>
                 Js.includes (Js.toLowerCase content) (Js.toLowerCase keyword))
              (extractKeywords (Task.description task))) as Hle.
fold (keywordsFound content task) in Hle.
pose proof (filter_length_all
              (fun keyword =>
                 Js.includes (Js.toLowerCase content) (Js.toLowerCase keyword))
              (extractKeywords (Task.description task))) as Hall.
fold (keywordsFound content task) in Hall.
assert (Hne : extractKeywords (Task.description task) <> []
              <-> 0 < List.length (extractKeywords (Task.description task))).
{ destruct (extractKeywords (Task.description task)); simpl; split; intros H;
    try lia; try congruence. }
unfold verifyTask. destruct Hty as [Hty|Hty].
- rewrite (verifyTaskWith_create_read _ fs task rootPath strictMode content Hty He Hr).
  unfold verifyCreate, readFile. rewrite Hr. simpl.
  destruct (Qleb 80 (calculateMatchPercentage content task)) eqn:E80.
  + eexists. split; [reflexivity|]. simpl. split; [exact Hscore|].
    split; [|intros Hm; congruence].
    intros _. split; [intros _|reflexivity].
    assert (H : 80 * Nat.max (List.length (extractKeywords (Task.description task))) 1
                <= 50 * Nat.max (List.length (extractKeywords (Task.description task))) 1
                   + 30 * List.length (keywordsFound content task))
      by (apply H80; reflexivity).
    split; [apply Hne; lia|apply Hall; lia].
  + assert (Hnot : ~ (extractKeywords (Task.description task) <> []
                      /\ keywordsFound content task
                         = extractKeywords (Task.description task))).
    { intros [Hk Hf]. apply Hne in Hk. apply Hall in Hf.
      assert (Hc : false = true) by (apply H80; lia).
      discriminate Hc. }
    destruct (Qleb 50 (calculateMatchPercentage content task));
      (eexists; split; [reflexivity|]; simpl; split; [exact Hscore|];
       split; [|intros Hm; congruence];
       intros _; split; [intros Hp; discriminate Hp|intros Hk; contradiction]).
- rewrite (verifyTaskWith_modify_read _ fs task rootPath strictMode content Hty He Hr).
  unfold verifyModify, readFile. rewrite Hr. simpl.
  destruct (Qleb 70 (calculateMatchPercentage content task)) eqn:E70.
  + eexists. split; [reflexivity|]. simpl. split; [exact Hscore|].
    split; [intros Hc; congruence|].
    intros _. split; [intros _|reflexivity].
    assert (H : 70 * Nat.max (List.length (extractKeywords (Task.description task))) 1
                <= 50 * Nat.max (List.length (extractKeywords (Task.description task))) 1
                   + 30 * List.length (keywordsFound content task))
      by (apply H70; reflexivity).
    split; [apply Hne; lia|lia].
  + assert (Hnot : ~ (extractKeywords (Task.description task) <> []
                      /\ 2 * List.length (extractKeywords (Task.description task))
                         <= 3 * List.length (keywordsFound content task))).
    { intros [Hk Hf]. apply Hne in Hk.
      assert (Hc : false = true) by (apply H70; lia).
      discriminate Hc. }
    destruct (Qleb 40 (calculateMatchPercentage content task));
      (eexists; split; [reflexivity|]; simpl; split; [exact Hscore|];
       split; [intros Hc; congruence|];
       intros _; split; [intros Hp; discriminate Hp|intros Hk; contradiction]).
Qed.

Lemma pass_by_keywords_witness :
  exists tv,
    verifyTask demoFs
               (demoTask "task-1" modify "a.ts" "Extend parseConfig helper with caching")
               "/r" false
    = Ok tv
    /\ List.length (keywordsFound "export function parseConfig() { helper }"
                                  (demoTask "task-1" modify "a.ts"
                                            "Extend parseConfig helper with caching"))
       = 2
    /\ TaskVerification.status tv <> Status.pass.
Proof.
destruct (pass_by_keywords
            demoFs
            (demoTask "task-1" modify "a.ts" "Extend parseConfig helper with caching")
            "/r" false "export function parseConfig() { helper }"
            (or_intror eq_refl) eq_refl eq_refl eq_refl)
  as [tv [Hv [_ [_ Hmod]]]].
exists tv. split; [exact Hv|]. split; [reflexivity|].
intros Hp. apply (Hmod eq_refl) in Hp. destruct Hp as [_ Hp].
vm_compute in Hp. lia.
Defined.

(** ** Keywords *)

Import Regex PlannerMore.

Definition notSpace (c : ascii) : bool := negb (Js.isSpace c).

Definition lowerOrDigit (c : ascii) : bool := Js.isLower c || Js.isDigit c.

Lemma allChars_app (p : ascii -> bool) (a b : string) :
  allChars p (a ++ b) = allChars p a && allChars p b.
Proof.
induction a as [|c a IH]; simpl; [reflexivity|].
rewrite IH, andb_assoc. reflexivity.
Qed.

(** The pieces of a split hold characters of the text only. *)
Lemma splitFrom_chars (P : ascii -> bool) (f : flags) (r : regex) (s : string) :
  forall skip piece p,
    allChars P piece = true ->
    allChars P s = true ->
    Forall (fun w => allChars P w = true) (splitFrom f r skip piece p s).
Proof.
induction s as [|c t IH]; intros skip piece p Hpiece Hs.
- simpl. constructor; [exact Hpiece|constructor].
- simpl in Hs. apply andb_true_iff in Hs. destruct Hs as [Hc Ht].
  assert (Happ : allChars P (piece ++ String c "") = true).
  { rewrite allChars_app, Hpiece. simpl. rewrite Hc. reflexivity. }
  cbn [splitFrom]. destruct skip as [|k]; [|apply IH; assumption].
  destruct (matchAt f r p (String c t)) as [[m [|n]]|].
  + apply IH; assumption.
  + constructor; [exact Hpiece|]. apply IH; [reflexivity|exact Ht].
  + apply IH; assumption.
Qed.

(** At a white-space character the separator [\s+] matches, on one
    character at least. *)
Lemma matchAt_space (p : option ascii) (c : ascii) (t : string) :
  Js.isSpace c = true ->
  exists m n, matchAt noFlags (plus space) p (String c t) = Some (m, S n).
Proof.
intros Hc. unfold matchAt.
assert (Hrun : run noFlags (plus space) (mkState p (String c t) None)
               = run noFlags (Rep true 0 None space) (mkState (Some c) t None)).
{ unfold plus. rewrite RegexFacts.run_Rep. cbv zeta.
  change (negb (Nat.eqb 1 0)) with true. cbv iota.
  replace (run noFlags space (mkState p (String c t) None))
    with [mkState (Some c) t None].
  - cbn [flat_map]. change (Nat.eqb 1 0) with false. cbn [andb].
    rewrite app_nil_r. reflexivity.
  - unfold space. simpl. unfold oneChar, member. simpl. rewrite Hc. reflexivity. }
rewrite Hrun.
destruct (run noFlags (Rep true 0 None space) (mkState (Some c) t None))
  as [|h l] eqn:E.
- rewrite RegexFacts.run_Rep in E. cbv zeta in E.
  change (negb (Nat.eqb 0 0)) with false in E. cbv iota in E.
  apply app_eq_nil in E. destruct E as [_ E]. discriminate E.
- assert (Hh : remaining h <= String.length t).
  { apply (RegexFacts.run_shrinking noFlags (Rep true 0 None space)
                                    (mkState (Some c) t None) h).
    rewrite E. left. reflexivity. }
  eexists. exists (String.length t - remaining h). f_equal. f_equal.
  simpl String.length. lia.
Qed.

(** The pieces of a split at white space hold no white space. *)
Lemma split_space_pieces (s : string) :
  forall skip piece p,
    allChars notSpace piece = true ->
    Forall (fun w => allChars notSpace w = true)
           (splitFrom noFlags (plus space) skip piece p s).
Proof.
induction s as [|c t IH]; intros skip piece p Hpiece.
- simpl. constructor; [exact Hpiece|constructor].
- cbn [splitFrom]. destruct skip as [|k]; [|apply IH; assumption].
  destruct (Js.isSpace c) eqn:Ec.
  + destruct (matchAt_space p c t Ec) as [m [n E]]. rewrite E.
    constructor; [exact Hpiece|]. apply IH. reflexivity.
  + assert (Happ : allChars notSpace (piece ++ String c "") = true).
    { rewrite allChars_app, Hpiece. simpl. unfold notSpace. rewrite Ec. reflexivity. }
    destruct (matchAt noFlags (plus space) p (String c t)) as [[m [|n]]|].
    * apply IH; assumption.
    * constructor; [exact Hpiece|]. apply IH. reflexivity.
    * apply IH; assumption.
Qed.

Lemma blankOthers_chars (s : string) :
  allChars (fun c => Js.isLower c || Js.isDigit c || Js.isSpace c) (blankOthers s) = true.
Proof.
unfold blankOthers. induction s as [|c t IH]; cbn [Js.mapChars allChars]; [reflexivity|].
rewrite IH, andb_true_r.
destruct (Js.isLower c || Js.isDigit c || Js.isSpace c) eqn:E; [exact E|reflexivity].
Qed.

Lemma allChars_lowerOrDigit (w : string) :
  allChars (fun c => Js.isLower c || Js.isDigit c || Js.isSpace c) w = true ->
  allChars notSpace w = true ->
  allChars lowerOrDigit w = true.
Proof.
induction w as [|c t IH]; simpl; [reflexivity|].
intros H1 H2. apply andb_true_iff in H1. apply andb_true_iff in H2.
destruct H1 as [H1 H1t]. destruct H2 as [H2 H2t].
rewrite (IH H1t H2t), andb_true_r.
unfold lowerOrDigit, notSpace in *. destruct (Js.isSpace c); [discriminate H2|].
rewrite orb_false_r in H1. exact H1.
Qed.

Lemma lowerChar_fixed (c : ascii) : lowerOrDigit c = true -> Js.lowerChar c = c.
Proof.
destruct c as [b0 b1 b2 b3 b4 b5 b6 b7].
destruct b0, b1, b2, b3, b4, b5, b6, b7; intros H; try reflexivity; discriminate H.
Qed.

Lemma toLowerCase_fixed (w : string) :
  allChars lowerOrDigit w = true -> Js.toLowerCase w = w.
Proof.
unfold Js.toLowerCase.
induction w as [|c t IH]; cbn [Js.mapChars allChars]; [reflexivity|].
intros H. apply andb_true_iff in H. destruct H as [Hc Ht].
rewrite (lowerChar_fixed c Hc), (IH Ht). reflexivity.
Qed.

Lemma in_firstn {A : Type} (n : nat) (l : list A) (x : A) :
  In x (firstn n l) -> In x l.
Proof.
revert l. induction n as [|n IH]; intros l H; [destruct H|].
destruct l as [|a l]; [destruct H|]. simpl in H.
destruct H as [<-|H]; [left; reflexivity|right; apply IH; exact H].
Qed.

(** X19.  The keywords taken from a text are at most 10; each has more
    than 3 characters, is not one of the common words, and is made of
    lower-case letters and digits only, so that lower-casing it changes
    nothing. *)
Theorem extractKeywords_words (text : string) :
  List.length (extractKeywords text) <= 10
  /\ Forall (fun word =>
               3 < String.length word
               /\ ~ In word commonWords
               /\ allChars lowerOrDigit word = true
               /\ Js.toLowerCase word = word)
            (extractKeywords text).
Proof.
split; [apply firstn_le_length|].
- apply Forall_forall. intros word Hin. unfold extractKeywords in Hin.
  apply in_firstn in Hin. apply filter_In in Hin. destruct Hin as [Hin Hp].
  apply andb_true_iff in Hp. destruct Hp as [Hlen Hcommon].
  apply Nat.ltb_lt in Hlen. apply negb_true_iff in Hcommon.
  assert (Hchars : allChars lowerOrDigit word = true).
  { apply allChars_lowerOrDigit.
    - pose proof (splitFrom_chars
                    (fun c => Js.isLower c || Js.isDigit c || Js.isSpace c)
                    noFlags (plus space) (blankOthers (Js.toLowerCase text))
                    0 "" None eq_refl (blankOthers_chars _)) as H.
      rewrite Forall_forall in H. apply H. exact Hin.
    - pose proof (split_space_pieces (blankOthers (Js.toLowerCase text))
                                     0 "" None eq_refl) as H.
      rewrite Forall_forall in H. apply H. exact Hin. }
  split; [exact Hlen|]. split; [apply setHas_false; exact Hcommon|].
  split; [exact Hchars|apply toLowerCase_fixed; exact Hchars].
Qed.

(** X20.  For a task without changes and a file content of ASCII
    characters, the match percentage does not depend on the case of the
    content. *)
Theorem score_ignores_case (content : string) (task : Task.t) :
  Task.changes task = [] ->
  isAscii content = true ->
  calculateMatchPercentage (Js.toUpperCase content) task
  = calculateMatchPercentage content task
  /\ calculateMatchPercentage (Js.toLowerCase content) task
     = calculateMatchPercentage content task.
Proof.
intros Hch _. unfold calculateMatchPercentage. rewrite Hch.
simpl List.length. change (0 <? 0)%nat with false. cbv iota.
rewrite toLowerCase_toUpperCase, toLowerCase_idempotent. split; reflexivity.
Qed.

Lemma score_ignores_case_witness :
  (calculateMatchPercentage
     "EXPORT FUNCTION PARSECONFIG"
     (demoTask "task-1" create "a.ts" "Add parseConfig helper function")
   == 65)%Q
  /\ (calculateMatchPercentage
        "export function parseconfig"
        (demoTask "task-1" create "a.ts" "Add parseConfig helper function")
      == 65)%Q.
Proof.
destruct (score_ignores_case
            "export function parseconfig"
            (demoTask "task-1" create "a.ts" "Add parseConfig helper function")
            eq_refl eq_refl) as [Hup _].
split; [|vm_compute; reflexivity].
change "EXPORT FUNCTION PARSECONFIG"
  with (Js.toUpperCase "export function parseconfig").
rewrite Hup. vm_compute. reflexivity.
Defined.

End VerifierMore.

(* ===================================================================== *)
(** * From the extractor to the verifier *)
(* ===================================================================== *)

Module Pipeline.
Import Planner PlannerFacts PlannerMore Verifier VerifierFacts VerifierSpec VerifierMore.

Lemma extractTasks_supported (content : string) :
  Forall (fun task => supported task /\ Task.changes task = []) (extractTasks content).
Proof.
apply extractTasks_forall.
- split; [right; left; reflexivity|reflexivity].
- intros file. split; [|reflexivity]. unfold supported, taskOf. simpl.
  unfold determineTaskType.
  repeat match goal with
         | |- context [if ?b then _ else _] => destruct b
         end; auto.
Qed.

Lemma extracted_tasks_supported (now date : nat) (markdown description : string)
      (analysis : AnalysisResult.t) (options : VerifyOptions.t) :
  Forall (fun task => supported task /\ Task.changes task = [])
         (getTasksToVerify
            (parsePlanFromMarkdown now date markdown description analysis) options).
Proof.
apply Forall_forall. intros task Hin.
apply selected_in_phase in Hin. destruct Hin as [phase [Hphase Htask]].
change (Plan.phases (parsePlanFromMarkdown now date markdown description analysis))
  with (extractPhases markdown) in Hphase.
assert (Hall : Forall (fun ph =>
                         Forall (fun task => supported task /\ Task.changes task = [])
                                (Phase.tasks ph))
                      (extractPhases markdown)).
{ apply extractPhases_forall.
  - apply extractTasks_supported.
  - intros m idx. apply extractTasks_supported. }
rewrite Forall_forall in Hall. specialize (Hall phase Hphase).
rewrite Forall_forall in Hall. apply Hall. exact Htask.
Qed.

(** X21.  Whatever the markdown and the options, the tasks verified for an
    extracted plan are create, modify or delete tasks without changes.  So
    in a run on an extracted plan there are exactly as many critical
    issues as missing tasks, the overall status is [fail] exactly when
    some task result is [fail], and [pass] exactly when all are [pass]. *)
Theorem extracted_plan_run (fs : FileSystem.t) (now date date' : nat)
        (markdown description : string) (analysis : AnalysisResult.t)
        (rootPath : string) (options : VerifyOptions.t) :
  let plan := parsePlanFromMarkdown now date markdown description analysis in
  Forall (fun task => supported task /\ Task.changes task = [])
         (getTasksToVerify plan options)
  /\ forall r,
      verify fs date' plan rootPath options = Ok r ->
      VerificationSummary.criticalIssues (VerificationResult.summary r)
      = VerificationSummary.tasksMissing (VerificationResult.summary r)
      /\ (VerificationResult.overallStatus r = Status.fail
          <-> Exists (fun tv => TaskVerification.status tv = Status.fail)
                     (VerificationResult.taskResults r))
      /\ (VerificationResult.overallStatus r = Status.pass
          <-> Forall (fun tv => TaskVerification.status tv = Status.pass)
                     (VerificationResult.taskResults r)).
Proof.
cbv zeta.
pose proof (extracted_tasks_supported now date markdown description analysis options)
  as Hsup.
split; [exact Hsup|].
intros r H.
assert (Hall : Forall supported
                      (getTasksToVerify
                         (parsePlanFromMarkdown now date markdown description analysis)
                         options)).
{ apply Forall_forall. intros task Hin. rewrite Forall_forall in Hsup.
  apply (Hsup task Hin). }
pose proof (run_shapes _ _ _ _ _ _ H) as Hshapes.
pose proof (shapes_counts _ _ Hshapes) as [_ [_ [_ Hcrit]]].
pose proof (overall_by_shapes _ _ Hshapes) as [Hpass [_ Hfail]].
apply verify_ok in H. destruct H as [_ [Hs Ho]].
rewrite Ho, Hs. unfold summarize at 1 2. simpl.
split; [apply Hcrit; exact Hall|].
split; [apply Hfail; exact Hall|exact Hpass].
Qed.

Lemma extracted_plan_run_witness :
  exists r,
    verify demoFs 3
           (parsePlanFromMarkdown 1 2 "Update `a.ts` and then `gone.ts`" "update"
                                  (AnalysisResult.mk (Project.mk [])))
           "/r" noOptions
    = Ok r
    /\ map TaskVerification.status (VerificationResult.taskResults r)
       = [Status.partial; Status.fail]
    /\ VerificationSummary.criticalIssues (VerificationResult.summary r)
       = VerificationSummary.tasksMissing (VerificationResult.summary r)
    /\ VerificationResult.overallStatus r = Status.fail.
Proof.
destruct (verify demoFs 3
                 (parsePlanFromMarkdown 1 2 "Update `a.ts` and then `gone.ts`" "update"
                                        (AnalysisResult.mk (Project.mk [])))
                 "/r" noOptions) as [r|e] eqn:E.
- exists r. split; [reflexivity|].
  destruct (extracted_plan_run demoFs 1 2 3 "Update `a.ts` and then `gone.ts`" "update"
                               (AnalysisResult.mk (Project.mk [])) "/r" noOptions)
    as [_ Hrun].
  destruct (Hrun r E) as [Hcrit [Hfail _]].
  assert (Hst : map TaskVerification.status (VerificationResult.taskResults r)
                = [Status.partial; Status.fail])
    by (vm_compute in E; injection E as <-; reflexivity).
  split; [exact Hst|]. split; [exact Hcrit|].
  apply Hfail.
  destruct (VerificationResult.taskResults r) as [|a [|b l]]; try discriminate Hst.
  injection Hst as _ Hb _. apply Exists_cons_tl. apply Exists_cons_hd. exact Hb.
- vm_compute in E. discriminate E.
Defined.

End Pipeline.

(* ===================================================================== *)
(** * Phases that can run ([Phaser]) *)
(* ===================================================================== *)

Definition PhaseStatus_eqb (a b : PhaseStatus.t) : bool :=
match a, b with
| PhaseStatus.pending, PhaseStatus.pending
| PhaseStatus.inProgress, PhaseStatus.inProgress
| PhaseStatus.completed, PhaseStatus.completed
| PhaseStatus.failed, PhaseStatus.failed => true
| _, _ => false
end.

Module Phaser.

(** [phases.find(p => p.id === depId)?.status === 'completed'] *)
Definition dependencyMet (phases : list Phase.t) (depId : string) : bool :=
match find (fun p => Phase.id p =? depId) phases with
| Some p => PhaseStatus_eqb (Phase.status p) PhaseStatus.completed
| None => false
end.

Definition getExecutablePhases (phases : list Phase.t) : list Phase.t :=
filter (fun phase =>
          PhaseStatus_eqb (Phase.status phase) PhaseStatus.pending
          && forallb (dependencyMet phases) (Phase.dependencies phase))
       phases.

Definition areAllPhasesCompleted (phases : list Phase.t) : bool :=
forallb (fun phase => PhaseStatus_eqb (Phase.status phase) PhaseStatus.completed)
        phases.

End Phaser.

Module PhaserFacts.
Import Planner PlannerFacts PlannerMore Phaser.

Lemma PhaseStatus_eqb_eq (a b : PhaseStatus.t) : PhaseStatus_eqb a b = true <-> a = b.
Proof. destruct a, b; simpl; split; intros H; try reflexivity; discriminate H. Qed.

Lemma filter_all_false {A : Type} (p : A -> bool) (l : list A) :
  (forall x, In x l -> p x = false) -> filter p l = [].
Proof.
induction l as [|a l IH]; intros H; simpl; [reflexivity|].
rewrite (H a) by (left; reflexivity). apply IH.
intros x Hx. apply H. right. exact Hx.
Qed.

(** X22.  A phase can run only if it is pending and each of its
    dependencies names a phase of the list that is completed: a dependency
    on an id that no phase has blocks it for good.  Once all phases are
    completed none can run. *)
Theorem executable_phases (phases : list Phase.t) :
  Forall (fun phase =>
            In phase phases
            /\ Phase.status phase = PhaseStatus.pending
            /\ Forall (fun depId =>
                         exists p,
                           In p phases
                           /\ Phase.id p = depId
                           /\ Phase.status p = PhaseStatus.completed)
                      (Phase.dependencies phase))
         (getExecutablePhases phases)
  /\ (areAllPhasesCompleted phases = true -> getExecutablePhases phases = []).
Proof.
split.
- apply Forall_forall. intros phase Hin. unfold getExecutablePhases in Hin.
  apply filter_In in Hin. destruct Hin as [Hin Hp].
  apply andb_true_iff in Hp. destruct Hp as [Hs Hd].
  split; [exact Hin|]. split; [apply PhaseStatus_eqb_eq; exact Hs|].
  apply Forall_forall. intros depId Hdep.
  rewrite forallb_forall in Hd. specialize (Hd depId Hdep).
  unfold dependencyMet in Hd.
  destruct (find (fun p => Phase.id p =? depId) phases) as [p|] eqn:Ef;
    [|discriminate Hd].
  apply find_some in Ef. destruct Ef as [Hp Hid].
  exists p. split; [exact Hp|]. split; [apply String.eqb_eq; exact Hid|].
  apply PhaseStatus_eqb_eq. exact Hd.
- intros Hall. unfold getExecutablePhases. apply filter_all_false.
  intros phase Hin. unfold areAllPhasesCompleted in Hall.
  rewrite forallb_forall in Hall. specialize (Hall phase Hin).
  apply PhaseStatus_eqb_eq in Hall. rewrite Hall. reflexivity.
Qed.

Lemma extractPhases_pending (markdown : string) :
  Forall (fun ph => Phase.status ph = PhaseStatus.pending) (extractPhases markdown).
Proof. apply extractPhases_forall; [reflexivity|intros m idx; reflexivity]. Qed.

Lemma pending_dependency_unmet (phases : list Phase.t) (depId : string) :
  Forall (fun ph => Phase.status ph = PhaseStatus.pending) phases ->
  dependencyMet phases depId = false.
Proof.
intros Hall. unfold dependencyMet.
destruct (find (fun p => Phase.id p =? depId) phases) as [p|] eqn:Ef; [|reflexivity].
apply find_some in Ef. destruct Ef as [Hp _].
rewrite Forall_forall in Hall. rewrite (Hall p Hp). reflexivity.
Qed.

(** X23.  Of the phases of a freshly extracted plan exactly one can run,
    the first: every later phase waits for the phase before it, and the
    plan is not completed. *)
Theorem first_extracted_phase_runs (markdown : string) :
  getExecutablePhases (extractPhases markdown) = firstn 1 (extractPhases markdown)
  /\ List.length (getExecutablePhases (extractPhases markdown)) = 1
  /\ areAllPhasesCompleted (extractPhases markdown) = false.
Proof.
pose proof (extractPhases_pending markdown) as Hpending.
pose proof (extractPhases_eq markdown) as Heq.
remember (extractPhases markdown) as phases eqn:Hph. clear Hph.
assert (Hunmet : forall depId, dependencyMet phases depId = false)
  by (intros depId; apply pending_dependency_unmet; exact Hpending).
assert (Hshape : exists first rest,
           phases = first :: rest
           /\ Phase.status first = PhaseStatus.pending
           /\ Phase.dependencies first = []
           /\ forall ph, In ph rest -> Phase.dependencies ph <> []).
{ destruct (Regex.matchAll phaseFlags phasePattern markdown) as [|m ms].
  - exists (implementationPhase markdown), []. subst phases.
    repeat split. intros ph [].
  - rewrite pushPhases_cons in Heq.
    exists (phaseOf m 0), (pushPhases ms 1 []). subst phases.
    repeat split. intros ph Hin.
    apply In_nth_error in Hin. destruct Hin as [k Hk].
    apply pushPhases_nth in Hk. destruct Hk as [m' [_ ->]].
    rewrite phaseOf_dependencies. simpl. discriminate. }
destruct Hshape as [first [rest [-> [Hst [Hdeps Hrest]]]]].
assert (Hexec : getExecutablePhases (first :: rest) = [first]).
{ unfold getExecutablePhases. cbn [filter].
  rewrite Hst, Hdeps. cbn [PhaseStatus_eqb forallb andb]. f_equal.
  apply filter_all_false. intros ph Hin.
  assert (Hp : Phase.status ph = PhaseStatus.pending).
  { rewrite Forall_forall in Hpending. apply Hpending. right. exact Hin. }
  rewrite Hp. cbn [PhaseStatus_eqb andb].
  destruct (Phase.dependencies ph) as [|d ds] eqn:Ed;
    [exfalso; exact (Hrest ph Hin Ed)|].
  cbn [forallb]. rewrite Hunmet. reflexivity. }
rewrite Hexec. split; [reflexivity|]. split; [reflexivity|].
unfold areAllPhasesCompleted. cbn [forallb]. rewrite Hst. reflexivity.
Qed.

End PhaserFacts.

(* ===================================================================== *)
(** * Counting lines ([src/utils/fileSystem.ts]) *)
(* ===================================================================== *)

Module Lines.

Definition LF : ascii := ascii_of_nat 10.

(** [content.split('\n')]: the pieces between line feeds. *)
Fixpoint splitLines (piece content : string) : list string :=
match content with
| EmptyString => [piece]
| String c t =>
  if Ascii.eqb c LF then piece :: splitLines "" t
  else splitLines (piece ++ String c "") t
end.

(** [countLines]: an error of [readFile] is caught and gives 0. *)
Definition countLines (fs : FileSystem.t) (filePath : string) : nat :=
match readFile fs filePath with
| Ok content => List.length (splitLines "" content)
| Err _ => 0
end.

(** The number of line feeds in a text. *)
Fixpoint lineFeeds (content : string) : nat :=
match content with
| EmptyString => 0
| String c t => (if Ascii.eqb c LF then 1 else 0) + lineFeeds t
end.

Lemma splitLines_length (content : string) :
  forall piece, List.length (splitLines piece content) = S (lineFeeds content).
Proof.
induction content as [|c t IH]; intros piece; simpl; [reflexivity|].
destruct (Ascii.eqb c LF); simpl; rewrite IH; reflexivity.
Qed.

(** X24.  [countLines] never fails.  It is 0 exactly when the file cannot
    be read; for a readable file it is one more than the number of line
    feeds, so an empty file counts 1 line and a text ending in a line feed
    counts the empty piece after it. *)
Theorem countLines_value (fs : FileSystem.t) (filePath : string) :
  (countLines fs filePath = 0 <-> FileSystem.read fs filePath = None)
  /\ (forall content,
        FileSystem.read fs filePath = Some content ->
        countLines fs filePath = S (lineFeeds content))
  /\ (FileSystem.read fs filePath = Some "" -> countLines fs filePath = 1).
Proof.
unfold countLines, readFile.
destruct (FileSystem.read fs filePath) as [content|].
- rewrite splitLines_length. split; [split; [lia|discriminate]|].
  split.
  + intros content' H. inversion H. reflexivity.
  + intros H. inversion H. reflexivity.
- split; [split; reflexivity|]. split; [intros content H|intros H]; discriminate H.
Qed.

End Lines.
